(** * Spectre AI assistant: orchestrator, planner and executor

    A shallow embedding of [src/core/orchestrator.ts], of the [PlannerAgent]
    class of [src/agents/index.ts] and of [src/agents/executor.ts], together
    with the properties of the orchestration core that the specification
    states about them.

    Conventions of the embedding.
    - A JavaScript [Map] is an association list in insertion order
      ([JsMap]): [set] on a present key replaces the value in place, on an
      absent key appends, and [values] iterates in insertion order, which is
      what [Array.from(map.values()).find(...)] observes.
    - Methods run in the monad [Js S]: the state is the runtime (clock,
      telemetry trace, heap of [Project] objects) paired with the fields of
      the object [this]; a method either completes normally or throws an
      [Error] whose message is a string.  A throw keeps every mutation made
      before it.
    - [Date.now()] and [new Date()] read the clock; the clock is an arbitrary
      sequence of readings, one per read.  Every call of the logger reads it
      once as well, to stamp its entry ([SpectreLogger.log], in
      [src/core/config.ts]).
    - Durations and scores are whole numbers; a fractional duration is
      outside the model.  A [number] is a double: sums and comparisons of
      whole numbers are exact as long as every value stays within 2^53 in
      magnitude, and the statements that depend on a sum or a product being
      exact say so in a hypothesis.
    - [Project] objects are mutated in place through references that outlive
      an [await], so they live in a heap; plans and steps are only ever
      replaced, never mutated, and are plain values.
    - The type annotations of the source are erased at run time: project and
      step types are strings, requirement values are arbitrary values. *)

From Stdlib Require Import String Ascii List ZArith QArith Qround Lia Bool.
From Stdlib Require Import DecimalString.
From Stdlib Require Import Sorted.
Import ListNotations.

Local Open Scope string_scope.
Local Open Scope Z_scope.

(** ** JavaScript values, numbers as text *)

(** A value of type [any], as far as the requirement maps need one. *)
Inductive JsValue : Type :=
| JsUndefined
| JsNull
| JsBool (b : bool)
| JsNumber (n : Z)
| JsString (s : string).

(** [a === b] *)
Definition strict_eq (a b : JsValue) : bool :=
  match a, b with
  | JsUndefined, JsUndefined => true
  | JsNull, JsNull => true
  | JsBool x, JsBool y => Bool.eqb x y
  | JsNumber x, JsNumber y => Z.eqb x y
  | JsString x, JsString y => String.eqb x y
  | _, _ => false
  end.

(** ToBoolean: what an [if] or a [&&] makes of a value. *)
Definition truthy (v : JsValue) : bool :=
  match v with
  | JsUndefined | JsNull => false
  | JsBool b => b
  | JsNumber n => negb (Z.eqb n 0)
  | JsString s => negb (String.eqb s "")
  end.

(** The text of an integral number inside a template literal. *)
Definition String_of_number (n : Z) : string :=
  NilZero.string_of_int (Z.to_int n).

(** ** [Map] with insertion order *)

Module JsMap.

Definition t (V : Type) : Type := list (string * V).

Definition empty {V : Type} : t V := [].

Fixpoint get {V : Type} (m : t V) (k : string) : option V :=
  match m with
  | [] => None
  | (k', v) :: rest => if String.eqb k' k then Some v else get rest k
  end.

Definition has {V : Type} (m : t V) (k : string) : bool :=
  match get m k with Some _ => true | None => false end.

Fixpoint set {V : Type} (m : t V) (k : string) (v : V) : t V :=
  match m with
  | [] => [(k, v)]
  | (k', v') :: rest =>
      if String.eqb k' k then (k, v) :: rest else (k', v') :: set rest k v
  end.

Definition values {V : Type} (m : t V) : list V := map snd m.

Definition size {V : Type} (m : t V) : nat := length m.

End JsMap.

(** [requirements.get(k)] on a [Map<string, any>]: [undefined] when absent. *)
Definition get_any (m : JsMap.t JsValue) (k : string) : JsValue :=
  match JsMap.get m k with Some v => v | None => JsUndefined end.

(** ** Data model ([src/utils/types.ts]) *)

Module ProjectStatus.
Inductive t : Set := planning | active | executing | completed | stopped | failed.
End ProjectStatus.

Module StepStatus.
Inductive t : Set := pending | in_progress | completed | failed | skipped.
End StepStatus.

Module PlanStatus.
Inductive t : Set := draft | approved | executing | completed | failed.
End PlanStatus.

Module Agent.
Record t : Type := mk {
  name : string;
  description : string;
  version : string
}.
End Agent.

Module Project.
Record t : Type := mk {
  id : string;
  name : string;
  type : string;
  description : string;
  status : ProjectStatus.t;
  createdAt : Z;
  updatedAt : Z;
  metadata : JsMap.t JsValue
}.
Definition with_status (p : t) (s : ProjectStatus.t) : t :=
  mk (id p) (name p) (type p) (description p) s (createdAt p) (updatedAt p)
     (metadata p).
Definition with_updatedAt (p : t) (d : Z) : t :=
  mk (id p) (name p) (type p) (description p) (status p) (createdAt p) d
     (metadata p).
End Project.

Module ExecutionStep.
Record t : Type := mk {
  id : string;
  name : string;
  description : string;
  type : string;
  dependencies : list string;
  estimatedDuration : Z;
  required : bool;
  order : Z;
  status : option StepStatus.t;
  startedAt : option Z;
  completedAt : option Z;
  error : option string;
  metadata : option (JsMap.t JsValue)
}.
End ExecutionStep.

Module ExecutionPlan.
Record t : Type := mk {
  id : string;
  projectId : string;
  projectType : string;
  steps : list ExecutionStep.t;
  status : PlanStatus.t;
  createdAt : Z;
  updatedAt : Z;
  estimatedDuration : Z;
  requirements : JsMap.t JsValue
}.
End ExecutionPlan.

(** [Partial<ExecutionPlan>]: every property may be missing. *)
Module PartialExecutionPlan.
Record t : Type := mk {
  id : option string;
  projectId : option string;
  projectType : option string;
  steps : option (list ExecutionStep.t);
  status : option PlanStatus.t;
  createdAt : option Z;
  updatedAt : option Z;
  estimatedDuration : option Z;
  requirements : option (JsMap.t JsValue)
}.
Definition none : t := mk None None None None None None None None None.
End PartialExecutionPlan.

(** ** The runtime and the method monad *)

Inductive LogMethod : Set := success | failure.

(** One call of [spectreLogger.success] or [spectreLogger.failure], with its
    arguments as passed ([None] for [undefined]). *)
Record LogCall : Type := mkLogCall {
  method : LogMethod;
  args : list (option string)
}.

Definition ref : Set := nat.

Record Runtime : Type := mkRuntime {
  clock : nat -> Z;
  ticks : nat;
  log : list LogCall;
  heap : ref -> Project.t;
  fresh : ref
}.

Inductive Completion (A : Type) : Type :=
| Normal (a : A)
| Throw (message : string).
Arguments Normal {A} a.
Arguments Throw {A} message.

Definition Js (S A : Type) : Type := Runtime * S -> Completion A * (Runtime * S).

Section Monad.
Context {S : Type}.

Definition ret {A : Type} (a : A) : Js S A := fun w => (Normal a, w).

Definition bind {A B : Type} (m : Js S A) (k : A -> Js S B) : Js S B :=
  fun w =>
    match m w with
    | (Normal a, w') => k a w'
    | (Throw e, w') => (Throw e, w')
    end.

Definition throw {A : Type} (message : string) : Js S A :=
  fun w => (Throw message, w).

Definition try_catch {A : Type} (body : Js S A) (handler : string -> Js S A)
  : Js S A :=
  fun w =>
    match body w with
    | (Normal a, w') => (Normal a, w')
    | (Throw e, w') => handler e w'
    end.

Definition this : Js S S := fun w => (Normal (snd w), w).

Definition update (f : S -> S) : Js S unit :=
  fun w => (Normal tt, (fst w, f (snd w))).

Definition Date_now : Js S Z :=
  fun w =>
    let r := fst w in
    (Normal (clock r (ticks r)),
     (mkRuntime (clock r) (Datatypes.S (ticks r)) (log r) (heap r) (fresh r),
      snd w)).

Definition new_Date : Js S Z := Date_now.

(** [spectreLogger.success(...)] and [spectreLogger.failure(...)].  Both go
    through [SpectreLogger.log], which builds the entry with
    [timestamp: new Date().toISOString()], a clock read of its own, and
    hands it to the transports; the trace keeps the call. *)
Definition spectreLogger (m : LogMethod) (a : list (option string))
  : Js S unit :=
  fun w =>
    let r := fst w in
    (Normal tt,
     (mkRuntime (clock r) (Datatypes.S (ticks r)) (log r ++ [mkLogCall m a])
        (heap r) (fresh r),
      snd w)).

Definition new_Project (p : Project.t) : Js S ref :=
  fun w =>
    let r := fst w in
    (Normal (fresh r),
     (mkRuntime (clock r) (ticks r) (log r)
        (fun l => if Nat.eqb l (fresh r) then p else heap r l)
        (Datatypes.S (fresh r)),
      snd w)).

Definition assign (l : ref) (f : Project.t -> Project.t) : Js S unit :=
  fun w =>
    let r := fst w in
    (Normal tt,
     (mkRuntime (clock r) (ticks r) (log r)
        (fun l' => if Nat.eqb l' l then f (heap r l) else heap r l')
        (fresh r),
      snd w)).

Definition deref (l : ref) : Js S Project.t :=
  fun w => (Normal (heap (fst w) l), w).

End Monad.

Notation "x <- m ;; k" := (bind m (fun x => k))
  (at level 61, m at next level, right associativity).
Notation "m ;; k" := (bind m (fun _ => k))
  (at level 61, right associativity).

(** ** The executor ([src/agents/executor.ts]) *)

Module ExecutorAgent.

Record t : Type := mk {
  activeExecutions : JsMap.t JsValue
}.

Definition name : string := "executor".

(** [await new Promise(resolve => setTimeout(resolve, ms))]: the timer always
    fires, nothing of the modelled state changes meanwhile. *)
Definition sleep (ms : Z) : Js t unit := ret tt.

Definition simulated (ms : Z) (action label status : string)
  (step : ExecutionStep.t) (projectId : string) : Js t unit :=
  sleep ms ;;
  spectreLogger success
    [Some "executor"; Some action; None; Some projectId;
     Some (label ++ " step completed: " ++ ExecutionStep.name step);
     Some status].

Definition executeSetupStep : ExecutionStep.t -> string -> Js t unit :=
  simulated 1000 "setup_completed" "Setup"
    "setup_successful".

Definition executePlanningStep : ExecutionStep.t -> string -> Js t unit :=
  simulated 2000 "planning_completed" "Planning"
    "planning_successful".

Definition executeDevelopmentStep : ExecutionStep.t -> string -> Js t unit :=
  simulated 5000 "development_completed" "Development"
    "development_successful".

Definition executeTestingStep : ExecutionStep.t -> string -> Js t unit :=
  simulated 3000 "testing_completed" "Testing"
    "testing_successful".

Definition executeDeploymentStep : ExecutionStep.t -> string -> Js t unit :=
  simulated 4000 "deployment_completed" "Deployment"
    "deployment_successful".

Definition executeIntegrationStep : ExecutionStep.t -> string -> Js t unit :=
  simulated 2500 "integration_completed" "Integration"
    "integration_successful".

Definition executeInfrastructureStep : ExecutionStep.t -> string -> Js t unit :=
  simulated 3500 "infrastructure_completed" "Infrastructure"
    "infrastructure_successful".

Definition executeAnalysisStep : ExecutionStep.t -> string -> Js t unit :=
  simulated 1500 "analysis_completed" "Analysis"
    "analysis_successful".

Definition executeStepByType (step : ExecutionStep.t) (projectId : string)
  : Js t unit :=
  let ty := ExecutionStep.type step in
  if String.eqb ty "setup" then executeSetupStep step projectId
  else if String.eqb ty "planning" then executePlanningStep step projectId
  else if String.eqb ty "development" then executeDevelopmentStep step projectId
  else if String.eqb ty "testing" then executeTestingStep step projectId
  else if String.eqb ty "deployment" then executeDeploymentStep step projectId
  else if String.eqb ty "integration" then executeIntegrationStep step projectId
  else if String.eqb ty "infrastructure" then executeInfrastructureStep step projectId
  else if String.eqb ty "analysis" then executeAnalysisStep step projectId
  else throw ("Unknown step type: " ++ ty).

Definition executeStep (step : ExecutionStep.t) (projectId : string)
  : Js t bool :=
  spectreLogger success
    [Some "executor"; Some "step_execution_started"; None; Some projectId;
     Some ("Executing step: " ++ ExecutionStep.name step);
     Some "execution_in_progress"] ;;
  try_catch
    (executeStepByType step projectId ;;
     spectreLogger success
       [Some "executor"; Some "step_execution_completed"; None; Some projectId;
        Some ("Step completed: " ++ ExecutionStep.name step);
        Some "step_successful"] ;;
     ret true)
    (fun error =>
       spectreLogger failure
         [Some "executor"; Some "step_execution_failed"; Some error;
          Some projectId; Some (ExecutionStep.name step);
          Some "Step execution failed"; Some "step_failed"] ;;
       ret false).

End ExecutorAgent.

(** ** The orchestrator ([src/core/orchestrator.ts]) *)

Module Orchestrator.

Record t : Type := mk {
  agents : JsMap.t Agent.t;
  projects : JsMap.t ref;
  plans : JsMap.t ExecutionPlan.t;
  isShutdown : bool
}.

(** [new Orchestrator()] *)
Definition new : t := mk JsMap.empty JsMap.empty JsMap.empty false.

Definition registerAgent (agent : Agent.t) : Js t unit :=
  update (fun o => mk (JsMap.set (agents o) (Agent.name agent) agent)
                      (projects o) (plans o) (isShutdown o)) ;;
  spectreLogger success
    [Some "orchestrator"; Some "agent_registered"; None; None;
     Some ("Agent registered: " ++ Agent.name agent); Some "agent_ready"].

Definition getAgent (name : string) : Js t (option Agent.t) :=
  o <- this ;; ret (JsMap.get (agents o) name).

(** [description || ''] *)
Definition or_empty (description : option string) : string :=
  match description with Some d => d | None => "" end.

Definition createProject (name type : string) (description : option string)
  : Js t ref :=
  now <- Date_now ;;
  created <- new_Date ;;
  updated <- new_Date ;;
  project <- new_Project
    (Project.mk ("project_" ++ String_of_number now) name type
       (or_empty description) ProjectStatus.planning created updated
       JsMap.empty) ;;
  update (fun o => mk (agents o)
                      (JsMap.set (projects o)
                         ("project_" ++ String_of_number now) project)
                      (plans o) (isShutdown o)) ;;
  spectreLogger success
    [Some "orchestrator"; Some "project_created"; None;
     Some ("project_" ++ String_of_number now);
     Some ("Project created: " ++ name); Some "project_ready"] ;;
  ret project.

Definition getProject (projectId : string) : Js t (option ref) :=
  o <- this ;; ret (JsMap.get (projects o) projectId).

Definition startProject (projectId : string) : Js t unit :=
  o <- this ;;
  match JsMap.get (projects o) projectId with
  | None => throw ("Project " ++ projectId ++ " not found")
  | Some project =>
      assign project (fun p => Project.with_status p ProjectStatus.active) ;;
      now <- new_Date ;;
      assign project (fun p => Project.with_updatedAt p now) ;;
      p <- deref project ;;
      spectreLogger success
        [Some "orchestrator"; Some "project_started"; None; Some projectId;
         Some ("Project started: " ++ Project.name p); Some "project_active"]
  end.

Definition stopProject (projectId : string) : Js t unit :=
  o <- this ;;
  match JsMap.get (projects o) projectId with
  | None => throw ("Project " ++ projectId ++ " not found")
  | Some project =>
      assign project (fun p => Project.with_status p ProjectStatus.stopped) ;;
      now <- new_Date ;;
      assign project (fun p => Project.with_updatedAt p now) ;;
      p <- deref project ;;
      spectreLogger success
        [Some "orchestrator"; Some "project_stopped"; None; Some projectId;
         Some ("Project stopped: " ++ Project.name p); Some "project_inactive"]
  end.

Definition generateExecutionPlan (projectId : string)
  : Js t ExecutionPlan.t :=
  o <- this ;;
  match JsMap.get (projects o) projectId with
  | None => throw ("Project " ++ projectId ++ " not found")
  | Some project =>
      match JsMap.get (agents o) "planner" with
      | None => throw "Planner agent not found"
      | Some planner =>
          p <- deref project ;;
          now <- Date_now ;;
          created <- new_Date ;;
          updated <- new_Date ;;
          let plan :=
            ExecutionPlan.mk
              ("plan_" ++ projectId ++ "_" ++ String_of_number now)
              projectId (Project.type p) [] PlanStatus.draft created updated
              0 JsMap.empty in
          update (fun o => mk (agents o) (projects o)
                              (JsMap.set (plans o) (ExecutionPlan.id plan) plan)
                              (isShutdown o)) ;;
          spectreLogger success
            [Some "orchestrator"; Some "plan_generated"; None; Some projectId;
             Some "Execution plan generated"; Some "plan_ready"] ;;
          ret plan
      end
  end.

(** [Array.from(this.plans.values()).find(p => p.projectId === projectId)] *)
Definition findPlan (o : t) (projectId : string) : option ExecutionPlan.t :=
  List.find (fun p => String.eqb (ExecutionPlan.projectId p) projectId)
    (JsMap.values (plans o)).

(** [executeProjectPlan] up to its [await]: the caller is suspended there
    with its locals [project], a reference, and [plan], and other calls may
    run. *)
Definition executeProjectPlan_begin (projectId : string)
  : Js t (ref * ExecutionPlan.t) :=
  o <- this ;;
  match JsMap.get (projects o) projectId with
  | None => throw ("Project " ++ projectId ++ " not found")
  | Some project =>
      match findPlan o projectId with
      | None => throw ("No plan found for project " ++ projectId)
      | Some plan =>
          assign project
            (fun p => Project.with_status p ProjectStatus.executing) ;;
          now <- new_Date ;;
          assign project (fun p => Project.with_updatedAt p now) ;;
          spectreLogger success
            [Some "orchestrator"; Some "plan_execution_started"; None;
             Some projectId; Some "Plan execution started";
             Some "execution_in_progress"] ;;
          ret (project, plan)
      end
  end.

(** [executeProjectPlan] after the two seconds of simulated execution;
    [plan] is not used again. *)
Definition executeProjectPlan_resume (projectId : string) (project : ref)
  : Js t unit :=
  assign project (fun p => Project.with_status p ProjectStatus.completed) ;;
  now <- new_Date ;;
  assign project (fun p => Project.with_updatedAt p now) ;;
  spectreLogger success
    [Some "orchestrator"; Some "plan_execution_completed"; None;
     Some projectId; Some "Plan execution completed";
     Some "execution_successful"].

(** [executeProjectPlan] when nothing else runs during the [await]. *)
Definition executeProjectPlan (projectId : string) : Js t unit :=
  locals <- executeProjectPlan_begin projectId ;;
  executeProjectPlan_resume projectId (fst locals).

Definition shutdown : Js t unit :=
  update (fun o => mk (agents o) (projects o) (plans o) true) ;;
  spectreLogger success
    [Some "orchestrator"; Some "shutdown_started"; None; None;
     Some "Orchestrator shutdown started"; Some "cleanup_in_progress"] ;;
  update (fun o => mk JsMap.empty (projects o) (plans o) (isShutdown o)) ;;
  update (fun o => mk (agents o) JsMap.empty (plans o) (isShutdown o)) ;;
  update (fun o => mk (agents o) (projects o) JsMap.empty (isShutdown o)) ;;
  spectreLogger success
    [Some "orchestrator"; Some "shutdown_completed"; None; None;
     Some "Orchestrator shutdown completed"; Some "cleanup_finished"].

Definition getAllAgents : Js t (list Agent.t) :=
  o <- this ;; ret (JsMap.values (agents o)).

Definition getAllProjects : Js t (list ref) :=
  o <- this ;; ret (JsMap.values (projects o)).

(** An entry of the array [getProjectLogs] returns; [timestamp] is the
    [Date] whose ISO text the entry carries. *)
Record MockLog : Type := mkMockLog {
  log_timestamp : Z;
  log_level : string;
  log_message : string;
  log_projectId : string
}.

(** [array.slice(0, end)] for an integral [end]: a negative [end] counts
    from the end of the array. *)
Definition slice_to {A : Type} (array : list A) (end_ : Z) : list A :=
  let len := Z.of_nat (length array) in
  let k := if end_ <? 0 then Z.max (len + end_) 0 else Z.min end_ len in
  firstn (Z.to_nat k) array.

(** [limit] is [None] when the argument is left out, and defaults to 50. *)
Definition getProjectLogs (projectId : string) (limit : option Z)
  : Js t (list MockLog) :=
  let limit := match limit with Some n => n | None => 50 end in
  now <- new_Date ;;
  ret (slice_to
         [mkMockLog now "info" ("Project " ++ projectId ++ " logs retrieved")
            projectId]
         limit).

Record SystemHealth : Type := mkSystemHealth {
  health_status : string;
  health_agents : nat;
  health_projects : nat;
  health_plans : nat;
  health_uptime : Q
}.

(** [uptime] is the reading of [process.uptime()] at the call. *)
Definition getSystemHealth (uptime : Q) : Js t SystemHealth :=
  o <- this ;;
  ret (mkSystemHealth (if isShutdown o then "shutdown" else "healthy")
         (JsMap.size (agents o)) (JsMap.size (projects o))
         (JsMap.size (plans o)) uptime).

(** The status of the project stored under [projectId], if any. *)
Definition statusOf (w : Runtime * t) (projectId : string)
  : option ProjectStatus.t :=
  match JsMap.get (projects (snd w)) projectId with
  | Some project => Some (Project.status (heap (fst w) project))
  | None => None
  end.

End Orchestrator.

(** ** The planner ([PlannerAgent] in [src/agents/index.ts]) *)

Module PlannerAgent.

Record t : Type := mk {
  plans : JsMap.t ExecutionPlan.t;
  templates : JsMap.t (list ExecutionStep.t)
}.

Definition name : string := "planner".

(** A step literal of a template: the optional properties are absent. *)
Definition literal (id name description type : string)
  (dependencies : list string) (estimatedDuration : Z) (required : bool)
  (order : Z) : ExecutionStep.t :=
  ExecutionStep.mk id name description type dependencies estimatedDuration
    required order None None None None None.

Definition website_template : list ExecutionStep.t :=
  [ literal "setup_repo" "Setup GitHub Repository"
      "Create and configure GitHub repository for the project"
      "setup" [] 30 true 1;
    literal "setup_project" "Initialize Project Structure"
      "Create basic project structure and configuration files"
      "setup" ["setup_repo"] 45 true 2;
    literal "design_architecture" "Design System Architecture"
      "Plan the overall system architecture and component structure"
      "planning" ["setup_project"] 60 true 3;
    literal "setup_database" "Setup Database"
      "Configure database schema and connections"
      "infrastructure" ["design_architecture"] 90 true 4;
    literal "create_backend" "Create Backend API"
      "Develop backend API endpoints and business logic"
      "development" ["setup_database"] 180 true 5;
    literal "create_frontend" "Create Frontend Interface"
      "Develop user interface and frontend components"
      "development" ["create_backend"] 240 true 6;
    literal "setup_cms" "Setup Content Management"
      "Configure CMS integration and content management"
      "integration" ["create_backend"] 120 false 7;
    literal "setup_deployment" "Setup Deployment Pipeline"
      "Configure CI/CD and deployment infrastructure"
      "deployment" ["create_frontend"] 90 true 8;
    literal "testing" "Testing and Quality Assurance"
      "Perform comprehensive testing and quality checks"
      "testing" ["setup_deployment"] 120 true 9;
    literal "deployment" "Deploy to Production"
      "Deploy the application to production environment"
      "deployment" ["testing"] 60 true 10 ].

Definition automation_template : list ExecutionStep.t :=
  [ literal "analyze_requirements" "Analyze Automation Requirements"
      "Understand the process to be automated and its requirements"
      "analysis" [] 60 true 1;
    literal "design_workflow" "Design Workflow"
      "Design the automation workflow and decision logic"
      "planning" ["analyze_requirements"] 90 true 2;
    literal "setup_integrations" "Setup Integrations"
      "Configure integrations with external systems and APIs"
      "integration" ["design_workflow"] 120 true 3;
    literal "create_workflow" "Create Automation Workflow"
      "Build the automation workflow using n8n or similar tool"
      "development" ["setup_integrations"] 180 true 4;
    literal "setup_monitoring" "Setup Monitoring and Alerts"
      "Configure monitoring, logging, and alerting systems"
      "infrastructure" ["create_workflow"] 90 true 5;
    literal "testing_automation" "Test Automation"
      "Test the automation workflow with various scenarios"
      "testing" ["setup_monitoring"] 120 true 6;
    literal "deploy_automation" "Deploy Automation"
      "Deploy the automation to production environment"
      "deployment" ["testing_automation"] 60 true 7 ].

Definition initializeTemplates (p : t) : t :=
  let p := mk (plans p) (JsMap.set (templates p) "website" website_template) in
  mk (plans p) (JsMap.set (templates p) "automation" automation_template).

(** [new PlannerAgent()] *)
Definition new : t := initializeTemplates (mk JsMap.empty JsMap.empty).

Definition shouldIncludeStep (step : ExecutionStep.t)
  (requirements : JsMap.t JsValue) : bool :=
  if ExecutionStep.required step then true
  else if String.eqb (ExecutionStep.id step) "setup_cms" then
    JsMap.has requirements "cms"
    && strict_eq (get_any requirements "cms") (JsBool true)
  else if String.eqb (ExecutionStep.id step) "setup_monitoring" then
    JsMap.has requirements "monitoring"
    && strict_eq (get_any requirements "monitoring") (JsBool true)
  else true.

(** [Math.round]: the nearest integer, halves towards plus infinity. *)
Definition Math_round (x : Q) : Z := Qfloor (x + (1 # 2))%Q.

(** Durations are whole numbers of minutes.  The products
    [duration * 1.5] and [duration * 0.8] are taken exactly, over the
    rationals: for whole durations below 2^40 in magnitude the
    double-precision product rounds, by [Math.round], to the same integer
    (three halves of such an integer is a double, and four fifths of one is
    at least a tenth away from the nearest half, far more than the rounding
    error of the product).  The durations of the stored templates lie
    between 30 and 240; a statement about other durations carries the bound
    as a hypothesis. *)
Definition adjustDuration (step : ExecutionStep.t)
  (requirements : JsMap.t JsValue) : Z :=
  let duration := inject_Z (ExecutionStep.estimatedDuration step) in
  let duration :=
    if JsMap.has requirements "complexity" then
      let complexity := get_any requirements "complexity" in
      if strict_eq complexity (JsString "high") then (duration * (3 # 2))%Q
      else if strict_eq complexity (JsString "low") then (duration * (4 # 5))%Q
      else duration
    else duration in
  Math_round duration.

(** [{ ...step, id: ..., estimatedDuration: ... }] *)
Definition respread (step : ExecutionStep.t) (id : string) (duration : Z)
  : ExecutionStep.t :=
  ExecutionStep.mk id (ExecutionStep.name step)
    (ExecutionStep.description step) (ExecutionStep.type step)
    (ExecutionStep.dependencies step) duration (ExecutionStep.required step)
    (ExecutionStep.order step) (ExecutionStep.status step)
    (ExecutionStep.startedAt step) (ExecutionStep.completedAt step)
    (ExecutionStep.error step) (ExecutionStep.metadata step).

(** The [for ... of] loop of [customizeSteps], [steps] being the array
    filled so far. *)
Fixpoint customizeSteps_from (steps : list ExecutionStep.t)
  (template : list ExecutionStep.t) (requirements : JsMap.t JsValue)
  : Js t (list ExecutionStep.t) :=
  match template with
  | [] => ret steps
  | step :: rest =>
      if shouldIncludeStep step requirements then
        now <- Date_now ;;
        customizeSteps_from
          (steps ++
           [respread step
              (ExecutionStep.id step ++ "_" ++ String_of_number now)
              (adjustDuration step requirements)])
          rest requirements
      else customizeSteps_from steps rest requirements
  end.

Definition customizeSteps (template : list ExecutionStep.t)
  (requirements : JsMap.t JsValue) : Js t (list ExecutionStep.t) :=
  customizeSteps_from [] template requirements.

(** [steps.reduce((total, step) => total + step.estimatedDuration, 0)].
    Each addition is exact while the running total stays within 2^53 in
    magnitude, as it does on the stored templates; a statement about the
    sum over other steps carries that as a hypothesis. *)
Definition calculateTotalDuration (steps : list ExecutionStep.t) : Z :=
  fold_left (fun total step => total + ExecutionStep.estimatedDuration step)
    steps 0.

Definition createPlan (projectId projectType : string)
  (requirements : JsMap.t JsValue) : Js t ExecutionPlan.t :=
  spectreLogger success
    [Some "planner"; Some "plan_creation_started"; None; Some projectId;
     Some ("Creating execution plan for " ++ projectType ++ " project");
     Some "planning_in_progress"] ;;
  p <- this ;;
  match JsMap.get (templates p) projectType with
  | None => throw ("No template found for project type: " ++ projectType)
  | Some template =>
      steps <- customizeSteps template requirements ;;
      now <- Date_now ;;
      created <- new_Date ;;
      updated <- new_Date ;;
      let plan :=
        ExecutionPlan.mk
          ("plan_" ++ projectId ++ "_" ++ String_of_number now)
          projectId projectType steps PlanStatus.draft created updated
          (calculateTotalDuration steps) requirements in
      update (fun p => mk (JsMap.set (plans p) (ExecutionPlan.id plan) plan)
                          (templates p)) ;;
      spectreLogger success
        [Some "planner"; Some "plan_created"; None; Some projectId;
         Some ("Execution plan created with "
               ++ String_of_number (Z.of_nat (length steps)) ++ " steps");
         Some "plan_ready_for_review"] ;;
      ret plan
  end.

Definition getPlan (planId : string) : Js t (option ExecutionPlan.t) :=
  p <- this ;; ret (JsMap.get (plans p) planId).

Definition or_else {A : Type} (o : option A) (a : A) : A :=
  match o with Some x => x | None => a end.

(** [{ ...plan, ...updates, updatedAt: now }] *)
Definition spread (plan : ExecutionPlan.t) (updates : PartialExecutionPlan.t)
  (now : Z) : ExecutionPlan.t :=
  ExecutionPlan.mk
    (or_else (PartialExecutionPlan.id updates) (ExecutionPlan.id plan))
    (or_else (PartialExecutionPlan.projectId updates)
       (ExecutionPlan.projectId plan))
    (or_else (PartialExecutionPlan.projectType updates)
       (ExecutionPlan.projectType plan))
    (or_else (PartialExecutionPlan.steps updates) (ExecutionPlan.steps plan))
    (or_else (PartialExecutionPlan.status updates) (ExecutionPlan.status plan))
    (or_else (PartialExecutionPlan.createdAt updates)
       (ExecutionPlan.createdAt plan))
    now
    (or_else (PartialExecutionPlan.estimatedDuration updates)
       (ExecutionPlan.estimatedDuration plan))
    (or_else (PartialExecutionPlan.requirements updates)
       (ExecutionPlan.requirements plan)).

Definition updatePlan (planId : string) (updates : PartialExecutionPlan.t)
  : Js t ExecutionPlan.t :=
  p <- this ;;
  match JsMap.get (plans p) planId with
  | None => throw ("Plan " ++ planId ++ " not found")
  | Some plan =>
      now <- new_Date ;;
      let updatedPlan := spread plan updates now in
      update (fun p => mk (JsMap.set (plans p) planId updatedPlan)
                          (templates p)) ;;
      spectreLogger success
        [Some "planner"; Some "plan_updated"; None;
         Some (ExecutionPlan.projectId plan); Some "Execution plan updated";
         Some "plan_modified"] ;;
      ret updatedPlan
  end.

Definition approvePlan (planId : string) : Js t ExecutionPlan.t :=
  updatePlan planId
    (PartialExecutionPlan.mk None None None None (Some PlanStatus.approved)
       None None None None).

Definition getProjectPlans (projectId : string)
  : Js t (list ExecutionPlan.t) :=
  p <- this ;;
  ret (filter (fun plan => String.eqb (ExecutionPlan.projectId plan) projectId)
         (JsMap.values (plans p))).

Definition addStep (planId : string) (step : ExecutionStep.t)
  : Js t ExecutionPlan.t :=
  p <- this ;;
  match JsMap.get (plans p) planId with
  | None => throw ("Plan " ++ planId ++ " not found")
  | Some plan =>
      let updatedSteps := (ExecutionPlan.steps plan ++ [step])%list in
      updatePlan planId
        (PartialExecutionPlan.mk None None None (Some updatedSteps) None
           None None None None)
  end.

End PlannerAgent.

(** ** The validator ([ValidatorAgent] in [src/agents/index.ts]) *)

(** [s.includes(sub)] *)
Fixpoint String_includes (s sub : string) : bool :=
  String.prefix sub s
  || match s with
     | EmptyString => false
     | String _ rest => String_includes rest sub
     end.

Module ValidatorAgent.

Record t : Type := mk {
  validations : JsMap.t JsValue
}.

Definition name : string := "validator".

Record Validation : Type := mkValidation {
  valid : bool;
  issues : list string;
  score : Z;
  recommendations : list string
}.

(** The local [score] of a validation method together with the two arrays
    it pushes to. *)
Record Tally : Type := mkTally {
  tally_score : Z;
  tally_issues : list string;
  tally_recommendations : list string
}.

(** [if (!present) { issues.push(issue); score -= penalty;
    recommendations.push(recommendation); }] *)
Definition unless (present : bool) (issue : string) (penalty : Z)
  (recommendation : string) (t : Tally) : Tally :=
  if present then t
  else mkTally (tally_score t - penalty) (tally_issues t ++ [issue])
         (tally_recommendations t ++ [recommendation]).

(** [step.status === 'completed'] *)
Definition is_completed (step : ExecutionStep.t) : bool :=
  match ExecutionStep.status step with
  | Some StepStatus.completed => true
  | _ => false
  end.

Definition names_include (plan : ExecutionPlan.t) (word : string) : bool :=
  existsb (fun step => String_includes (ExecutionStep.name step) word)
    (ExecutionPlan.steps plan).

Definition has_type (plan : ExecutionPlan.t) (type : string) : bool :=
  existsb (fun step => String.eqb (ExecutionStep.type step) type)
    (ExecutionPlan.steps plan).

(** Each validation method returns its score; the arrays [issues] and
    [recommendations] it was handed are returned as it leaves them. *)
Definition validateWebsite (plan : ExecutionPlan.t)
  (issues recommendations : list string) : Tally :=
  let t := mkTally 100 issues recommendations in
  let requiredSteps := filter ExecutionStep.required (ExecutionPlan.steps plan) in
  let completedSteps := filter is_completed requiredSteps in
  let t :=
    if (length completedSteps <? length requiredSteps)%nat then
      let missing :=
        Z.of_nat (length requiredSteps) - Z.of_nat (length completedSteps) in
      mkTally (tally_score t - missing * 10)
        (tally_issues t
         ++ [String_of_number missing ++ " required steps not completed"])
        (tally_recommendations t)
    else t in
  let hasBackend := names_include plan "Backend" in
  let hasFrontend := names_include plan "Frontend" in
  let hasDeployment := names_include plan "Deploy" in
  let t := unless hasBackend "Backend implementation missing" 20
             "Implement backend API" t in
  let t := unless hasFrontend "Frontend implementation missing" 20
             "Implement frontend interface" t in
  let t := unless hasDeployment "Deployment configuration missing" 15
             "Configure deployment pipeline" t in
  let hasTesting := has_type plan "testing" in
  let t := unless hasTesting "Testing not implemented" 10
             "Add comprehensive testing" t in
  let hasSecurity :=
    existsb (fun step =>
               String_includes (ExecutionStep.name step) "Security"
               || String_includes (ExecutionStep.name step) "Authentication")
      (ExecutionPlan.steps plan) in
  let t := unless hasSecurity "Security measures not implemented" 15
             "Implement security measures" t in
  mkTally (Z.max 0 (tally_score t)) (tally_issues t) (tally_recommendations t).

Definition validateAutomation (plan : ExecutionPlan.t)
  (issues recommendations : list string) : Tally :=
  let t := mkTally 100 issues recommendations in
  let hasWorkflow := names_include plan "Workflow" in
  let t := unless hasWorkflow "Workflow design missing" 25
             "Design automation workflow" t in
  let hasIntegrations := has_type plan "integration" in
  let t := unless hasIntegrations "System integrations missing" 20
             "Configure system integrations" t in
  let hasMonitoring := names_include plan "Monitoring" in
  let t := unless hasMonitoring "Monitoring not configured" 15
             "Setup monitoring and alerts" t in
  let hasTesting := has_type plan "testing" in
  let t := unless hasTesting "Automation testing missing" 15
             "Add automation testing" t in
  let hasErrorHandling :=
    existsb (fun step =>
               String_includes (ExecutionStep.name step) "Error"
               || String_includes (ExecutionStep.name step) "Recovery")
      (ExecutionPlan.steps plan) in
  let t := unless hasErrorHandling "Error handling not implemented" 10
             "Implement error handling" t in
  mkTally (Z.max 0 (tally_score t)) (tally_issues t) (tally_recommendations t).

Definition validateGeneric (plan : ExecutionPlan.t)
  (issues recommendations : list string) : Tally :=
  let t := mkTally 100 issues recommendations in
  let totalSteps := length (ExecutionPlan.steps plan) in
  let completedSteps := length (filter is_completed (ExecutionPlan.steps plan)) in
  let t :=
    if (completedSteps <? totalSteps)%nat then
      let incomplete := Z.of_nat totalSteps - Z.of_nat completedSteps in
      mkTally (tally_score t - incomplete * 5)
        (tally_issues t ++ [String_of_number incomplete ++ " steps not completed"])
        (tally_recommendations t ++ ["Complete all planned steps"])
    else t in
  let hasPlanning := has_type plan "planning" in
  let t := unless hasPlanning "Planning phase missing" 10
             "Include planning phase" t in
  mkTally (Z.max 0 (tally_score t)) (tally_issues t) (tally_recommendations t).

Definition performValidation (plan : ExecutionPlan.t) (projectId : string)
  : Js t Validation :=
  let issues : list string := [] in
  let recommendations : list string := [] in
  let t :=
    if String.eqb (ExecutionPlan.projectType plan) "website" then
      validateWebsite plan issues recommendations
    else if String.eqb (ExecutionPlan.projectType plan) "automation" then
      validateAutomation plan issues recommendations
    else validateGeneric plan issues recommendations in
  ret (mkValidation (85 <=? tally_score t) (tally_issues t)
         (PlannerAgent.Math_round (inject_Z (tally_score t)))
         (tally_recommendations t)).

Definition validateProject (plan : ExecutionPlan.t) (projectId : string)
  : Js t Validation :=
  spectreLogger success
    [Some "validator"; Some "project_validation_started"; None;
     Some projectId; Some "Starting project validation";
     Some "validation_in_progress"] ;;
  try_catch
    (validation <- performValidation plan projectId ;;
     (if valid validation then
        spectreLogger success
          [Some "validator"; Some "project_validation_passed"; None;
           Some projectId;
           Some ("Project validation passed with score "
                 ++ String_of_number (score validation));
           Some "validation_successful"]
      else
        spectreLogger failure
          [Some "validator"; Some "project_validation_failed";
           Some (String.concat ", " (issues validation)); Some projectId;
           Some "Project validation"; Some "Project validation failed";
           Some "validation_failed"]) ;;
     ret validation)
    (fun error =>
       spectreLogger failure
         [Some "validator"; Some "project_validation_error"; Some error;
          Some projectId; Some "Project validation";
          Some "Project validation error"; Some "validation_error"] ;;
       ret (mkValidation false ["Validation process failed"] 0
              ["Retry validation process"])).

End ValidatorAgent.

(** ** The reviewer ([src/agents/reviewer.ts]) *)

Module ReviewerAgent.

(** The field of the agent, and the source of random numbers: [random n] is
    the value of [Math.random() * 100] at the [n]-th evaluation, [drawn]
    counts the evaluations so far. *)
Record t : Type := mk {
  reviews : JsMap.t JsValue;
  random : nat -> Q;
  drawn : nat
}.

Definition name : string := "reviewer".

(** [Math.random() * 100] *)
Definition Math_random_times_100 : Js t Q :=
  fun w =>
    (Normal (random (snd w) (drawn (snd w))),
     (fst w, mk (reviews (snd w)) (random (snd w)) (S (drawn (snd w))))).

(** [x < n] *)
Definition below (x : Q) (n : Z) : bool := negb (Qle_bool (inject_Z n) x).

Record Review : Type := mkReview {
  passed : bool;
  issues : list string;
  score : Z
}.

(** The local [score] of a review method and the array it pushes to. *)
Record Tally : Type := mkTally {
  tally_score : Z;
  tally_issues : list string
}.

(** [const x = Math.random() * 100;
     if (x < threshold) { issues.push(issue); score -= penalty; }] *)
Definition check (threshold : Z) (issue : string) (penalty : Z) (t : Tally)
  : Js ReviewerAgent.t Tally :=
  x <- Math_random_times_100 ;;
  ret (if below x threshold
       then mkTally (tally_score t - penalty) (tally_issues t ++ [issue])
       else t).

Definition capped (t : Tally) : Tally :=
  mkTally (Z.max 0 (tally_score t)) (tally_issues t).

Definition reviewDevelopmentStep (step : ExecutionStep.t)
  (issues : list string) : Js ReviewerAgent.t Tally :=
  let t := mkTally 100 issues in
  t <- (if String_includes (ExecutionStep.name step) "Backend"
           || String_includes (ExecutionStep.name step) "Frontend"
        then check 70 "Code quality below standards" 20 t
        else ret t) ;;
  t <- (if String_includes (ExecutionStep.name step) "API"
           || String_includes (ExecutionStep.name step) "Backend"
        then check 80 "Security vulnerabilities detected" 15 t
        else ret t) ;;
  ret (capped t).

Definition reviewTestingStep (step : ExecutionStep.t) (issues : list string)
  : Js ReviewerAgent.t Tally :=
  let t := mkTally 100 issues in
  t <- check 80 "Insufficient test coverage" 25 t ;;
  t <- check 75 "Test quality needs improvement" 15 t ;;
  ret (capped t).

Definition reviewDeploymentStep (step : ExecutionStep.t)
  (issues : list string) : Js ReviewerAgent.t Tally :=
  let t := mkTally 100 issues in
  t <- check 85 "Deployment configuration issues" 20 t ;;
  t <- check 90 "Environment setup incomplete" 10 t ;;
  ret (capped t).

Definition reviewIntegrationStep (step : ExecutionStep.t)
  (issues : list string) : Js ReviewerAgent.t Tally :=
  let t := mkTally 100 issues in
  t <- check 85 "Integration incomplete" 20 t ;;
  t <- check 70 "API documentation missing" 15 t ;;
  ret (capped t).

Definition reviewGenericStep (step : ExecutionStep.t) (issues : list string)
  : Js ReviewerAgent.t Tally :=
  let t := mkTally 100 issues in
  t <- check 90 "Step not fully completed" 10 t ;;
  ret (capped t).

Definition performReview (step : ExecutionStep.t) (projectId : string)
  : Js ReviewerAgent.t Review :=
  let issues : list string := [] in
  let ty := ExecutionStep.type step in
  t <- (if String.eqb ty "development" then reviewDevelopmentStep step issues
        else if String.eqb ty "testing" then reviewTestingStep step issues
        else if String.eqb ty "deployment" then reviewDeploymentStep step issues
        else if String.eqb ty "integration" then
          reviewIntegrationStep step issues
        else reviewGenericStep step issues) ;;
  ret (mkReview (80 <=? tally_score t) (tally_issues t) (tally_score t)).

Definition reviewStep (step : ExecutionStep.t) (projectId : string)
  : Js ReviewerAgent.t bool :=
  spectreLogger success
    [Some "reviewer"; Some "step_review_started"; None; Some projectId;
     Some ("Reviewing step: " ++ ExecutionStep.name step);
     Some "review_in_progress"] ;;
  try_catch
    (review <- performReview step projectId ;;
     if passed review then
       spectreLogger success
         [Some "reviewer"; Some "step_review_passed"; None; Some projectId;
          Some ("Step review passed: " ++ ExecutionStep.name step);
          Some "review_successful"] ;;
       ret true
     else
       spectreLogger failure
         [Some "reviewer"; Some "step_review_failed";
          Some (String.concat ", " (issues review)); Some projectId;
          Some (ExecutionStep.name step); Some "Step review failed";
          Some "review_failed"] ;;
       ret false)
    (fun error =>
       spectreLogger failure
         [Some "reviewer"; Some "step_review_error"; Some error;
          Some projectId; Some (ExecutionStep.name step);
          Some "Step review error"; Some "review_error"] ;;
       ret false).

End ReviewerAgent.

(** ** The project routes ([setupApiRoutes] in [src/index.ts]) *)

Module SpectreApp.

Inductive Data : Type :=
| ProjectData (project : Project.t)
| PlanData (plan : ExecutionPlan.t).

(** The JSON body of an answer: [success], and whichever of [data],
    [message] and [error] the route sets. *)
Record Body : Type := mkBody {
  body_success : bool;
  body_data : option Data;
  body_message : option string;
  body_error : option string
}.

Record Response : Type := mkResponse {
  status : Z;
  body : Body
}.

(** [res.json(body)]: the status stays 200. *)
Definition json (b : Body) : Response := mkResponse 200 b.

(** [res.status(code).json({ success: false, error })] *)
Definition refused (code : Z) (error : string) : Response :=
  mkResponse code (mkBody false None None (Some error)).

(** [res.json({ success: true, message })] *)
Definition done (message : string) : Response :=
  json (mkBody true None (Some message) None).

(** GET /projects/:id *)
Definition get_project (id : string) : Js Orchestrator.t Response :=
  try_catch
    (project <- Orchestrator.getProject id ;;
     match project with
     | None => ret (refused 404 "Project not found")
     | Some project =>
         p <- deref project ;;
         ret (json (mkBody true (Some (ProjectData p)) None None))
     end)
    (fun error => ret (refused 500 error)).

(** POST /projects/:id/start *)
Definition post_start (id : string) : Js Orchestrator.t Response :=
  try_catch
    (Orchestrator.startProject id ;;
     ret (done "Project started successfully"))
    (fun error => ret (refused 500 error)).

(** POST /projects/:id/stop *)
Definition post_stop (id : string) : Js Orchestrator.t Response :=
  try_catch
    (Orchestrator.stopProject id ;;
     ret (done "Project stopped successfully"))
    (fun error => ret (refused 500 error)).

(** POST /projects/:id/plan *)
Definition post_plan (id : string) : Js Orchestrator.t Response :=
  try_catch
    (plan <- Orchestrator.generateExecutionPlan id ;;
     ret (json (mkBody true (Some (PlanData plan)) None None)))
    (fun error => ret (refused 500 error)).

(** POST /projects/:id/execute: the answer is sent when
    [executeProjectPlan] has resolved. *)
Definition post_execute (id : string) : Js Orchestrator.t Response :=
  try_catch
    (Orchestrator.executeProjectPlan id ;;
     ret (done "Project execution started"))
    (fun error => ret (refused 500 error)).

End SpectreApp.

(** ** The questioner ([QuestionerAgent] in [src/index.ts]) *)

Module SessionStatus.
Inductive t : Set := active | completed | cancelled.
End SessionStatus.

Module QuestionPattern.
Record t : Type := mk {
  id : string;
  type : string;
  questions : list string;
  required : bool;
  order : Z
}.
End QuestionPattern.

Module QuestionSession.
Record t : Type := mk {
  id : string;
  projectId : string;
  projectType : string;
  currentPattern : nat;
  answers : JsMap.t (list string);
  patterns : list QuestionPattern.t;
  status : SessionStatus.t;
  createdAt : Z;
  updatedAt : Z
}.
End QuestionSession.

(** A session object is reached through [activeSessions] only, so a write
    to it is a [set] under the key it was found with; what a method returns
    of it is its value at that time. *)
Module QuestionerAgent.

Record t : Type := mk {
  questionPatterns : JsMap.t QuestionPattern.t;
  activeSessions : JsMap.t QuestionSession.t
}.

Definition name : string := "questioner".

Definition website_basic : QuestionPattern.t :=
  QuestionPattern.mk "website_basic" "website"
    [ "What is the primary purpose of this website?";
      "Who is your target audience?";
      "What are the main features you want?";
      "Do you have any design preferences or brand guidelines?";
      "What content management needs do you have?";
      "Do you need user authentication?";
      "What integrations are required?";
      "What is your timeline for completion?";
      "Do you have a budget range?";
      "What is your preferred tech stack?" ]
    true 1.

Definition automation_basic : QuestionPattern.t :=
  QuestionPattern.mk "automation_basic" "automation"
    [ "What process are you looking to automate?";
      "What triggers should start the automation?";
      "What actions should the automation perform?";
      "What systems or tools need to be integrated?";
      "How often should this automation run?";
      "What data needs to be processed?";
      "Are there any error handling requirements?";
      "What notifications or alerts are needed?";
      "What is the expected volume of operations?";
      "Do you need reporting or analytics?" ]
    true 1.

Definition website_advanced : QuestionPattern.t :=
  QuestionPattern.mk "website_advanced" "website"
    [ "What SEO requirements do you have?";
      "Do you need analytics integration?";
      "What security requirements are needed?";
      "Do you need multi-language support?";
      "What performance requirements do you have?";
      "Do you need mobile responsiveness?";
      "What backup and recovery needs exist?";
      "Do you need API endpoints?";
      "What third-party integrations?";
      "What compliance requirements exist?" ]
    false 2.

Definition automation_advanced : QuestionPattern.t :=
  QuestionPattern.mk "automation_advanced" "automation"
    [ "What error recovery mechanisms are needed?";
      "Do you need audit logging?";
      "What performance requirements exist?";
      "Do you need conditional logic?";
      "What data validation is required?";
      "Do you need retry mechanisms?";
      "What monitoring and alerting?";
      "Do you need data transformation?";
      "What compliance requirements exist?";
      "Do you need user approval workflows?" ]
    false 2.

Definition initializeDefaultPatterns (a : t) : t :=
  let with_pattern (a : t) (p : QuestionPattern.t) : t :=
    mk (JsMap.set (questionPatterns a) (QuestionPattern.id p) p)
       (activeSessions a) in
  with_pattern
    (with_pattern (with_pattern (with_pattern a website_basic)
                     automation_basic)
       website_advanced)
    automation_advanced.

(** [new QuestionerAgent()] *)
Definition new : t := initializeDefaultPatterns (mk JsMap.empty JsMap.empty).

(** [patterns.sort((a, b) => a.order - b.order)]: ascending, and stable. *)
Fixpoint insert_by_order (p : QuestionPattern.t)
  (sorted : list QuestionPattern.t) : list QuestionPattern.t :=
  match sorted with
  | [] => [p]
  | q :: rest =>
      if QuestionPattern.order p <=? QuestionPattern.order q
      then p :: q :: rest
      else q :: insert_by_order p rest
  end.

Definition sort_by_order (patterns : list QuestionPattern.t)
  : list QuestionPattern.t :=
  fold_right insert_by_order [] patterns.

Definition getPatternsForType (a : t) (projectType : string)
  : list QuestionPattern.t :=
  sort_by_order
    (filter (fun pattern => String.eqb (QuestionPattern.type pattern) projectType)
       (JsMap.values (questionPatterns a))).

(** The session object found under [sessionId], after a write to it. *)
Definition store (sessionId : string) (session : QuestionSession.t)
  : Js t unit :=
  update (fun a => mk (questionPatterns a)
                      (JsMap.set (activeSessions a) sessionId session)).

Definition startSession (projectId projectType : string)
  : Js t QuestionSession.t :=
  spectreLogger success
    [Some "questioner"; Some "session_started"; None; Some projectId;
     Some ("Starting question session for " ++ projectType ++ " project");
     Some "session_created"] ;;
  now <- Date_now ;;
  a <- this ;;
  let patterns := getPatternsForType a projectType in
  created <- new_Date ;;
  updated <- new_Date ;;
  let session :=
    QuestionSession.mk
      ("session_" ++ projectId ++ "_" ++ String_of_number now)
      projectId projectType 0%nat JsMap.empty patterns SessionStatus.active
      created updated in
  store (QuestionSession.id session) session ;;
  spectreLogger success
    [Some "questioner"; Some "session_ready"; None; Some projectId;
     Some ("Question session ready with "
           ++ String_of_number (Z.of_nat (length patterns)) ++ " patterns");
     Some "awaiting_questions"] ;;
  ret session.

(** [session.answers.get(pattern.id)?.length || 0] *)
Definition answered (session : QuestionSession.t)
  (pattern : QuestionPattern.t) : nat :=
  match JsMap.get (QuestionSession.answers session)
          (QuestionPattern.id pattern) with
  | Some given => length given
  | None => 0%nat
  end.

Definition with_currentPattern (session : QuestionSession.t) (n : nat)
  : QuestionSession.t :=
  QuestionSession.mk (QuestionSession.id session)
    (QuestionSession.projectId session) (QuestionSession.projectType session)
    n (QuestionSession.answers session) (QuestionSession.patterns session)
    (QuestionSession.status session) (QuestionSession.createdAt session)
    (QuestionSession.updatedAt session).

(** The body of [getNextQuestion] once the session is found, with its
    recursive call unrolled over the patterns from [session.currentPattern]
    on: [remaining] is that rest of [session.patterns].  A pattern with no
    question left at the answered index (none, or an empty one) is stepped
    over by [session.currentPattern++]. *)
Fixpoint nextQuestion (sessionId : string)
  (remaining : list QuestionPattern.t) (session : QuestionSession.t)
  : Js t (option string) :=
  match remaining with
  | [] => ret None
  | currentPattern :: rest =>
      let currentQuestionIndex := answered session currentPattern in
      match nth_error (QuestionPattern.questions currentPattern)
              currentQuestionIndex with
      | Some (String c q) =>
          spectreLogger success
            [Some "questioner"; Some "question_generated"; None;
             Some (QuestionSession.projectId session);
             Some ("Generated question: "
                   ++ String.substring 0 50 (String c q) ++ "...");
             Some "question_ready"] ;;
          ret (Some (String c q))
      | _ =>
          let session :=
            with_currentPattern session
              (S (QuestionSession.currentPattern session)) in
          store sessionId session ;;
          nextQuestion sessionId rest session
      end
  end.

Definition getNextQuestion (sessionId : string) : Js t (option string) :=
  a <- this ;;
  match JsMap.get (activeSessions a) sessionId with
  | None => throw ("Session " ++ sessionId ++ " not found")
  | Some session =>
      nextQuestion sessionId
        (skipn (QuestionSession.currentPattern session)
           (QuestionSession.patterns session))
        session
  end.

Definition submitAnswer (sessionId answer : string) : Js t unit :=
  a <- this ;;
  match JsMap.get (activeSessions a) sessionId with
  | None => throw ("Session " ++ sessionId ++ " not found")
  | Some session =>
      match nth_error (QuestionSession.patterns session)
              (QuestionSession.currentPattern session) with
      | None => throw "No active pattern for session"
      | Some currentPattern =>
          let given :=
            match JsMap.get (QuestionSession.answers session)
                    (QuestionPattern.id currentPattern) with
            | Some given => given
            | None => []
            end in
          let patternAnswers := (given ++ [answer])%list in
          now <- new_Date ;;
          let session :=
            QuestionSession.mk (QuestionSession.id session)
              (QuestionSession.projectId session)
              (QuestionSession.projectType session)
              (QuestionSession.currentPattern session)
              (JsMap.set (QuestionSession.answers session)
                 (QuestionPattern.id currentPattern) patternAnswers)
              (QuestionSession.patterns session)
              (QuestionSession.status session)
              (QuestionSession.createdAt session) now in
          store sessionId session ;;
          spectreLogger success
            [Some "questioner"; Some "answer_submitted"; None;
             Some (QuestionSession.projectId session);
             Some ("Answer submitted for pattern "
                   ++ QuestionPattern.id currentPattern);
             Some "answer_stored"] ;;
          if (length (QuestionPattern.questions currentPattern)
              <=? length patternAnswers)%nat
          then
            store sessionId
              (with_currentPattern session
                 (S (QuestionSession.currentPattern session))) ;;
            spectreLogger success
              [Some "questioner"; Some "pattern_completed"; None;
               Some (QuestionSession.projectId session);
               Some ("Pattern " ++ QuestionPattern.id currentPattern
                     ++ " completed");
               Some "moving_to_next_pattern"]
          else ret tt
      end
  end.

Definition getSessionStatus (sessionId : string)
  : Js t (option QuestionSession.t) :=
  a <- this ;; ret (JsMap.get (activeSessions a) sessionId).

Definition completeSession (sessionId : string)
  : Js t (JsMap.t (list string)) :=
  a <- this ;;
  match JsMap.get (activeSessions a) sessionId with
  | None => throw ("Session " ++ sessionId ++ " not found")
  | Some session =>
      now <- new_Date ;;
      let session :=
        QuestionSession.mk (QuestionSession.id session)
          (QuestionSession.projectId session)
          (QuestionSession.projectType session)
          (QuestionSession.currentPattern session)
          (QuestionSession.answers session)
          (QuestionSession.patterns session) SessionStatus.completed
          (QuestionSession.createdAt session) now in
      store sessionId session ;;
      let allAnswers :=
        fold_left (fun all entry => JsMap.set all (fst entry) (snd entry))
          (QuestionSession.answers session) JsMap.empty in
      spectreLogger success
        [Some "questioner"; Some "session_completed"; None;
         Some (QuestionSession.projectId session);
         Some ("Question session completed with "
               ++ String_of_number (Z.of_nat (JsMap.size allAnswers))
               ++ " patterns");
         Some "session_finalized"] ;;
      ret allAnswers
  end.

Definition addPattern (pattern : QuestionPattern.t) : Js t unit :=
  update (fun a => mk (JsMap.set (questionPatterns a)
                         (QuestionPattern.id pattern) pattern)
                      (activeSessions a)) ;;
  spectreLogger success
    [Some "questioner"; Some "pattern_added"; None; None;
     Some ("Added new question pattern: " ++ QuestionPattern.id pattern);
     Some "pattern_registered"].

Definition getAllPatterns : Js t (list QuestionPattern.t) :=
  a <- this ;; ret (JsMap.values (questionPatterns a)).

End QuestionerAgent.

(** * Definitions used by the statements *)

(** ** A started process, used to run the model on concrete calls *)

Definition no_project : Project.t :=
  Project.mk "" "" "" "" ProjectStatus.planning 0 0 JsMap.empty.

(** A runtime whose clock reads 1700000000000 at the first read and one
    millisecond more at each following read; nothing logged, no project
    allocated. *)
Definition boot : Runtime :=
  mkRuntime (fun n => 1700000000000 + Z.of_nat n) 0%nat [] (fun _ => no_project)
    0%nat.

(** ** What the planner computes, as functions of the clock *)

Section PlannerRunsDefinitions.
Import PlannerAgent.

(** The runtime after [n] more clock reads. *)
Definition advance (r : Runtime) (n : nat) : Runtime :=
  mkRuntime (clock r) (ticks r + n) (log r) (heap r) (fresh r).

(** The runtime after one more logger call: the call is traced and the
    clock was read once, for the stamp of the entry. *)
Definition logged (r : Runtime) (m : LogMethod) (a : list (option string))
  : Runtime :=
  mkRuntime (clock r) (S (ticks r)) (log r ++ [mkLogCall m a]) (heap r)
    (fresh r).

(** What [customizeSteps] pushes when the clock is first read at [tick]. *)
Fixpoint stamped (clock : nat -> Z) (tick : nat)
  (template : list ExecutionStep.t) (requirements : JsMap.t JsValue)
  : list ExecutionStep.t :=
  match template with
  | [] => []
  | step :: rest =>
      if shouldIncludeStep step requirements then
        respread step
          (ExecutionStep.id step ++ "_" ++ String_of_number (clock tick))
          (adjustDuration step requirements)
        :: stamped clock (S tick) rest requirements
      else stamped clock tick rest requirements
  end.

(** The plan record [createPlan] builds when [customizeSteps] first reads
    the clock at [tick]: one reading per kept step, then one for the plan's
    identity and one for each of its two dates. *)
Definition planned (clock : nat -> Z) (tick : nat)
  (projectId projectType : string) (template : list ExecutionStep.t)
  (requirements : JsMap.t JsValue) : ExecutionPlan.t :=
  let steps := stamped clock tick template requirements in
  let n := length steps in
  ExecutionPlan.mk
    ("plan_" ++ projectId ++ "_" ++ String_of_number (clock (tick + n)%nat))
    projectId projectType steps PlanStatus.draft
    (clock (S (tick + n))) (clock (S (S (tick + n))))
    (calculateTotalDuration steps) requirements.

End PlannerRunsDefinitions.

(** ** Step selection and identities, as the specification words them *)

(** [s] is the step generated from the template step [t]: a copy of [t]
    under the identity [t.id_<now>] for some clock reading [now], with its
    duration adjusted to the requirements. *)
Definition generated (requirements : JsMap.t JsValue)
  (t s : ExecutionStep.t) : Prop :=
  exists now : Z,
    s = PlannerAgent.respread t
          (ExecutionStep.id t ++ "_" ++ String_of_number now)
          (PlannerAgent.adjustDuration t requirements).

(** The requirement key that gates an optional step, by template id. *)
Definition gating_key (id : string) : option string :=
  if String.eqb id "setup_cms" then Some "cms"
  else if String.eqb id "setup_monitoring" then Some "monitoring"
  else None.

(** A step is kept when it is required, or when it is optional, has a gating
    key, and the requirement map holds under that key a value that
    [enables] accepts.  Every other optional step is dropped. *)
Definition kept_when (enables : JsValue -> bool)
  (requirements : JsMap.t JsValue) (step : ExecutionStep.t) : bool :=
  ExecutionStep.required step
  || match gating_key (ExecutionStep.id step) with
     | Some key =>
         match JsMap.get requirements key with
         | Some v => enables v
         | None => false
         end
     | None => false
     end.

(** [v === true] *)
Definition strictly_true (v : JsValue) : bool := strict_eq v (JsBool true).

Definition has_step_named (name : string) (steps : list ExecutionStep.t)
  : bool :=
  existsb (fun s => String.eqb (ExecutionStep.name s) name) steps.

Definition is_digit (c : ascii) : bool :=
  (48 <=? nat_of_ascii c)%nat && (nat_of_ascii c <=? 57)%nat.

Fixpoint last_char (s : string) : option ascii :=
  match s with
  | EmptyString => None
  | String c rest =>
      match rest with
      | EmptyString => Some c
      | String _ _ => last_char rest
      end
  end.

Definition ends_with_digit (s : string) : bool :=
  match last_char s with Some c => is_digit c | None => false end.

(** ** Durations, as the specification words them *)

(** 1.5 when the map maps [complexity] to ['high'], 0.8 when to ['low'],
    1.0 otherwise. *)
Definition complexity_multiplier (requirements : JsMap.t JsValue) : Q :=
  match JsMap.get requirements "complexity" with
  | Some (JsString level) =>
      if String.eqb level "high" then 3 # 2
      else if String.eqb level "low" then 4 # 5
      else 1
  | _ => 1
  end.

(** The sum, over the given template steps, of base duration times
    multiplier, each product rounded to the nearest whole minute. *)
Fixpoint rounded_total (kept : list ExecutionStep.t)
  (requirements : JsMap.t JsValue) : Z :=
  match kept with
  | [] => 0
  | step :: rest =>
      PlannerAgent.Math_round
        (inject_Z (ExecutionStep.estimatedDuration step)
         * complexity_multiplier requirements)%Q
      + rounded_total rest requirements
  end.

(** ** Plans after [addStep] *)

(** [plan] with [step] appended to its steps and [updatedAt] set to [now];
    every other field as in [plan]. *)
Definition appended (plan : ExecutionPlan.t) (step : ExecutionStep.t)
  (now : Z) : ExecutionPlan.t :=
  ExecutionPlan.mk (ExecutionPlan.id plan) (ExecutionPlan.projectId plan)
    (ExecutionPlan.projectType plan) (ExecutionPlan.steps plan ++ [step])
    (ExecutionPlan.status plan) (ExecutionPlan.createdAt plan) now
    (ExecutionPlan.estimatedDuration plan) (ExecutionPlan.requirements plan).

(** A whole number that a double holds exactly, with room for sums: its
    magnitude is at most 2^53. *)
Definition safe_integer (n : Z) : bool := Z.abs n <=? 2 ^ 53.

(** From the running total [total] on, the [reduce] of
    [calculateTotalDuration] over [steps] adds safe integers and stays
    among them, so that every addition it makes is exact. *)
Fixpoint exact_from (total : Z) (steps : list ExecutionStep.t) : bool :=
  match steps with
  | [] => true
  | step :: rest =>
      safe_integer (ExecutionStep.estimatedDuration step)
      && safe_integer (total + ExecutionStep.estimatedDuration step)
      && exact_from (total + ExecutionStep.estimatedDuration step) rest
  end.

Definition exact_total (steps : list ExecutionStep.t) : bool :=
  exact_from 0 steps.

(** A custom step that takes no time. *)
Definition sign_off : ExecutionStep.t :=
  PlannerAgent.literal "sign_off" "Sign Off" "Record the client's approval"
    "analysis" [] 0 false 8.

(** A custom step of fifteen minutes. *)
Definition smoke_test : ExecutionStep.t :=
  PlannerAgent.literal "smoke_test" "Smoke Test"
    "Check the deployed automation once" "testing" [] 15 false 8.

(** A planner state that holds one generated plan, and that plan. *)
Definition generated_world : Runtime * PlannerAgent.t :=
  snd (PlannerAgent.createPlan "p1" "automation" [] (boot, PlannerAgent.new)).

Definition automation_plan : ExecutionPlan.t :=
  planned (clock boot) 1 "p1" "automation" PlannerAgent.automation_template [].

(** ** Project statuses and the orchestrator's calls *)

(** Between the runtimes [r] and [r'] the project object at [project] was
    given the status [st], and no other project object was touched. *)
Definition moved (r r' : Runtime) (project : ref) (st : ProjectStatus.t)
  : Prop :=
  Project.status (heap r' project) = st /\
  forall l, l <> project -> heap r' l = heap r l.

(** The calls a client of the orchestrator can make; [executeProjectPlan] is
    entered by [ExecuteProjectPlan] and left, after its [await], by
    [ResumeProjectPlan]. *)
Inductive Call : Type :=
| RegisterAgent (agent : Agent.t)
| CreateProject (name type : string) (description : option string)
| StartProject (projectId : string)
| StopProject (projectId : string)
| GenerateExecutionPlan (projectId : string)
| ExecuteProjectPlan (projectId : string)
| ResumeProjectPlan (projectId : string) (project : ref)
| Shutdown.

Definition discard {S A : Type} (m : Js S A) : Js S unit := m ;; ret tt.

Definition perform (c : Call) : Js Orchestrator.t unit :=
  match c with
  | RegisterAgent agent => Orchestrator.registerAgent agent
  | CreateProject name type description =>
      discard (Orchestrator.createProject name type description)
  | StartProject projectId => Orchestrator.startProject projectId
  | StopProject projectId => Orchestrator.stopProject projectId
  | GenerateExecutionPlan projectId =>
      discard (Orchestrator.generateExecutionPlan projectId)
  | ExecuteProjectPlan projectId =>
      discard (Orchestrator.executeProjectPlan_begin projectId)
  | ResumeProjectPlan projectId project =>
      Orchestrator.executeProjectPlan_resume projectId project
  | Shutdown => Orchestrator.shutdown
  end.

(** The most recently created plan of a project: among the stored plans of
    the project, one whose creation time is latest (the later stored one on
    equal times). *)
Definition most_recent_plan (o : Orchestrator.t) (projectId : string)
  : option ExecutionPlan.t :=
  fold_left
    (fun best p =>
       if String.eqb (ExecutionPlan.projectId p) projectId then
         match best with
         | None => Some p
         | Some b =>
             if ExecutionPlan.createdAt b <=? ExecutionPlan.createdAt p
             then Some p else Some b
         end
       else best)
    (JsMap.values (Orchestrator.plans o)) None.

(** ** Worlds used to run the orchestrator *)

Definition planner_agent : Agent.t :=
  Agent.mk "planner"
    "Breaks tasks into detailed steps; updates plan as needed" "1.0.0".

(** After [createProject('Shop', 'website')] on a fresh orchestrator: the
    project is stored under ["project_1700000000000"]. *)
Definition shop_created : Runtime * Orchestrator.t :=
  snd (Orchestrator.createProject "Shop" "website" None
         (boot, Orchestrator.new)).

(** [shop_created], then the planner registered and two plans generated for
    the project, one after the other. *)
Definition shop_planned_twice : Runtime * Orchestrator.t :=
  snd (perform (GenerateExecutionPlan "project_1700000000000")
    (snd (perform (GenerateExecutionPlan "project_1700000000000")
      (snd (perform (RegisterAgent planner_agent) shop_created))))).

(** ** Worlds and records for the further properties *)

(** A runtime whose clock stands still: every read gives 1700000000000. *)
Definition frozen : Runtime :=
  mkRuntime (fun _ => 1700000000000) 0%nat [] (fun _ => no_project) 0%nat.

(** The project object [createProject] allocates when it first reads the
    clock at [tick]. *)
Definition created (clock : nat -> Z) (tick : nat) (name type : string)
  (description : option string) : Project.t :=
  Project.mk ("project_" ++ String_of_number (clock tick)) name type
    (Orchestrator.or_empty description) ProjectStatus.planning
    (clock (S tick)) (clock (S (S tick))) JsMap.empty.

(** The plan record [generateExecutionPlan] builds for a project of the
    given type when it first reads the clock at [tick]. *)
Definition drafted (clock : nat -> Z) (tick : nat)
  (projectId projectType : string) : ExecutionPlan.t :=
  ExecutionPlan.mk
    ("plan_" ++ projectId ++ "_" ++ String_of_number (clock tick))
    projectId projectType [] PlanStatus.draft (clock (S tick))
    (clock (S (S tick))) 0 JsMap.empty.

(** Between [r] and [r'] one call wrote the status [st] and the time of the
    call into the project object at [project] and touched no other project
    object; it read the clock twice, for that time and then for the stamp
    of its log entry. *)
Definition written (r r' : Runtime) (project : ref) (st : ProjectStatus.t)
  : Prop :=
  heap r' project
  = Project.with_updatedAt (Project.with_status (heap r project) st)
      (clock r (ticks r)) /\
  (forall l, l <> project -> heap r' l = heap r l) /\
  clock r' = clock r /\ ticks r' = S (S (ticks r)) /\ fresh r' = fresh r.

(** The orchestrator after [shutdown]. *)
Definition cleared : Orchestrator.t :=
  Orchestrator.mk JsMap.empty JsMap.empty JsMap.empty true.

(** ** Checks on lists of template steps *)

Fixpoint all_chars (ok : ascii -> bool) (s : string) : bool :=
  match s with
  | EmptyString => true
  | String c rest => ok c && all_chars ok rest
  end.

Definition not_underscore (c : ascii) : bool := negb (Ascii.eqb c "_").

Fixpoint distinct (names : list string) : bool :=
  match names with
  | [] => true
  | n :: rest => negb (existsb (String.eqb n) rest) && distinct rest
  end.

(** Every dependency of a step is among [seen] or is the identity of a step
    that comes earlier in the list. *)
Fixpoint deps_before (seen : list string) (steps : list ExecutionStep.t)
  : bool :=
  match steps with
  | [] => true
  | s :: rest =>
      forallb (fun d => existsb (String.eqb d) seen)
        (ExecutionStep.dependencies s)
      && deps_before (seen ++ [ExecutionStep.id s]) rest
  end.

(** The website template without its optional step. *)
Definition website_without_cms : list ExecutionStep.t :=
  filter ExecutionStep.required PlannerAgent.website_template.

(** [plan] with [status] and [updatedAt] replaced. *)
Definition restatused (plan : ExecutionPlan.t) (status : PlanStatus.t)
  (now : Z) : ExecutionPlan.t :=
  ExecutionPlan.mk (ExecutionPlan.id plan) (ExecutionPlan.projectId plan)
    (ExecutionPlan.projectType plan) (ExecutionPlan.steps plan) status
    (ExecutionPlan.createdAt plan) now (ExecutionPlan.estimatedDuration plan)
    (ExecutionPlan.requirements plan).

(** The step types [executeStepByType] has a case for. *)
Definition known_type (type : string) : bool :=
  existsb (String.eqb type)
    ["setup"; "planning"; "development"; "testing"; "deployment";
     "integration"; "infrastructure"; "analysis"].

Fixpoint ascending (l : list Z) : bool :=
  match l with
  | [] => true
  | a :: rest =>
      match rest with
      | [] => true
      | b :: _ => (a <? b) && ascending rest
      end
  end.

(** ** What the validator looks at *)

(** Name, type and required flag of each step, in order. *)
Definition profile (steps : list ExecutionStep.t)
  : list (string * string * bool) :=
  map (fun s => (ExecutionStep.name s, ExecutionStep.type s,
                 ExecutionStep.required s))
    steps.

(** The score and arrays [performValidation] ends with. *)
Definition tally (plan : ExecutionPlan.t) : ValidatorAgent.Tally :=
  if String.eqb (ExecutionPlan.projectType plan) "website" then
    ValidatorAgent.validateWebsite plan [] []
  else if String.eqb (ExecutionPlan.projectType plan) "automation" then
    ValidatorAgent.validateAutomation plan [] []
  else ValidatorAgent.validateGeneric plan [] [].

(** A tally whose score is 100 exactly when no issue was pushed, below 100
    otherwise, with at most one recommendation per issue. *)
Definition sound (t : ValidatorAgent.Tally) : Prop :=
  ValidatorAgent.tally_score t <= 100 /\
  (ValidatorAgent.tally_issues t = [] <-> ValidatorAgent.tally_score t = 100) /\
  (length (ValidatorAgent.tally_recommendations t)
   <= length (ValidatorAgent.tally_issues t))%nat.

(** The verdict on a freshly generated automation plan. *)
Definition automation_verdict : ValidatorAgent.Validation :=
  ValidatorAgent.mkValidation true ["Error handling not implemented"] 90
    ["Implement error handling"].

(** The step types [performReview] has a review method of their own for. *)
Definition has_own_review (type : string) : bool :=
  existsb (String.eqb type)
    ["development"; "testing"; "deployment"; "integration"].

(** The reviewer after [n] more random draws. *)
Definition after_draws (a : ReviewerAgent.t) (n : nat) : ReviewerAgent.t :=
  ReviewerAgent.mk (ReviewerAgent.reviews a) (ReviewerAgent.random a)
    (n + ReviewerAgent.drawn a).

(** A reviewer with no reviews whose random source always gives 50. *)
Definition fifty : ReviewerAgent.t :=
  ReviewerAgent.mk JsMap.empty (fun _ => 50%Q) 0%nat.

(** ** Sessions of the questioner *)

(** The answers a session holds for a pattern: none when the pattern has no
    entry yet. *)
Definition given_answers (session : QuestionSession.t)
  (pattern : QuestionPattern.t) : list string :=
  match JsMap.get (QuestionSession.answers session)
          (QuestionPattern.id pattern) with
  | Some given => given
  | None => []
  end.

(** [session] after [answer] was submitted at time [now] for its current
    pattern [pattern], standing at pattern number [current] afterwards. *)
Definition answered_session (session : QuestionSession.t)
  (pattern : QuestionPattern.t) (answer : string) (now : Z) (current : nat)
  : QuestionSession.t :=
  QuestionSession.mk (QuestionSession.id session)
    (QuestionSession.projectId session) (QuestionSession.projectType session)
    current
    (JsMap.set (QuestionSession.answers session) (QuestionPattern.id pattern)
       (given_answers session pattern ++ [answer])%list)
    (QuestionSession.patterns session) (QuestionSession.status session)
    (QuestionSession.createdAt session) now.

(** A session that stands at its only pattern, the last question of which
    is still open. *)
Definition closing_session : QuestionSession.t :=
  QuestionSession.mk "session_p2_1" "p2" "automation" 0%nat
    [("automation_basic", ["a"; "b"; "c"; "d"; "e"; "f"; "g"; "h"; "i"])]
    [QuestionerAgent.automation_basic] SessionStatus.active 1 2.

Definition closing : Runtime * QuestionerAgent.t :=
  (boot,
   QuestionerAgent.mk (QuestionerAgent.questionPatterns QuestionerAgent.new)
     [("session_p2_1", closing_session)]).

(** * Properties *)

(** ** Running the planner *)

Section PlannerRuns.
Import PlannerAgent.

Lemma advance_0 (r : Runtime) : advance r 0 = r.
Proof. destruct r; unfold advance; cbn. now rewrite Nat.add_0_r. Qed.

Lemma customizeSteps_from_run :
  forall template requirements steps r (p : t),
    customizeSteps_from steps template requirements (r, p) =
    (Normal (steps ++ stamped (clock r) (ticks r) template requirements)%list,
     (advance r (length (stamped (clock r) (ticks r) template requirements)),
      p)).
Proof.
  induction template as [|step rest IH]; intros requirements steps r p.
  - cbn. unfold ret. now rewrite app_nil_r, advance_0.
  - cbn [customizeSteps_from stamped].
    destruct (shouldIncludeStep step requirements).
    + unfold bind at 1, Date_now at 1. cbn [fst snd].
      rewrite IH. cbn [clock ticks length]. rewrite <- app_assoc. cbn [app].
      unfold advance. cbn [clock ticks log heap fresh].
      now rewrite Nat.add_succ_comm.
    + apply IH.
Qed.

Lemma createPlan_run :
  forall r (p : t) projectId projectType requirements template,
    JsMap.get (templates p) projectType = Some template ->
    exists r',
      createPlan projectId projectType requirements (r, p) =
      (Normal (planned (clock r) (S (ticks r)) projectId projectType template
                 requirements),
       (r',
        mk (JsMap.set (plans p)
              (ExecutionPlan.id
                 (planned (clock r) (S (ticks r)) projectId projectType template
                    requirements))
              (planned (clock r) (S (ticks r)) projectId projectType template
                 requirements))
           (templates p))).
Proof.
  intros r p projectId projectType requirements template Hget.
  unfold createPlan, customizeSteps.
  unfold bind at 1, spectreLogger at 1. cbn [fst snd].
  unfold bind at 1, this at 1. cbn [fst snd]. rewrite Hget.
  unfold bind at 1. rewrite customizeSteps_from_run. cbn [app clock ticks].
  eexists. unfold bind, Date_now, new_Date, Date_now, update, spectreLogger, ret.
  cbn [fst snd clock ticks log heap fresh advance].
  reflexivity.
Qed.

End PlannerRuns.

(** ** Stored templates *)

Section Templates.
Import PlannerAgent.

Lemma templates_new :
  templates new =
  [("website", website_template); ("automation", automation_template)].
Proof. reflexivity. Qed.

Lemma stored_template :
  forall (p : t) projectType template,
    templates p = templates new ->
    JsMap.get (templates p) projectType = Some template ->
    template = website_template \/ template = automation_template.
Proof.
  intros p projectType template Hp Hget.
  rewrite Hp, templates_new in Hget. cbn [JsMap.get] in Hget.
  destruct (String.eqb "website" projectType).
  - left. congruence.
  - destruct (String.eqb "automation" projectType).
    + right. congruence.
    + discriminate.
Qed.

(** No method of the planner writes [templates] after the constructor. *)
Lemma createPlan_keeps_templates :
  forall r (p : t) projectId projectType requirements c r' p',
    createPlan projectId projectType requirements (r, p) = (c, (r', p')) ->
    templates p' = templates p.
Proof.
  intros r p projectId projectType requirements c r' p' Hrun.
  destruct (JsMap.get (templates p) projectType) as [template|] eqn:Hget.
  - destruct (createPlan_run r p projectId projectType requirements template
                Hget) as [r1 Hr1].
    rewrite Hr1 in Hrun. now inversion Hrun.
  - unfold createPlan in Hrun.
    unfold bind at 1, spectreLogger at 1 in Hrun. cbn [fst snd] in Hrun.
    unfold bind at 1, this at 1 in Hrun. cbn [fst snd] in Hrun.
    rewrite Hget in Hrun. unfold throw in Hrun. now inversion Hrun.
Qed.

End Templates.

(** ** Unknown project types *)

(** C7. For a project type that has no template, [createPlan] throws the
    error "No template found for project type: <type>"; the planner keeps
    exactly the plans and templates it had, and the only trace of the call is
    the start event it logged before looking the template up. *)
Theorem createPlan_unknown_type :
  forall (r : Runtime) (p : PlannerAgent.t) (projectId projectType : string)
         (requirements : JsMap.t JsValue),
    JsMap.get (PlannerAgent.templates p) projectType = None ->
    PlannerAgent.createPlan projectId projectType requirements (r, p) =
    (Throw ("No template found for project type: " ++ projectType),
     (logged r success
        [Some "planner"; Some "plan_creation_started"; None; Some projectId;
         Some ("Creating execution plan for " ++ projectType ++ " project");
         Some "planning_in_progress"],
      p)).
Proof.
  intros r p projectId projectType requirements Hget.
  unfold PlannerAgent.createPlan.
  unfold bind at 1, spectreLogger at 1. cbn [fst snd].
  unfold bind at 1, this at 1. cbn [fst snd].
  rewrite Hget. reflexivity.
Qed.

Lemma createPlan_unknown_type_witness :
  JsMap.get (PlannerAgent.templates PlannerAgent.new) "mobile" = None /\
  fst (PlannerAgent.createPlan "p1" "mobile" [] (boot, PlannerAgent.new)) =
    Throw "No template found for project type: mobile" /\
  PlannerAgent.plans
    (snd (snd (PlannerAgent.createPlan "p1" "mobile" [] (boot, PlannerAgent.new))))
  = [].
Proof.
  split; [reflexivity|].
  rewrite (createPlan_unknown_type boot PlannerAgent.new "p1" "mobile" []
             eq_refl).
  split; reflexivity.
Defined.

(** ** Which template steps a plan keeps *)

Section KeptSteps.
Import PlannerAgent.

Lemma stamped_generated :
  forall template requirements clock tick,
    Forall2 (generated requirements)
      (filter (fun t => shouldIncludeStep t requirements) template)
      (stamped clock tick template requirements).
Proof.
  induction template as [|step rest IH]; intros requirements clock tick;
    cbn [filter stamped].
  - constructor.
  - destruct (shouldIncludeStep step requirements).
    + constructor; [now exists (clock tick) | apply IH].
    + apply IH.
Qed.

Lemma stamped_In :
  forall template requirements clock tick s,
    In s (stamped clock tick template requirements) ->
    exists t, In t template /\ generated requirements t s.
Proof.
  induction template as [|step rest IH]; intros requirements clock tick s Hin;
    cbn [stamped] in Hin.
  - destruct Hin.
  - destruct (shouldIncludeStep step requirements).
    + destruct Hin as [<- | Hin].
      * exists step. split; [now left | now exists (clock tick)].
      * destruct (IH _ _ _ _ Hin) as (t & Ht & Hg).
        exists t. split; [now right | exact Hg].
    + destruct (IH _ _ _ _ Hin) as (t & Ht & Hg).
      exists t. split; [now right | exact Hg].
Qed.

(** On a step that is required or has a gating key, the test of the code is
    the rule of the specification, read with strict equality to [true]. *)
Lemma shouldIncludeStep_gated :
  forall step requirements,
    ExecutionStep.required step
    || match gating_key (ExecutionStep.id step) with
       | Some _ => true
       | None => false
       end = true ->
    shouldIncludeStep step requirements
    = kept_when strictly_true requirements step.
Proof.
  intros step requirements H.
  unfold shouldIncludeStep, kept_when, gating_key, JsMap.has, get_any,
    strictly_true in *.
  destruct (ExecutionStep.required step); [reflexivity|]. cbn [orb] in *.
  destruct (String.eqb (ExecutionStep.id step) "setup_cms").
  - now destruct (JsMap.get requirements "cms").
  - destruct (String.eqb (ExecutionStep.id step) "setup_monitoring").
    + now destruct (JsMap.get requirements "monitoring").
    + discriminate.
Qed.

(** Every optional step of the stored templates has a gating key. *)
Lemma stored_templates_gated :
  forall template,
    template = website_template \/ template = automation_template ->
    forallb
      (fun step =>
         ExecutionStep.required step
         || match gating_key (ExecutionStep.id step) with
            | Some _ => true
            | None => false
            end)
      template = true.
Proof. intros template [-> | ->]; vm_compute; reflexivity. Qed.

Lemma stored_filter :
  forall template requirements,
    template = website_template \/ template = automation_template ->
    filter (fun t => shouldIncludeStep t requirements) template =
    filter (kept_when strictly_true requirements) template.
Proof.
  intros template requirements Hstored.
  apply filter_ext_in. intros step Hin.
  apply shouldIncludeStep_gated.
  pose proof (stored_templates_gated template Hstored) as Hall.
  rewrite forallb_forall in Hall. now apply Hall.
Qed.

End KeptSteps.

(** C4, as the specification words it, fails: with the requirement
    [cms = 'yes'], a truthy value, the specification keeps the optional step
    "Setup Content Management" of the website template, and the plan that
    [createPlan] returns has no such step. *)
Lemma createPlan_truthy_cms_not_kept :
  truthy (JsString "yes") = true /\
  has_step_named "Setup Content Management"
    (filter (kept_when truthy [("cms", JsString "yes")])
       PlannerAgent.website_template) = true /\
  match
    PlannerAgent.createPlan "p1" "website" [("cms", JsString "yes")]
      (boot, PlannerAgent.new)
  with
  | (Normal plan, _) =>
      has_step_named "Setup Content Management" (ExecutionPlan.steps plan)
      = false
  | (Throw _, _) => False
  end.
Proof. split; [reflexivity|]. split; vm_compute; reflexivity. Qed.

(** C4, amended.  For every project type with a template and every
    requirement map, [createPlan] returns a plan whose steps are, in template
    order, the steps generated from exactly these template steps: the steps
    with [required = true], and the optional steps whose gating requirement
    key is present with a value strictly equal to [true].  Every other
    optional step is excluded. *)
Theorem createPlan_kept_steps :
  forall (r : Runtime) (p : PlannerAgent.t) (projectId projectType : string)
         (requirements : JsMap.t JsValue) (template : list ExecutionStep.t),
    PlannerAgent.templates p = PlannerAgent.templates PlannerAgent.new ->
    JsMap.get (PlannerAgent.templates p) projectType = Some template ->
    exists plan w',
      PlannerAgent.createPlan projectId projectType requirements (r, p)
      = (Normal plan, w') /\
      Forall2 (generated requirements)
        (filter (kept_when strictly_true requirements) template)
        (ExecutionPlan.steps plan).
Proof.
  intros r p projectId projectType requirements template Hp Hget.
  destruct (createPlan_run r p projectId projectType requirements template Hget)
    as [r' Hrun].
  eexists. eexists. split; [exact Hrun|].
  cbn [planned ExecutionPlan.steps].
  rewrite <- (stored_filter template requirements
                (stored_template p projectType template Hp Hget)).
  apply stamped_generated.
Qed.

Lemma createPlan_kept_steps_witness :
  exists plan w',
    PlannerAgent.createPlan "p1" "website" [("cms", JsBool true)]
      (boot, PlannerAgent.new) = (Normal plan, w') /\
    Forall2 (generated [("cms", JsBool true)])
      (filter (kept_when strictly_true [("cms", JsBool true)])
         PlannerAgent.website_template)
      (ExecutionPlan.steps plan).
Proof.
  apply (createPlan_kept_steps boot PlannerAgent.new "p1" "website"
           [("cms", JsBool true)] PlannerAgent.website_template);
    reflexivity.
Defined.

(** C2.  The automation template declares "Setup Monitoring and Alerts" with
    [required = true], so the gate on the [monitoring] requirement in
    [shouldIncludeStep] is never consulted for it: the plan generated with
    [monitoring = false] contains the step, as does the plan generated with
    [monitoring = true]. *)
Theorem createPlan_monitoring_false_keeps_step :
  match
    PlannerAgent.createPlan "p1" "automation" [("monitoring", JsBool false)]
      (boot, PlannerAgent.new)
  with
  | (Normal plan, _) =>
      has_step_named "Setup Monitoring and Alerts" (ExecutionPlan.steps plan)
      = true
  | (Throw _, _) => False
  end /\
  match
    PlannerAgent.createPlan "p1" "automation" [("monitoring", JsBool true)]
      (boot, PlannerAgent.new)
  with
  | (Normal plan, _) =>
      has_step_named "Setup Monitoring and Alerts" (ExecutionPlan.steps plan)
      = true
  | (Throw _, _) => False
  end.
Proof. split; vm_compute; reflexivity. Qed.

(** ** Step identities and dependencies *)

Section Identities.
Import PlannerAgent.

Lemma ends_with_digit_String :
  forall c s, ends_with_digit s = true -> ends_with_digit (String c s) = true.
Proof.
  intros c [|c' s] H.
  - discriminate.
  - exact H.
Qed.

Lemma ends_with_digit_append :
  forall a b, ends_with_digit b = true -> ends_with_digit (a ++ b) = true.
Proof.
  induction a as [|c a IH]; intros b H; cbn [String.append].
  - exact H.
  - apply ends_with_digit_String. now apply IH.
Qed.

Lemma string_of_uint_ends_with_digit :
  forall d : Decimal.uint,
    d <> Decimal.Nil ->
    ends_with_digit (NilEmpty.string_of_uint d) = true.
Proof.
  induction d as [|d IH|d IH|d IH|d IH|d IH|d IH|d IH|d IH|d IH|d IH];
    intros Hd; [congruence| ..];
    cbn [NilEmpty.string_of_uint];
    (destruct d; [reflexivity | apply ends_with_digit_String, IH; discriminate ..]).
Qed.

Lemma String_of_number_ends_with_digit :
  forall n : Z, ends_with_digit (String_of_number n) = true.
Proof.
  intros n. unfold String_of_number.
  assert (Huint : forall d, ends_with_digit (NilZero.string_of_uint d) = true).
  { intros d. destruct d; try reflexivity;
      apply string_of_uint_ends_with_digit; discriminate. }
  destruct (Z.to_int n) as [d|d]; cbn [NilZero.string_of_int].
  - apply Huint.
  - apply ends_with_digit_String, Huint.
Qed.

Lemma generated_id_ends_with_digit :
  forall requirements t s,
    generated requirements t s -> ends_with_digit (ExecutionStep.id s) = true.
Proof.
  intros requirements t s [now ->]. cbn [respread ExecutionStep.id].
  apply ends_with_digit_append, ends_with_digit_append,
    String_of_number_ends_with_digit.
Qed.

(** In the stored templates every dependency is the identity of a step of
    the same template, and none of them ends with a digit. *)
Lemma stored_dependencies :
  forall template,
    template = website_template \/ template = automation_template ->
    forallb
      (fun t =>
         forallb
           (fun d =>
              negb (ends_with_digit d)
              && existsb (fun t' => String.eqb (ExecutionStep.id t') d)
                   template)
           (ExecutionStep.dependencies t))
      template = true.
Proof. intros template [-> | ->]; vm_compute; reflexivity. Qed.

Lemma stored_dependency :
  forall template t d,
    template = website_template \/ template = automation_template ->
    In t template -> In d (ExecutionStep.dependencies t) ->
    ends_with_digit d = false /\
    exists t', In t' template /\ ExecutionStep.id t' = d.
Proof.
  intros template t d Hstored Ht Hd.
  pose proof (stored_dependencies template Hstored) as Hall.
  rewrite forallb_forall in Hall. specialize (Hall t Ht).
  rewrite forallb_forall in Hall. specialize (Hall d Hd).
  apply andb_true_iff in Hall. destruct Hall as [Hdigit Hex].
  split.
  - now destruct (ends_with_digit d).
  - apply existsb_exists in Hex. destruct Hex as (t' & Ht' & Heq).
    exists t'. split; [exact Ht'|]. now apply String.eqb_eq.
Qed.

End Identities.

Section Stamps.
Import PlannerAgent.

Lemma stamped_length :
  forall template requirements clock tick,
    length (stamped clock tick template requirements)
    = length (filter (fun t => shouldIncludeStep t requirements) template).
Proof.
  induction template as [|step rest IH]; intros requirements clock tick;
    cbn [stamped filter].
  - reflexivity.
  - destruct (shouldIncludeStep step requirements); cbn [length];
      now rewrite IH.
Qed.

(** The kept step number [n] is stamped with the reading number
    [tick + n]. *)
Lemma stamped_nth :
  forall template requirements clock tick n t,
    nth_error (filter (fun t => shouldIncludeStep t requirements) template) n
    = Some t ->
    nth_error (stamped clock tick template requirements) n
    = Some (respread t
              (ExecutionStep.id t ++ "_"
               ++ String_of_number (clock (tick + n)%nat))
              (adjustDuration t requirements)).
Proof.
  induction template as [|step rest IH]; intros requirements clock tick n t Hn;
    cbn [stamped filter] in *.
  - destruct n; discriminate.
  - destruct (shouldIncludeStep step requirements); [|now apply IH].
    destruct n as [|n]; cbn [nth_error] in *.
    + inversion Hn; subst. now rewrite Nat.add_0_r.
    + rewrite (IH requirements clock (S tick) n t Hn).
      now rewrite Nat.add_succ_comm.
Qed.

End Stamps.

(** C5.  In every plan returned by [createPlan], each step carries its
    template identity followed by [_] and its generation timestamp, the
    reading of the clock taken when the step was generated: [createPlan]
    reads the clock once for the stamp of its start event, and then once per
    kept step, in template order.  The dependencies list of a step is the
    one of the template, whose entries are unsuffixed template identities;
    so no entry of any dependencies list equals the identity of any step of
    the plan. *)
Theorem createPlan_dependencies_unsuffixed :
  forall (r : Runtime) (p : PlannerAgent.t) (projectId projectType : string)
         (requirements : JsMap.t JsValue) (template : list ExecutionStep.t),
    PlannerAgent.templates p = PlannerAgent.templates PlannerAgent.new ->
    JsMap.get (PlannerAgent.templates p) projectType = Some template ->
    exists plan w',
      PlannerAgent.createPlan projectId projectType requirements (r, p)
      = (Normal plan, w') /\
      length (ExecutionPlan.steps plan)
      = length
          (filter (fun t => PlannerAgent.shouldIncludeStep t requirements)
             template) /\
      (forall n t,
         nth_error
           (filter (fun t => PlannerAgent.shouldIncludeStep t requirements)
              template) n = Some t ->
         exists s,
           nth_error (ExecutionPlan.steps plan) n = Some s /\
           ExecutionStep.id s
           = ExecutionStep.id t ++ "_"
             ++ String_of_number (clock r (S (ticks r) + n)%nat) /\
           ExecutionStep.dependencies s = ExecutionStep.dependencies t) /\
      forall s d,
        In s (ExecutionPlan.steps plan) ->
        In d (ExecutionStep.dependencies s) ->
        (exists t, In t template /\ ExecutionStep.id t = d) /\
        forall s', In s' (ExecutionPlan.steps plan) -> d <> ExecutionStep.id s'.
Proof.
  intros r p projectId projectType requirements template Hp Hget.
  pose proof (stored_template p projectType template Hp Hget) as Hstored.
  destruct (createPlan_run r p projectId projectType requirements template Hget)
    as [r' Hrun].
  eexists. eexists. split; [exact Hrun|].
  cbn [planned ExecutionPlan.steps]. split; [apply stamped_length|]. split.
  - intros n t Hn. eexists. split; [exact (stamped_nth _ _ _ _ _ _ Hn)|].
    split; reflexivity.
  - intros s d Hs Hd.
    destruct (stamped_In _ _ _ _ _ Hs) as (t & Ht & [now ->]).
    cbn [PlannerAgent.respread ExecutionStep.dependencies] in Hd.
    destruct (stored_dependency template t d Hstored Ht Hd) as [Hdigit Hex].
    split; [exact Hex|].
    intros s' Hs' Heq.
    destruct (stamped_In _ _ _ _ _ Hs') as (t' & _ & Hg).
    apply generated_id_ends_with_digit in Hg.
    rewrite <- Heq in Hg. congruence.
Qed.

Lemma createPlan_dependencies_unsuffixed_witness :
  exists plan w',
    PlannerAgent.createPlan "p1" "website" [] (boot, PlannerAgent.new)
    = (Normal plan, w') /\
    (exists s,
       nth_error (ExecutionPlan.steps plan) 1 = Some s /\
       ExecutionStep.id s = "setup_project_1700000000002" /\
       ExecutionStep.dependencies s = ["setup_repo"]) /\
    forall s d,
      In s (ExecutionPlan.steps plan) ->
      In d (ExecutionStep.dependencies s) ->
      forall s', In s' (ExecutionPlan.steps plan) -> d <> ExecutionStep.id s'.
Proof.
  destruct (createPlan_dependencies_unsuffixed boot PlannerAgent.new "p1"
              "website" [] PlannerAgent.website_template eq_refl eq_refl)
    as (plan & w' & Hrun & _ & Hstamp & Hdeps).
  exists plan, w'. split; [exact Hrun|]. split.
  - destruct (Hstamp 1%nat
                (PlannerAgent.literal "setup_project"
                   "Initialize Project Structure"
                   "Create basic project structure and configuration files"
                   "setup" ["setup_repo"] 45 true 2) eq_refl)
      as (s & Hs & Hid & Hd).
    exists s. split; [exact Hs|]. split.
    + rewrite Hid. vm_compute. reflexivity.
    + rewrite Hd. reflexivity.
  - intros s d Hs Hd. exact (proj2 (Hdeps s d Hs Hd)).
Defined.

(** ** Estimated durations *)

Section Durations.
Import PlannerAgent.

Lemma Math_round_comp :
  forall x y : Q, (x == y)%Q -> Math_round x = Math_round y.
Proof.
  intros x y Hxy. unfold Math_round. apply Qfloor_comp. now rewrite Hxy.
Qed.

(** The branches of [adjustDuration] amount to one multiplication. *)
Lemma adjustDuration_multiplier :
  forall step requirements,
    adjustDuration step requirements =
    Math_round (inject_Z (ExecutionStep.estimatedDuration step)
                * complexity_multiplier requirements)%Q.
Proof.
  intros step requirements.
  unfold adjustDuration, complexity_multiplier, JsMap.has, get_any.
  destruct (JsMap.get requirements "complexity") as [[| |b|n|level]|];
    cbn [strict_eq];
    try (apply Math_round_comp; now rewrite Qmult_1_r).
  destruct (String.eqb level "high"); [reflexivity|].
  destruct (String.eqb level "low"); [reflexivity|].
  apply Math_round_comp; now rewrite Qmult_1_r.
Qed.

Lemma total_from :
  forall steps a,
    fold_left (fun total step => total + ExecutionStep.estimatedDuration step)
      steps a
    = a + calculateTotalDuration steps.
Proof.
  unfold calculateTotalDuration.
  induction steps as [|s steps IH]; intros a; cbn [fold_left].
  - lia.
  - rewrite IH, (IH (0 + _)). lia.
Qed.

Lemma calculateTotalDuration_cons :
  forall s steps,
    calculateTotalDuration (s :: steps)
    = ExecutionStep.estimatedDuration s + calculateTotalDuration steps.
Proof.
  intros s steps. unfold calculateTotalDuration at 1. cbn [fold_left].
  rewrite total_from. lia.
Qed.

Lemma calculateTotalDuration_app :
  forall steps s,
    calculateTotalDuration (steps ++ [s])
    = calculateTotalDuration steps + ExecutionStep.estimatedDuration s.
Proof.
  induction steps as [|s' steps IH]; intros s; cbn [app].
  - rewrite calculateTotalDuration_cons. lia.
  - rewrite !calculateTotalDuration_cons, IH. lia.
Qed.

Lemma stamped_total :
  forall template requirements clock tick,
    calculateTotalDuration (stamped clock tick template requirements)
    = rounded_total
        (filter (fun t => shouldIncludeStep t requirements) template)
        requirements.
Proof.
  induction template as [|step rest IH]; intros requirements clock tick;
    cbn [stamped filter].
  - reflexivity.
  - destruct (shouldIncludeStep step requirements).
    + rewrite calculateTotalDuration_cons. cbn [rounded_total].
      cbn [respread ExecutionStep.estimatedDuration].
      now rewrite IH, adjustDuration_multiplier.
    + apply IH.
Qed.

End Durations.

(** C6.  The total estimated duration of a generated plan is the sum, over
    the template steps it keeps, of base duration times complexity
    multiplier (1.5 for ['high'], 0.8 for ['low'], 1.0 otherwise), each
    product rounded to the nearest whole minute; the total depends on the
    project type and the requirement map only, so a second generation, at any
    time and from any planner state, yields the same total. *)
Theorem createPlan_total_duration :
  forall (r : Runtime) (p : PlannerAgent.t) (projectId projectType : string)
         (requirements : JsMap.t JsValue) (template : list ExecutionStep.t),
    PlannerAgent.templates p = PlannerAgent.templates PlannerAgent.new ->
    JsMap.get (PlannerAgent.templates p) projectType = Some template ->
    exists plan w',
      PlannerAgent.createPlan projectId projectType requirements (r, p)
      = (Normal plan, w') /\
      ExecutionPlan.estimatedDuration plan =
      rounded_total
        (filter (fun t => PlannerAgent.shouldIncludeStep t requirements)
           template)
        requirements /\
      forall (r2 : Runtime) (p2 : PlannerAgent.t) (projectId2 : string),
        PlannerAgent.templates p2 = PlannerAgent.templates PlannerAgent.new ->
        exists plan2 w2,
          PlannerAgent.createPlan projectId2 projectType requirements (r2, p2)
          = (Normal plan2, w2) /\
          ExecutionPlan.estimatedDuration plan2
          = ExecutionPlan.estimatedDuration plan.
Proof.
  intros r p projectId projectType requirements template Hp Hget.
  destruct (createPlan_run r p projectId projectType requirements template Hget)
    as [r' Hrun].
  eexists. eexists. split; [exact Hrun|].
  cbn [planned ExecutionPlan.estimatedDuration]. split.
  - apply stamped_total.
  - intros r2 p2 projectId2 Hp2.
    assert (Hget2 : JsMap.get (PlannerAgent.templates p2) projectType
                    = Some template) by (rewrite Hp2, <- Hp; exact Hget).
    destruct (createPlan_run r2 p2 projectId2 projectType requirements template
                Hget2) as [r2' Hrun2].
    eexists. eexists. split; [exact Hrun2|].
    cbn [planned ExecutionPlan.estimatedDuration].
    now rewrite !stamped_total.
Qed.

Lemma createPlan_total_duration_witness :
  exists plan w',
    PlannerAgent.createPlan "p1" "website"
      [("complexity", JsString "high")] (boot, PlannerAgent.new)
    = (Normal plan, w') /\
    ExecutionPlan.estimatedDuration plan = 1373.
Proof.
  destruct (createPlan_total_duration boot PlannerAgent.new "p1" "website"
              [("complexity", JsString "high")] PlannerAgent.website_template
              eq_refl eq_refl)
    as (plan & w' & Hrun & Htotal & _).
  exists plan, w'. split; [exact Hrun|].
  rewrite Htotal. vm_compute. reflexivity.
Defined.

(** ** Adding a step to a stored plan *)

Section AddStep.
Import PlannerAgent.

Lemma updatePlan_run :
  forall r (p : t) planId plan updates,
    JsMap.get (plans p) planId = Some plan ->
    updatePlan planId updates (r, p) =
    (Normal (spread plan updates (clock r (ticks r))),
     (logged (advance r 1) success
        [Some "planner"; Some "plan_updated"; None;
         Some (ExecutionPlan.projectId plan); Some "Execution plan updated";
         Some "plan_modified"],
      mk (JsMap.set (plans p) planId
            (spread plan updates (clock r (ticks r))))
         (templates p))).
Proof.
  intros r p planId plan updates Hget.
  unfold updatePlan. unfold bind at 1, this at 1. cbn [fst snd].
  rewrite Hget.
  unfold bind, new_Date, Date_now, update, spectreLogger, ret, logged, advance.
  cbn [fst snd clock ticks log heap fresh].
  now rewrite Nat.add_1_r.
Qed.

Lemma addStep_run :
  forall r (p : t) planId plan step,
    JsMap.get (plans p) planId = Some plan ->
    addStep planId step (r, p) =
    (Normal (appended plan step (clock r (ticks r))),
     (logged (advance r 1) success
        [Some "planner"; Some "plan_updated"; None;
         Some (ExecutionPlan.projectId plan); Some "Execution plan updated";
         Some "plan_modified"],
      mk (JsMap.set (plans p) planId (appended plan step (clock r (ticks r))))
         (templates p))).
Proof.
  intros r p planId plan step Hget.
  unfold addStep. unfold bind at 1, this at 1. cbn [fst snd].
  rewrite Hget. rewrite (updatePlan_run r p planId plan _ Hget).
  reflexivity.
Qed.

(** Like [createPlan], [updatePlan] and [addStep] leave [templates] alone. *)
Lemma updatePlan_keeps_templates :
  forall r (p : t) planId updates c r' p',
    updatePlan planId updates (r, p) = (c, (r', p')) ->
    templates p' = templates p.
Proof.
  intros r p planId updates c r' p' Hrun.
  destruct (JsMap.get (plans p) planId) as [plan|] eqn:Hget.
  - rewrite (updatePlan_run r p planId plan updates Hget) in Hrun.
    now inversion Hrun.
  - unfold updatePlan, bind, this in Hrun. cbn [fst snd] in Hrun.
    rewrite Hget in Hrun. now inversion Hrun.
Qed.

Lemma addStep_keeps_templates :
  forall r (p : t) planId step c r' p',
    addStep planId step (r, p) = (c, (r', p')) ->
    templates p' = templates p.
Proof.
  intros r p planId step c r' p' Hrun.
  destruct (JsMap.get (plans p) planId) as [plan|] eqn:Hget.
  - rewrite (addStep_run r p planId plan step Hget) in Hrun.
    now inversion Hrun.
  - unfold addStep, bind, this in Hrun. cbn [fst snd] in Hrun.
    rewrite Hget in Hrun. now inversion Hrun.
Qed.

End AddStep.

(** C10, as the specification words it, fails: after a step of duration 0 is
    added to a freshly generated plan, the plan's estimated duration still
    equals the sum of its steps' durations. *)
Lemma addStep_zero_duration_total_still_matches :
  match PlannerAgent.createPlan "p1" "automation" [] (boot, PlannerAgent.new)
  with
  | (Normal plan, w) =>
      match PlannerAgent.addStep (ExecutionPlan.id plan) sign_off w with
      | (Normal updated, _) =>
          ExecutionPlan.estimatedDuration updated
          = PlannerAgent.calculateTotalDuration (ExecutionPlan.steps updated)
      | (Throw _, _) => False
      end
  | (Throw _, _) => False
  end.
Proof. vm_compute. reflexivity. Qed.

(** C10, amended.  For every stored plan and every step, [addStep] stores
    and returns the plan with the step appended to its steps and [updatedAt]
    rewritten to the time of the call, every other field unchanged; the
    estimated duration is not increased by the new step's duration.  Where
    the durations are whole numbers whose running total stays within 2^53,
    so that the sum is exact, the sum of the steps' durations grows by the
    new step's duration while the estimate stays: whenever the estimate
    equalled the sum before and the new step's duration is not zero, it no
    longer equals the sum afterwards. *)
Theorem addStep_keeps_estimate :
  forall (r : Runtime) (p : PlannerAgent.t) (planId : string)
         (plan : ExecutionPlan.t) (step : ExecutionStep.t),
    JsMap.get (PlannerAgent.plans p) planId = Some plan ->
    exists r',
      PlannerAgent.addStep planId step (r, p) =
      (Normal (appended plan step (clock r (ticks r))),
       (r',
        PlannerAgent.mk
          (JsMap.set (PlannerAgent.plans p) planId
             (appended plan step (clock r (ticks r))))
          (PlannerAgent.templates p))) /\
      (exact_total (ExecutionPlan.steps plan ++ [step]) = true ->
       PlannerAgent.calculateTotalDuration
         (ExecutionPlan.steps (appended plan step (clock r (ticks r))))
       = PlannerAgent.calculateTotalDuration (ExecutionPlan.steps plan)
         + ExecutionStep.estimatedDuration step /\
       (ExecutionPlan.estimatedDuration plan
        = PlannerAgent.calculateTotalDuration (ExecutionPlan.steps plan) ->
        ExecutionStep.estimatedDuration step <> 0 ->
        ExecutionPlan.estimatedDuration
          (appended plan step (clock r (ticks r)))
        <> PlannerAgent.calculateTotalDuration
             (ExecutionPlan.steps (appended plan step (clock r (ticks r)))))).
Proof.
  intros r p planId plan step Hget.
  eexists. split; [apply (addStep_run r p planId plan step Hget)|].
  intros _.
  cbn [appended ExecutionPlan.steps ExecutionPlan.estimatedDuration].
  rewrite calculateTotalDuration_app. split; [reflexivity|].
  intros Hbefore Hstep. lia.
Qed.

Lemma generated_world_plan :
  JsMap.get (PlannerAgent.plans (snd generated_world)) "plan_p1_1700000000008"
  = Some automation_plan.
Proof. vm_compute. reflexivity. Qed.

Lemma addStep_keeps_estimate_witness :
  exists updated w',
    PlannerAgent.addStep "plan_p1_1700000000008" smoke_test
      (fst generated_world, snd generated_world) = (Normal updated, w') /\
    ExecutionPlan.estimatedDuration updated = 720 /\
    PlannerAgent.calculateTotalDuration (ExecutionPlan.steps updated) = 735 /\
    ExecutionPlan.estimatedDuration updated
    <> PlannerAgent.calculateTotalDuration (ExecutionPlan.steps updated).
Proof.
  destruct (addStep_keeps_estimate (fst generated_world) (snd generated_world)
              "plan_p1_1700000000008" automation_plan smoke_test
              generated_world_plan) as (r' & Hrun & Hexact).
  assert (Hsafe : exact_total (ExecutionPlan.steps automation_plan
                               ++ [smoke_test]) = true)
    by (vm_compute; reflexivity).
  destruct (Hexact Hsafe) as [Hsum Hne].
  eexists. eexists. split; [exact Hrun|].
  split; [vm_compute; reflexivity|].
  split; [vm_compute; reflexivity|].
  apply Hne; vm_compute; [reflexivity | discriminate].
Defined.

(** ** Running the orchestrator *)

Section OrchestratorRuns.
Import Orchestrator.

Ltac run_js :=
  unfold bind, ret, throw, discard, assign, deref, update, new_Date, Date_now,
    new_Project, spectreLogger;
  cbn [fst snd clock ticks log heap fresh].

Ltac run_js_in H :=
  unfold bind, ret, throw, discard, assign, deref, update, new_Date, Date_now,
    new_Project, spectreLogger in H;
  cbn [fst snd clock ticks log heap fresh] in H.

Ltac solve_moved :=
  unfold moved; cbn [heap]; split;
  [ rewrite Nat.eqb_refl; reflexivity
  | let l := fresh "l" in
    let Hl := fresh "Hl" in
    intros l Hl; apply Nat.eqb_neq in Hl; rewrite Hl; reflexivity ].

Lemma startProject_run :
  forall r (o : t) projectId project,
    JsMap.get (projects o) projectId = Some project ->
    exists r',
      startProject projectId (r, o) = (Normal tt, (r', o)) /\
      moved r r' project ProjectStatus.active.
Proof.
  intros r o projectId project Hget.
  unfold startProject. unfold bind at 1, this at 1. cbn [fst snd].
  rewrite Hget. eexists. split; [run_js; reflexivity | solve_moved].
Qed.

Lemma stopProject_run :
  forall r (o : t) projectId project,
    JsMap.get (projects o) projectId = Some project ->
    exists r',
      stopProject projectId (r, o) = (Normal tt, (r', o)) /\
      moved r r' project ProjectStatus.stopped.
Proof.
  intros r o projectId project Hget.
  unfold stopProject. unfold bind at 1, this at 1. cbn [fst snd].
  rewrite Hget. eexists. split; [run_js; reflexivity | solve_moved].
Qed.

Lemma executeProjectPlan_begin_run :
  forall r (o : t) projectId project plan,
    JsMap.get (projects o) projectId = Some project ->
    findPlan o projectId = Some plan ->
    exists r',
      executeProjectPlan_begin projectId (r, o)
      = (Normal (project, plan), (r', o)) /\
      moved r r' project ProjectStatus.executing /\
      log r' = (log r ++
        [mkLogCall success
           [Some "orchestrator"; Some "plan_execution_started"; None;
            Some projectId; Some "Plan execution started";
            Some "execution_in_progress"]])%list.
Proof.
  intros r o projectId project plan Hget Hfind.
  unfold executeProjectPlan_begin. unfold bind at 1, this at 1. cbn [fst snd].
  rewrite Hget, Hfind. eexists.
  split; [run_js; reflexivity | split; [solve_moved | reflexivity]].
Qed.

Lemma executeProjectPlan_resume_run :
  forall r (o : t) projectId project,
    exists r',
      executeProjectPlan_resume projectId project (r, o)
      = (Normal tt, (r', o)) /\
      moved r r' project ProjectStatus.completed /\
      log r' = (log r ++
        [mkLogCall success
           [Some "orchestrator"; Some "plan_execution_completed"; None;
            Some projectId; Some "Plan execution completed";
            Some "execution_successful"]])%list.
Proof.
  intros r o projectId project. unfold executeProjectPlan_resume. eexists.
  split; [run_js; reflexivity | split; [solve_moved | reflexivity]].
Qed.

Lemma moved_trans :
  forall r r1 r2 project st1 st2,
    moved r r1 project st1 -> moved r1 r2 project st2 ->
    moved r r2 project st2.
Proof.
  intros r r1 r2 project st1 st2 [_ H1] [H2 H3]. split; [exact H2|].
  intros l Hl. now rewrite H3, H1.
Qed.

Lemma executeProjectPlan_run :
  forall r (o : t) projectId project plan,
    JsMap.get (projects o) projectId = Some project ->
    findPlan o projectId = Some plan ->
    exists r',
      executeProjectPlan projectId (r, o) = (Normal tt, (r', o)) /\
      moved r r' project ProjectStatus.completed /\
      log r' = (log r ++
        [mkLogCall success
           [Some "orchestrator"; Some "plan_execution_started"; None;
            Some projectId; Some "Plan execution started";
            Some "execution_in_progress"];
         mkLogCall success
           [Some "orchestrator"; Some "plan_execution_completed"; None;
            Some projectId; Some "Plan execution completed";
            Some "execution_successful"]])%list.
Proof.
  intros r o projectId project plan Hget Hfind.
  destruct (executeProjectPlan_begin_run r o projectId project plan Hget Hfind)
    as (r1 & Hrun1 & Hmoved1 & Hlog1).
  destruct (executeProjectPlan_resume_run r1 o projectId project)
    as (r2 & Hrun2 & Hmoved2 & Hlog2).
  exists r2. split; [|split].
  - unfold executeProjectPlan, bind. rewrite Hrun1. exact Hrun2.
  - exact (moved_trans _ _ _ _ _ _ Hmoved1 Hmoved2).
  - rewrite Hlog2, Hlog1, <- app_assoc. reflexivity.
Qed.

Lemma executeProjectPlan_no_plan :
  forall r (o : t) projectId project,
    JsMap.get (projects o) projectId = Some project ->
    findPlan o projectId = None ->
    executeProjectPlan projectId (r, o)
    = (Throw ("No plan found for project " ++ projectId), (r, o)).
Proof.
  intros r o projectId project Hget Hfind.
  unfold executeProjectPlan, executeProjectPlan_begin.
  unfold bind, this. cbn [fst snd]. now rewrite Hget, Hfind.
Qed.

Lemma statusOf_moved :
  forall r r' (o : t) projectId project st,
    JsMap.get (projects o) projectId = Some project ->
    moved r r' project st ->
    statusOf (r', o) projectId = Some st.
Proof.
  intros r r' o projectId project st Hget [Hst _].
  unfold statusOf. cbn [fst snd]. now rewrite Hget, Hst.
Qed.

Lemma moved_never_fails :
  forall r r' project st,
    moved r r' project st -> st <> ProjectStatus.failed ->
    forall l,
      Project.status (heap r' l) = ProjectStatus.failed ->
      Project.status (heap r l) = ProjectStatus.failed.
Proof.
  intros r r' project st [Hst Hframe] Hne l Hl.
  destruct (Nat.eq_dec l project) as [-> | Hother].
  - congruence.
  - now rewrite <- (Hframe l Hother).
Qed.

(** No call of the orchestrator leaves a project object in status [failed]
    that was not in that status before the call. *)
Lemma perform_never_fails :
  forall c r (o : t) res w',
    perform c (r, o) = (res, w') ->
    forall l,
      Project.status (heap (fst w') l) = ProjectStatus.failed ->
      Project.status (heap r l) = ProjectStatus.failed.
Proof.
  intros c r o res w' Hrun l.
  destruct c as [agent | name type description | projectId | projectId
                | projectId | projectId | projectId project | ];
    cbn [perform] in Hrun.
  - unfold registerAgent in Hrun. run_js_in Hrun.
    inversion Hrun; subst. cbn [fst heap]. auto.
  - unfold createProject in Hrun. run_js_in Hrun.
    inversion Hrun; subst. cbn [fst heap].
    destruct (Nat.eqb l (fresh r)); [discriminate | auto].
  - destruct (JsMap.get (projects o) projectId) as [project|] eqn:Hget.
    + destruct (startProject_run r o projectId project Hget)
        as (r' & Hr' & Hmoved).
      rewrite Hr' in Hrun. inversion Hrun; subst. cbn [fst].
      apply (moved_never_fails _ _ _ _ Hmoved). discriminate.
    + unfold startProject, bind, this in Hrun. cbn [fst snd] in Hrun.
      rewrite Hget in Hrun. inversion Hrun; subst. auto.
  - destruct (JsMap.get (projects o) projectId) as [project|] eqn:Hget.
    + destruct (stopProject_run r o projectId project Hget)
        as (r' & Hr' & Hmoved).
      rewrite Hr' in Hrun. inversion Hrun; subst. cbn [fst].
      apply (moved_never_fails _ _ _ _ Hmoved). discriminate.
    + unfold stopProject, bind, this in Hrun. cbn [fst snd] in Hrun.
      rewrite Hget in Hrun. inversion Hrun; subst. auto.
  - unfold generateExecutionPlan, discard in Hrun.
    unfold bind at 1 2, this at 1 in Hrun. cbn [fst snd] in Hrun.
    destruct (JsMap.get (projects o) projectId) as [project|].
    + destruct (JsMap.get (agents o) "planner") as [planner|].
      * run_js_in Hrun. inversion Hrun; subst. cbn [fst heap]. auto.
      * inversion Hrun; subst. auto.
    + inversion Hrun; subst. auto.
  - destruct (JsMap.get (projects o) projectId) as [project|] eqn:Hget;
      [destruct (findPlan o projectId) as [plan|] eqn:Hfind|].
    + destruct (executeProjectPlan_begin_run r o projectId project plan Hget
                  Hfind) as (r' & Hr' & Hmoved & _).
      unfold discard, bind in Hrun. rewrite Hr' in Hrun.
      inversion Hrun; subst. cbn [fst].
      apply (moved_never_fails _ _ _ _ Hmoved). discriminate.
    + unfold discard, executeProjectPlan_begin, bind, this in Hrun.
      cbn [fst snd] in Hrun. rewrite Hget, Hfind in Hrun.
      inversion Hrun; subst. auto.
    + unfold discard, executeProjectPlan_begin, bind, this in Hrun.
      cbn [fst snd] in Hrun. rewrite Hget in Hrun.
      inversion Hrun; subst. auto.
  - destruct (executeProjectPlan_resume_run r o projectId project)
      as (r' & Hr' & Hmoved & _).
    rewrite Hr' in Hrun. inversion Hrun; subst. cbn [fst].
    apply (moved_never_fails _ _ _ _ Hmoved). discriminate.
  - unfold shutdown in Hrun. run_js_in Hrun.
    inversion Hrun; subst. cbn [fst heap]. auto.
Qed.

End OrchestratorRuns.

(** ** Executing a project plan *)

Lemma find_first :
  forall (A : Type) (f : A -> bool) (l : list A) (x : A),
    find f l = Some x ->
    exists before after,
      l = (before ++ x :: after)%list /\ f x = true /\
      Forall (fun y => f y = false) before.
Proof.
  intros A f. induction l as [|a l IH]; intros x Hfind; cbn [find] in Hfind.
  - discriminate.
  - destruct (f a) eqn:Hfa.
    + inversion Hfind; subst. exists [], l. repeat split; [exact Hfa | constructor].
    + destruct (IH x Hfind) as (before & after & -> & Hx & Hbefore).
      exists (a :: before), after. repeat split; [exact Hx | now constructor].
Qed.

Lemma find_nowhere :
  forall (A : Type) (f : A -> bool) (l : list A),
    find f l = None -> Forall (fun y => f y = false) l.
Proof.
  intros A f l Hfind. apply Forall_forall. intros y Hy.
  exact (find_none f l Hfind y Hy).
Qed.

Lemma Forall_other_project :
  forall projectId (l : list ExecutionPlan.t),
    Forall (fun q => String.eqb (ExecutionPlan.projectId q) projectId = false) l ->
    Forall (fun q => ExecutionPlan.projectId q <> projectId) l.
Proof.
  intros projectId l H. eapply Forall_impl; [|exact H].
  intros q Hq. now apply String.eqb_neq.
Qed.

Lemma find_at_first :
  forall (A : Type) (f : A -> bool) (before after : list A) (x : A),
    Forall (fun y => f y = false) before -> f x = true ->
    find f (before ++ x :: after) = Some x.
Proof.
  intros A f before after x Hbefore Hx.
  induction Hbefore as [|y before Hy _ IH]; cbn [app find].
  - now rewrite Hx.
  - now rewrite Hy.
Qed.

Lemma Forall_same_project :
  forall projectId (l : list ExecutionPlan.t),
    Forall (fun q => ExecutionPlan.projectId q <> projectId) l ->
    Forall
      (fun q => String.eqb (ExecutionPlan.projectId q) projectId = false) l.
Proof.
  intros projectId l H. eapply Forall_impl; [|exact H].
  intros q Hq. now apply String.eqb_neq.
Qed.

Lemma findPlan_first :
  forall (o : Orchestrator.t) projectId before plan after,
    JsMap.values (Orchestrator.plans o) = (before ++ plan :: after)%list ->
    ExecutionPlan.projectId plan = projectId ->
    Forall (fun q => ExecutionPlan.projectId q <> projectId) before ->
    Orchestrator.findPlan o projectId = Some plan.
Proof.
  intros o projectId before plan after Hsplit Hplan Hbefore.
  unfold Orchestrator.findPlan. rewrite Hsplit.
  apply find_at_first.
  - now apply Forall_same_project.
  - now apply String.eqb_eq.
Qed.

Lemma findPlan_nowhere :
  forall (o : Orchestrator.t) projectId,
    Forall (fun q => ExecutionPlan.projectId q <> projectId)
      (JsMap.values (Orchestrator.plans o)) ->
    Orchestrator.findPlan o projectId = None.
Proof.
  intros o projectId Hall. unfold Orchestrator.findPlan.
  apply Forall_same_project in Hall.
  induction Hall as [|q l Hq _ IH]; cbn [find].
  - reflexivity.
  - now rewrite Hq.
Qed.

(** C3, as the specification words it, fails.  After two plans have been
    generated for the project, one after the other, the plan that
    [executeProjectPlan] binds for the project is the one generated first,
    not the most recently created one. *)
Lemma executeProjectPlan_resolves_older_plan :
  match
    Orchestrator.executeProjectPlan_begin "project_1700000000000"
      shop_planned_twice,
    most_recent_plan (snd shop_planned_twice) "project_1700000000000"
  with
  | (Normal (_, resolved), _), Some recent =>
      ExecutionPlan.id resolved = "plan_project_1700000000000_1700000000005" /\
      ExecutionPlan.id recent = "plan_project_1700000000000_1700000000009" /\
      ExecutionPlan.createdAt resolved < ExecutionPlan.createdAt recent
  | _, _ => False
  end.
Proof. vm_compute. repeat split; reflexivity. Qed.

(** C3, amended.  For every stored project, the plan that
    [executeProjectPlan] binds is the first plan, in the order in which the
    plans were stored, whose project identity is the project's; with that
    plan bound the call sets the project to [executing], waits, and
    completes with the project in status [completed], the plan store
    untouched.  If no stored plan belongs to the project the call throws
    "No plan found for project <id>" and leaves the runtime and the
    orchestrator, the project's status included, unchanged.  One of the two
    cases always applies. *)
Theorem executeProjectPlan_resolves_first_stored_plan :
  forall (r : Runtime) (o : Orchestrator.t) (projectId : string)
         (project : ref),
    JsMap.get (Orchestrator.projects o) projectId = Some project ->
    (forall before plan after,
       JsMap.values (Orchestrator.plans o) = (before ++ plan :: after)%list ->
       ExecutionPlan.projectId plan = projectId ->
       Forall (fun q => ExecutionPlan.projectId q <> projectId) before ->
       exists r1 r2,
         Orchestrator.executeProjectPlan_begin projectId (r, o)
         = (Normal (project, plan), (r1, o)) /\
         Orchestrator.statusOf (r1, o) projectId
         = Some ProjectStatus.executing /\
         Orchestrator.executeProjectPlan_resume projectId project (r1, o)
         = (Normal tt, (r2, o)) /\
         Orchestrator.executeProjectPlan projectId (r, o)
         = (Normal tt, (r2, o)) /\
         Orchestrator.statusOf (r2, o) projectId
         = Some ProjectStatus.completed) /\
    (Forall (fun q => ExecutionPlan.projectId q <> projectId)
       (JsMap.values (Orchestrator.plans o)) ->
     Orchestrator.executeProjectPlan projectId (r, o)
     = (Throw ("No plan found for project " ++ projectId), (r, o))) /\
    ((exists before plan after,
        JsMap.values (Orchestrator.plans o) = (before ++ plan :: after)%list /\
        ExecutionPlan.projectId plan = projectId /\
        Forall (fun q => ExecutionPlan.projectId q <> projectId) before) \/
     Forall (fun q => ExecutionPlan.projectId q <> projectId)
       (JsMap.values (Orchestrator.plans o))).
Proof.
  intros r o projectId project Hget. split; [|split].
  - intros before plan after Hsplit Hplan Hbefore.
    pose proof (findPlan_first o projectId before plan after Hsplit Hplan
                  Hbefore) as Hfind.
    destruct (executeProjectPlan_begin_run r o projectId project plan Hget
                Hfind) as (r1 & Hrun1 & Hmoved1 & _).
    destruct (executeProjectPlan_resume_run r1 o projectId project)
      as (r2 & Hrun2 & Hmoved2 & _).
    exists r1, r2. split; [exact Hrun1|]. split.
    + exact (statusOf_moved r r1 o projectId project _ Hget Hmoved1).
    + split; [exact Hrun2|]. split.
      * unfold Orchestrator.executeProjectPlan, bind. rewrite Hrun1.
        exact Hrun2.
      * exact (statusOf_moved r1 r2 o projectId project _ Hget Hmoved2).
  - intros Hnone.
    exact (executeProjectPlan_no_plan r o projectId project Hget
             (findPlan_nowhere o projectId Hnone)).
  - destruct (Orchestrator.findPlan o projectId) as [plan|] eqn:Hfind.
    + left. destruct (find_first _ _ _ _ Hfind)
        as (before & after & Hsplit & Hplan & Hbefore).
      exists before, plan, after. split; [exact Hsplit|]. split.
      * now apply String.eqb_eq.
      * now apply Forall_other_project.
    + right. apply Forall_other_project. exact (find_nowhere _ _ _ Hfind).
Qed.

Lemma executeProjectPlan_resolves_first_stored_plan_witness :
  (exists r1 r2,
     Orchestrator.executeProjectPlan_begin "project_1700000000000"
       (fst shop_planned_twice, snd shop_planned_twice)
     = (Normal
          (0%nat,
           drafted (clock boot) 5 "project_1700000000000" "website"),
        (r1, snd shop_planned_twice)) /\
     Orchestrator.executeProjectPlan "project_1700000000000"
       (fst shop_planned_twice, snd shop_planned_twice)
     = (Normal tt, (r2, snd shop_planned_twice)) /\
     Orchestrator.statusOf (r2, snd shop_planned_twice)
       "project_1700000000000"
     = Some ProjectStatus.completed) /\
  Orchestrator.executeProjectPlan "project_1700000000000"
    (fst shop_created, snd shop_created)
  = (Throw ("No plan found for project " ++ "project_1700000000000"),
     (fst shop_created, snd shop_created)).
Proof.
  split.
  - assert (Hget : JsMap.get (Orchestrator.projects (snd shop_planned_twice))
                     "project_1700000000000" = Some 0%nat)
      by (vm_compute; reflexivity).
    destruct (executeProjectPlan_resolves_first_stored_plan
                (fst shop_planned_twice) (snd shop_planned_twice)
                "project_1700000000000" 0%nat Hget) as (Hfirst & _ & _).
    destruct (Hfirst []
                (drafted (clock boot) 5 "project_1700000000000" "website")
                [drafted (clock boot) 9 "project_1700000000000" "website"])
      as (r1 & r2 & Hbegin & _ & _ & Hrun & Hstatus).
    + vm_compute. reflexivity.
    + reflexivity.
    + constructor.
    + exists r1, r2. split; [exact Hbegin|].
      split; [exact Hrun | exact Hstatus].
  - assert (Hget : JsMap.get (Orchestrator.projects (snd shop_created))
                     "project_1700000000000" = Some 0%nat)
      by (vm_compute; reflexivity).
    destruct (executeProjectPlan_resolves_first_stored_plan
                (fst shop_created) (snd shop_created)
                "project_1700000000000" 0%nat Hget) as (_ & Hnone & _).
    apply Hnone. vm_compute. constructor.
Defined.

(** ** Generating a plan without a planner *)

(** C8, as the specification words it, fails.  With no agent registered,
    [generateExecutionPlan] called for an identity under which no project is
    stored throws "Project ghost not found", an error about the project that
    does not mention the planner. *)
Lemma generateExecutionPlan_missing_project_first :
  Orchestrator.agents Orchestrator.new = JsMap.empty /\
  Orchestrator.generateExecutionPlan "ghost" (boot, Orchestrator.new)
  = (Throw "Project ghost not found", (boot, Orchestrator.new)).
Proof. split; reflexivity. Qed.

(** C8, amended.  When no agents are registered, [generateExecutionPlan]
    called for a stored project throws the error "Planner agent not found",
    and the runtime and the orchestrator are left as they were: no plan
    record is stored. *)
Theorem generateExecutionPlan_without_planner :
  forall (r : Runtime) (o : Orchestrator.t) (projectId : string)
         (project : ref),
    Orchestrator.agents o = JsMap.empty ->
    JsMap.get (Orchestrator.projects o) projectId = Some project ->
    Orchestrator.generateExecutionPlan projectId (r, o)
    = (Throw "Planner agent not found", (r, o)).
Proof.
  intros r o projectId project Hagents Hget.
  unfold Orchestrator.generateExecutionPlan, bind, this. cbn [fst snd].
  rewrite Hget, Hagents. reflexivity.
Qed.

Lemma generateExecutionPlan_without_planner_witness :
  Orchestrator.generateExecutionPlan "project_1700000000000"
    (fst shop_created, snd shop_created)
  = (Throw "Planner agent not found", (fst shop_created, snd shop_created)) /\
  Orchestrator.plans (snd shop_created) = JsMap.empty.
Proof.
  split.
  - apply (generateExecutionPlan_without_planner (fst shop_created)
             (snd shop_created) "project_1700000000000" 0%nat);
      vm_compute; reflexivity.
  - vm_compute. reflexivity.
Defined.

(** ** Project status transitions *)

(** C9, as the specification words it, fails: [stopProject] moves a project
    that is in status [planning] to [stopped]. *)
Lemma stopProject_stops_planning_project :
  Orchestrator.statusOf shop_created "project_1700000000000"
  = Some ProjectStatus.planning /\
  fst (Orchestrator.stopProject "project_1700000000000" shop_created)
  = Normal tt /\
  Orchestrator.statusOf
    (snd (Orchestrator.stopProject "project_1700000000000" shop_created))
    "project_1700000000000"
  = Some ProjectStatus.stopped.
Proof. repeat (split; [vm_compute; reflexivity|]). vm_compute. reflexivity. Qed.

(** C9, amended.  The orchestrator writes a project's status without looking
    at the status it replaces.  For every stored project, in whatever status:
    [startProject] sets [active]; [stopProject] sets [stopped]; and, when the
    project has a plan, [executeProjectPlan] sets [executing] before its
    [await] and [completed] after it.  No call of the orchestrator sets
    [failed]: a project object is in that status after a call only if it was
    before. *)
Theorem orchestrator_status_writes :
  forall (r : Runtime) (o : Orchestrator.t) (projectId : string)
         (project : ref),
    JsMap.get (Orchestrator.projects o) projectId = Some project ->
    (exists r',
       Orchestrator.startProject projectId (r, o) = (Normal tt, (r', o)) /\
       Orchestrator.statusOf (r', o) projectId = Some ProjectStatus.active) /\
    (exists r',
       Orchestrator.stopProject projectId (r, o) = (Normal tt, (r', o)) /\
       Orchestrator.statusOf (r', o) projectId = Some ProjectStatus.stopped) /\
    (forall plan,
       Orchestrator.findPlan o projectId = Some plan ->
       exists r1 r2,
         Orchestrator.executeProjectPlan_begin projectId (r, o)
         = (Normal (project, plan), (r1, o)) /\
         Orchestrator.statusOf (r1, o) projectId
         = Some ProjectStatus.executing /\
         Orchestrator.executeProjectPlan_resume projectId project (r1, o)
         = (Normal tt, (r2, o)) /\
         Orchestrator.statusOf (r2, o) projectId
         = Some ProjectStatus.completed) /\
    (forall (c : Call) (res : Completion unit) (w' : Runtime * Orchestrator.t),
       perform c (r, o) = (res, w') ->
       forall l,
         Project.status (heap (fst w') l) = ProjectStatus.failed ->
         Project.status (heap r l) = ProjectStatus.failed).
Proof.
  intros r o projectId project Hget. repeat split.
  - destruct (startProject_run r o projectId project Hget) as (r' & Hrun & Hm).
    exists r'. split; [exact Hrun|].
    exact (statusOf_moved r r' o projectId project _ Hget Hm).
  - destruct (stopProject_run r o projectId project Hget) as (r' & Hrun & Hm).
    exists r'. split; [exact Hrun|].
    exact (statusOf_moved r r' o projectId project _ Hget Hm).
  - intros plan Hfind.
    destruct (executeProjectPlan_begin_run r o projectId project plan Hget
                Hfind) as (r1 & Hrun1 & Hm1 & _).
    destruct (executeProjectPlan_resume_run r1 o projectId project)
      as (r2 & Hrun2 & Hm2 & _).
    exists r1, r2. split; [exact Hrun1|]. split.
    + exact (statusOf_moved r r1 o projectId project _ Hget Hm1).
    + split; [exact Hrun2|].
      exact (statusOf_moved r1 r2 o projectId project _ Hget Hm2).
  - intros c res w' Hrun. exact (perform_never_fails c r o res w' Hrun).
Qed.

Lemma orchestrator_status_writes_witness :
  (exists r',
     Orchestrator.stopProject "project_1700000000000"
       (fst shop_planned_twice, snd shop_planned_twice)
     = (Normal tt, (r', snd shop_planned_twice)) /\
     Orchestrator.statusOf (r', snd shop_planned_twice)
       "project_1700000000000"
     = Some ProjectStatus.stopped) /\
  (exists r1 r2,
     Orchestrator.executeProjectPlan_begin "project_1700000000000"
       (fst shop_planned_twice, snd shop_planned_twice)
     = (Normal
          (0%nat, drafted (clock boot) 5 "project_1700000000000" "website"),
        (r1, snd shop_planned_twice)) /\
     Orchestrator.statusOf (r1, snd shop_planned_twice)
       "project_1700000000000"
     = Some ProjectStatus.executing /\
     Orchestrator.executeProjectPlan_resume "project_1700000000000" 0%nat
       (r1, snd shop_planned_twice)
     = (Normal tt, (r2, snd shop_planned_twice)) /\
     Orchestrator.statusOf (r2, snd shop_planned_twice)
       "project_1700000000000"
     = Some ProjectStatus.completed).
Proof.
  assert (Hget : JsMap.get (Orchestrator.projects (snd shop_planned_twice))
                   "project_1700000000000" = Some 0%nat)
    by (vm_compute; reflexivity).
  destruct (orchestrator_status_writes (fst shop_planned_twice)
              (snd shop_planned_twice) "project_1700000000000" 0%nat Hget)
    as (_ & Hstop & Hexec & _).
  split; [exact Hstop|].
  apply Hexec. vm_compute. reflexivity.
Defined.

(** * Further properties of the orchestrator *)

(** ** Laws of [JsMap] *)

Section JsMapLaws.
Context {V : Type}.

Lemma JsMap_get_set_same :
  forall (m : JsMap.t V) k v, JsMap.get (JsMap.set m k v) k = Some v.
Proof.
  induction m as [|[k' v'] m IH]; intros k v; cbn [JsMap.set JsMap.get].
  - now rewrite String.eqb_refl.
  - destruct (String.eqb k' k) eqn:E; cbn [JsMap.get].
    + now rewrite String.eqb_refl.
    + rewrite E. apply IH.
Qed.

Lemma JsMap_get_set_other :
  forall (m : JsMap.t V) k v k',
    k' <> k -> JsMap.get (JsMap.set m k v) k' = JsMap.get m k'.
Proof.
  induction m as [|[k0 v0] m IH]; intros k v k' Hne;
    cbn [JsMap.set JsMap.get].
  - apply String.eqb_neq in Hne. rewrite String.eqb_sym in Hne.
    now rewrite Hne.
  - destruct (String.eqb k0 k) eqn:E; cbn [JsMap.get].
    + apply String.eqb_eq in E. subst k0.
      apply String.eqb_neq in Hne. rewrite String.eqb_sym in Hne.
      now rewrite Hne.
    + destruct (String.eqb k0 k'); [reflexivity | now apply IH].
Qed.

Lemma JsMap_size_set :
  forall (m : JsMap.t V) k v,
    JsMap.size (JsMap.set m k v)
    = if JsMap.has m k then JsMap.size m else S (JsMap.size m).
Proof.
  unfold JsMap.size, JsMap.has.
  induction m as [|[k' v'] m IH]; intros k v; cbn [JsMap.set JsMap.get].
  - reflexivity.
  - destruct (String.eqb k' k); cbn [length].
    + reflexivity.
    + rewrite IH. now destruct (JsMap.get m k).
Qed.

Lemma JsMap_get_In :
  forall (m : JsMap.t V) k v,
    JsMap.get m k = Some v -> In v (JsMap.values m).
Proof.
  unfold JsMap.values.
  induction m as [|[k' v'] m IH]; intros k v Hget; cbn [JsMap.get] in Hget.
  - discriminate.
  - cbn [map snd In]. destruct (String.eqb k' k).
    + left. congruence.
    + right. now apply (IH k).
Qed.

(** The values of a map after [set]: the new value replaces the old one in
    place, or comes last. *)
Lemma JsMap_values_set :
  forall (m : JsMap.t V) k v,
    (exists before old after,
       JsMap.values m = (before ++ old :: after)%list /\
       JsMap.get m k = Some old /\
       JsMap.values (JsMap.set m k v) = (before ++ v :: after)%list) \/
    (JsMap.get m k = None /\
     JsMap.values (JsMap.set m k v) = (JsMap.values m ++ [v])%list).
Proof.
  unfold JsMap.values.
  induction m as [|[k' v'] m IH]; intros k v; cbn [JsMap.set JsMap.get].
  - right. split; reflexivity.
  - destruct (String.eqb k' k) eqn:E.
    + left. exists [], v', (map snd m). repeat split.
    + destruct (IH k v) as [(before & old & after & H1 & H2 & H3) | [H1 H2]].
      * left. exists (v' :: before), old, after. cbn [map snd app].
        rewrite H1, H3. repeat split. exact H2.
      * right. split; [exact H1|]. cbn [map snd app]. now rewrite H2.
Qed.

End JsMapLaws.

(** ** Agents and projects: registration, creation, lookup *)

(** X1.  [registerAgent] stores the agent under its name: [getAgent] then returns
    it for that name and what it returned before for every other name; a
    name already registered is overwritten without growing the registry;
    projects and plans are not touched. *)
Theorem registerAgent_then_getAgent :
  forall (r : Runtime) (o : Orchestrator.t) (agent : Agent.t) (name : string),
    exists w',
      Orchestrator.registerAgent agent (r, o) = (Normal tt, w') /\
      fst (Orchestrator.getAgent name w')
      = Normal (if String.eqb name (Agent.name agent) then Some agent
                else JsMap.get (Orchestrator.agents o) name) /\
      (exists all,
         fst (Orchestrator.getAllAgents w') = Normal all /\
         In agent all /\
         length all
         = if JsMap.has (Orchestrator.agents o) (Agent.name agent)
           then JsMap.size (Orchestrator.agents o)
           else S (JsMap.size (Orchestrator.agents o))) /\
      Orchestrator.projects (snd w') = Orchestrator.projects o /\
      Orchestrator.plans (snd w') = Orchestrator.plans o.
Proof.
  intros r o agent name. eexists. split; [reflexivity|].
  cbn [fst snd Orchestrator.agents Orchestrator.projects Orchestrator.plans].
  split; [|split; [|split; reflexivity]].
  - unfold Orchestrator.getAgent, bind, this, ret.
    cbn [fst snd Orchestrator.agents]. f_equal.
    destruct (String.eqb name (Agent.name agent)) eqn:E.
    + apply String.eqb_eq in E. subst name. apply JsMap_get_set_same.
    + apply String.eqb_neq in E. now apply JsMap_get_set_other.
  - exists (JsMap.values
              (JsMap.set (Orchestrator.agents o) (Agent.name agent) agent)).
    split; [reflexivity|]. split.
    + apply (JsMap_get_In _ (Agent.name agent)), JsMap_get_set_same.
    + unfold JsMap.values. rewrite length_map.
      apply (JsMap_size_set (Orchestrator.agents o)).
Qed.

Lemma createProject_run :
  forall r (o : Orchestrator.t) name type description,
    Orchestrator.createProject name type description (r, o) =
    (Normal (fresh r),
     (mkRuntime (clock r) (S (S (S (S (ticks r)))))
        (log r ++
         [mkLogCall success
            [Some "orchestrator"; Some "project_created"; None;
             Some ("project_" ++ String_of_number (clock r (ticks r)));
             Some ("Project created: " ++ name); Some "project_ready"]])
        (fun l =>
           if Nat.eqb l (fresh r)
           then created (clock r) (ticks r) name type description
           else heap r l)
        (S (fresh r)),
      Orchestrator.mk (Orchestrator.agents o)
        (JsMap.set (Orchestrator.projects o)
           ("project_" ++ String_of_number (clock r (ticks r))) (fresh r))
        (Orchestrator.plans o) (Orchestrator.isShutdown o))).
Proof. reflexivity. Qed.

(** X2.  [createProject] returns a new project object in status [planning],
    with the given name and type, the empty description when none is given,
    and the identity [project_<now>]; [getProject] on that identity returns
    the object; every other project object and every other identity is as
    before, and so are agents and plans. *)
Theorem createProject_then_getProject :
  forall (r : Runtime) (o : Orchestrator.t) (name type : string)
         (description : option string),
    exists project w',
      Orchestrator.createProject name type description (r, o)
      = (Normal project, w') /\
      heap (fst w') project
      = created (clock r) (ticks r) name type description /\
      Orchestrator.getProject (Project.id (heap (fst w') project)) w'
      = (Normal (Some project), w') /\
      Orchestrator.statusOf w' (Project.id (heap (fst w') project))
      = Some ProjectStatus.planning /\
      (forall l, l <> project -> heap (fst w') l = heap r l) /\
      (forall other,
         other <> Project.id (heap (fst w') project) ->
         JsMap.get (Orchestrator.projects (snd w')) other
         = JsMap.get (Orchestrator.projects o) other) /\
      Orchestrator.agents (snd w') = Orchestrator.agents o /\
      Orchestrator.plans (snd w') = Orchestrator.plans o.
Proof.
  intros r o name type description.
  eexists. eexists. split; [apply createProject_run|].
  cbn [fst snd heap Orchestrator.agents Orchestrator.projects
       Orchestrator.plans].
  rewrite Nat.eqb_refl. cbn [created Project.id].
  split; [reflexivity|]. split; [|split; [|split; [|split; [|split]]]].
  - unfold Orchestrator.getProject, bind, this, ret.
    cbn [fst snd Orchestrator.projects]. now rewrite JsMap_get_set_same.
  - unfold Orchestrator.statusOf. cbn [fst snd Orchestrator.projects heap].
    rewrite JsMap_get_set_same, Nat.eqb_refl. reflexivity.
  - intros l Hl. apply Nat.eqb_neq in Hl. now rewrite Hl.
  - intros other Hother. now apply JsMap_get_set_other.
  - reflexivity.
  - reflexivity.
Qed.

(** X3.  Two projects created one after the other while the clock shows
    the same millisecond get the same identity: the second takes the place
    of the first in the project map, which does not grow, and the identity
    then resolves to the second object only.  The first call reads the
    clock four times, for the identity, the two dates and the stamp of its
    log entry, so the identity of the second project is made of the fifth
    reading. *)
Theorem createProject_same_millisecond :
  forall (r : Runtime) (o : Orchestrator.t) (name1 type1 : string)
         (description1 : option string) (name2 type2 : string)
         (description2 : option string),
    clock r (ticks r) = clock r (4 + ticks r)%nat ->
    exists first w1 second w2,
      Orchestrator.createProject name1 type1 description1 (r, o)
      = (Normal first, w1) /\
      Orchestrator.createProject name2 type2 description2 w1
      = (Normal second, w2) /\
      first <> second /\
      Project.id (heap (fst w2) first) = Project.id (heap (fst w2) second) /\
      JsMap.size (Orchestrator.projects (snd w2))
      = JsMap.size (Orchestrator.projects (snd w1)) /\
      JsMap.get (Orchestrator.projects (snd w1))
        (Project.id (heap (fst w2) first)) = Some first /\
      JsMap.get (Orchestrator.projects (snd w2))
        (Project.id (heap (fst w2) first)) = Some second.
Proof.
  intros r o name1 type1 description1 name2 type2 description2 Hclock.
  eexists. eexists. eexists. eexists.
  split; [apply createProject_run|]. split; [apply createProject_run|].
  cbn [fst snd heap fresh clock ticks Orchestrator.projects].
  cbn [Nat.add] in Hclock.
  replace (Nat.eqb (fresh r) (S (fresh r))) with false
    by (symmetry; apply Nat.eqb_neq; lia).
  rewrite !Nat.eqb_refl. cbn [created Project.id]. rewrite <- !Hclock.
  split; [lia|]. split; [reflexivity|]. split; [|split].
  - rewrite JsMap_size_set. unfold JsMap.has.
    now rewrite JsMap_get_set_same.
  - apply JsMap_get_set_same.
  - apply JsMap_get_set_same.
Qed.

Lemma createProject_same_millisecond_witness :
  exists first w1 second w2,
    Orchestrator.createProject "Shop" "website" None (frozen, Orchestrator.new)
    = (Normal first, w1) /\
    Orchestrator.createProject "Mailer" "automation" None w1
    = (Normal second, w2) /\
    first <> second /\
    JsMap.size (Orchestrator.projects (snd w2)) = 1%nat.
Proof.
  destruct (createProject_same_millisecond frozen Orchestrator.new
              "Shop" "website" None "Mailer" "automation" None eq_refl)
    as (first & w1 & second & w2 & H1 & H2 & Hne & _ & Hsize & _).
  exists first, w1, second, w2.
  split; [exact H1|]. split; [exact H2|]. split; [exact Hne|].
  rewrite Hsize. rewrite createProject_run in H1.
  inversion H1; subst. vm_compute. reflexivity.
Defined.

(** ** Unknown projects *)

(** X4.  For an identity under which no project is stored, [startProject],
    [stopProject], [generateExecutionPlan] and [executeProjectPlan] all throw
    "Project <id> not found" and change nothing: no status, no plan, no log
    entry, no clock read. *)
Theorem unknown_project_not_found :
  forall (r : Runtime) (o : Orchestrator.t) (projectId : string),
    JsMap.get (Orchestrator.projects o) projectId = None ->
    Orchestrator.startProject projectId (r, o)
    = (Throw ("Project " ++ projectId ++ " not found"), (r, o)) /\
    Orchestrator.stopProject projectId (r, o)
    = (Throw ("Project " ++ projectId ++ " not found"), (r, o)) /\
    Orchestrator.generateExecutionPlan projectId (r, o)
    = (Throw ("Project " ++ projectId ++ " not found"), (r, o)) /\
    Orchestrator.executeProjectPlan projectId (r, o)
    = (Throw ("Project " ++ projectId ++ " not found"), (r, o)).
Proof.
  intros r o projectId Hget.
  unfold Orchestrator.startProject, Orchestrator.stopProject,
    Orchestrator.generateExecutionPlan, Orchestrator.executeProjectPlan,
    Orchestrator.executeProjectPlan_begin, bind, this.
  cbn [fst snd]. rewrite Hget. repeat split.
Qed.

Lemma unknown_project_not_found_witness :
  Orchestrator.startProject "ghost" (boot, Orchestrator.new)
  = (Throw ("Project " ++ "ghost" ++ " not found"), (boot, Orchestrator.new)).
Proof.
  exact (proj1 (unknown_project_not_found boot Orchestrator.new "ghost"
                  eq_refl)).
Defined.

(** ** Generating, then executing *)

Lemma find_finds :
  forall (A : Type) (f : A -> bool) (l : list A) (x : A),
    In x l -> f x = true -> find f l <> None.
Proof.
  intros A f l x Hin Hfx Hnone.
  rewrite (find_none f l Hnone x Hin) in Hfx. discriminate.
Qed.

Lemma generateExecutionPlan_run :
  forall r (o : Orchestrator.t) projectId project planner,
    JsMap.get (Orchestrator.projects o) projectId = Some project ->
    JsMap.get (Orchestrator.agents o) "planner" = Some planner ->
    Orchestrator.generateExecutionPlan projectId (r, o) =
    (Normal (drafted (clock r) (ticks r) projectId
               (Project.type (heap r project))),
     (mkRuntime (clock r) (S (S (S (S (ticks r)))))
        (log r ++
         [mkLogCall success
            [Some "orchestrator"; Some "plan_generated"; None; Some projectId;
             Some "Execution plan generated"; Some "plan_ready"]])
        (heap r) (fresh r),
      Orchestrator.mk (Orchestrator.agents o) (Orchestrator.projects o)
        (JsMap.set (Orchestrator.plans o)
           ("plan_" ++ projectId ++ "_"
            ++ String_of_number (clock r (ticks r)))
           (drafted (clock r) (ticks r) projectId
              (Project.type (heap r project))))
        (Orchestrator.isShutdown o))).
Proof.
  intros r o projectId project planner Hget Hplanner.
  unfold Orchestrator.generateExecutionPlan. unfold bind at 1, this at 1.
  cbn [fst snd]. rewrite Hget, Hplanner. reflexivity.
Qed.

(** X5.  With the planner registered, [generateExecutionPlan] for a stored
    project returns and stores a plan in status [draft] that has no steps
    and estimated duration 0, whatever the planner's templates hold; project
    statuses are not touched; and [executeProjectPlan], called next,
    completes with the project in status [completed]. *)
Theorem generateExecutionPlan_then_execute :
  forall (r : Runtime) (o : Orchestrator.t) (projectId : string)
         (project : ref) (planner : Agent.t),
    JsMap.get (Orchestrator.projects o) projectId = Some project ->
    JsMap.get (Orchestrator.agents o) "planner" = Some planner ->
    exists plan r1 o1 r2,
      Orchestrator.generateExecutionPlan projectId (r, o)
      = (Normal plan, (r1, o1)) /\
      ExecutionPlan.steps plan = [] /\
      ExecutionPlan.estimatedDuration plan = 0 /\
      ExecutionPlan.status plan = PlanStatus.draft /\
      ExecutionPlan.projectId plan = projectId /\
      ExecutionPlan.projectType plan = Project.type (heap r project) /\
      JsMap.get (Orchestrator.plans o1) (ExecutionPlan.id plan) = Some plan /\
      heap r1 = heap r /\
      Orchestrator.executeProjectPlan projectId (r1, o1)
      = (Normal tt, (r2, o1)) /\
      Orchestrator.statusOf (r2, o1) projectId = Some ProjectStatus.completed.
Proof.
  intros r o projectId project planner Hget Hplanner.
  pose proof (generateExecutionPlan_run r o projectId project planner Hget
                Hplanner) as Hrun.
  set (plan := drafted (clock r) (ticks r) projectId
                 (Project.type (heap r project))) in *.
  set (o1 := Orchestrator.mk (Orchestrator.agents o) (Orchestrator.projects o)
               (JsMap.set (Orchestrator.plans o)
                  ("plan_" ++ projectId ++ "_"
                   ++ String_of_number (clock r (ticks r))) plan)
               (Orchestrator.isShutdown o)) in *.
  assert (Hfind : Orchestrator.findPlan o1 projectId <> None).
  { unfold Orchestrator.findPlan.
    apply (find_finds _ _ _ plan).
    - apply (JsMap_get_In _ ("plan_" ++ projectId ++ "_"
                             ++ String_of_number (clock r (ticks r)))).
      apply JsMap_get_set_same.
    - apply String.eqb_refl. }
  destruct (Orchestrator.findPlan o1 projectId) as [found|] eqn:Hfound;
    [|congruence].
  match type of Hrun with _ = (_, (?x, _)) => set (r1 := x) in * end.
  destruct (executeProjectPlan_run r1 o1 projectId project found Hget Hfound)
    as (r2 & Hrun2 & Hmoved & _).
  exists plan, r1, o1, r2. split; [exact Hrun|].
  repeat (split; [reflexivity|]).
  split; [apply JsMap_get_set_same|]. split; [reflexivity|].
  split; [exact Hrun2|].
  exact (statusOf_moved r1 r2 o1 projectId project _ Hget Hmoved).
Qed.

Lemma generateExecutionPlan_then_execute_witness :
  exists plan w1 w2,
    Orchestrator.generateExecutionPlan "project_1700000000000"
      (snd (perform (RegisterAgent planner_agent) shop_created))
    = (Normal plan, w1) /\
    ExecutionPlan.steps plan = [] /\
    Orchestrator.executeProjectPlan "project_1700000000000" w1
    = (Normal tt, w2) /\
    Orchestrator.statusOf w2 "project_1700000000000"
    = Some ProjectStatus.completed.
Proof.
  destruct (generateExecutionPlan_then_execute
              (fst (snd (perform (RegisterAgent planner_agent) shop_created)))
              (snd (snd (perform (RegisterAgent planner_agent) shop_created)))
              "project_1700000000000" 0%nat planner_agent eq_refl eq_refl)
    as (plan & r1 & o1 & r2 & Hgen & Hsteps & _ & _ & _ & _ & _ & _ & Hexec
        & Hstatus).
  exists plan, (r1, o1), (r2, o1).
  split; [exact Hgen|]. split; [exact Hsteps|].
  split; [exact Hexec | exact Hstatus].
Defined.

(** ** What a status write changes *)

(** X6.  [startProject] and [stopProject] write the status and [updatedAt]
    of the addressed project and nothing else: its identity, name, type,
    description, creation time and metadata stay, every other project object
    stays, and the agent, project and plan maps stay.  [updatedAt] is the
    first of the two clock readings the call takes; the second stamps its
    log entry. *)
Theorem startProject_stopProject_frame :
  forall (r : Runtime) (o : Orchestrator.t) (projectId : string)
         (project : ref),
    JsMap.get (Orchestrator.projects o) projectId = Some project ->
    (exists r',
       Orchestrator.startProject projectId (r, o) = (Normal tt, (r', o)) /\
       written r r' project ProjectStatus.active) /\
    (exists r',
       Orchestrator.stopProject projectId (r, o) = (Normal tt, (r', o)) /\
       written r r' project ProjectStatus.stopped).
Proof.
  intros r o projectId project Hget. split.
  - unfold Orchestrator.startProject. unfold bind at 1, this at 1.
    cbn [fst snd]. rewrite Hget.
    unfold bind, assign, new_Date, Date_now, deref, spectreLogger.
    cbn [fst snd clock ticks log heap fresh].
    eexists. split; [reflexivity|].
    unfold written. cbn [heap clock ticks fresh]. rewrite !Nat.eqb_refl.
    repeat split. intros l Hl. apply Nat.eqb_neq in Hl. now rewrite Hl.
  - unfold Orchestrator.stopProject. unfold bind at 1, this at 1.
    cbn [fst snd]. rewrite Hget.
    unfold bind, assign, new_Date, Date_now, deref, spectreLogger.
    cbn [fst snd clock ticks log heap fresh].
    eexists. split; [reflexivity|].
    unfold written. cbn [heap clock ticks fresh]. rewrite !Nat.eqb_refl.
    repeat split. intros l Hl. apply Nat.eqb_neq in Hl. now rewrite Hl.
Qed.

Lemma startProject_stopProject_frame_witness :
  exists r',
    Orchestrator.startProject "project_1700000000000"
      (fst shop_created, snd shop_created)
    = (Normal tt, (r', snd shop_created)) /\
    Project.name (heap r' 0%nat) = "Shop" /\
    Project.status (heap r' 0%nat) = ProjectStatus.active /\
    Project.updatedAt (heap r' 0%nat) = 1700000000004.
Proof.
  destruct (startProject_stopProject_frame (fst shop_created)
              (snd shop_created) "project_1700000000000" 0%nat eq_refl)
    as [(r' & Hrun & Hobj & _) _].
  exists r'. split; [exact Hrun|]. rewrite Hobj.
  repeat split.
Defined.

(** ** Calls that arrive while a plan executes *)

(** X7.  A [stopProject] that arrives while [executeProjectPlan] waits is lost:
    the project is [stopped] for the time being, and when
    [executeProjectPlan] resumes it sets the project to [completed]. *)
Theorem stop_during_execution_is_overwritten :
  forall (r : Runtime) (o : Orchestrator.t) (projectId : string)
         (project : ref) (plan : ExecutionPlan.t),
    JsMap.get (Orchestrator.projects o) projectId = Some project ->
    Orchestrator.findPlan o projectId = Some plan ->
    exists r1 r2 r3,
      Orchestrator.executeProjectPlan_begin projectId (r, o)
      = (Normal (project, plan), (r1, o)) /\
      Orchestrator.stopProject projectId (r1, o) = (Normal tt, (r2, o)) /\
      Orchestrator.statusOf (r2, o) projectId = Some ProjectStatus.stopped /\
      Orchestrator.executeProjectPlan_resume projectId project (r2, o)
      = (Normal tt, (r3, o)) /\
      Orchestrator.statusOf (r3, o) projectId = Some ProjectStatus.completed.
Proof.
  intros r o projectId project plan Hget Hfind.
  destruct (executeProjectPlan_begin_run r o projectId project plan Hget Hfind)
    as (r1 & Hrun1 & _ & _).
  destruct (stopProject_run r1 o projectId project Hget)
    as (r2 & Hrun2 & Hmoved2).
  destruct (executeProjectPlan_resume_run r2 o projectId project)
    as (r3 & Hrun3 & Hmoved3 & _).
  exists r1, r2, r3. split; [exact Hrun1|]. split; [exact Hrun2|].
  split; [exact (statusOf_moved r1 r2 o projectId project _ Hget Hmoved2)|].
  split; [exact Hrun3|].
  exact (statusOf_moved r2 r3 o projectId project _ Hget Hmoved3).
Qed.

Lemma stop_during_execution_is_overwritten_witness :
  exists r1 r2 r3,
    Orchestrator.executeProjectPlan_begin "project_1700000000000"
      (fst shop_planned_twice, snd shop_planned_twice)
    = (Normal
         (0%nat, drafted (clock boot) 5 "project_1700000000000" "website"),
       (r1, snd shop_planned_twice)) /\
    Orchestrator.stopProject "project_1700000000000"
      (r1, snd shop_planned_twice)
    = (Normal tt, (r2, snd shop_planned_twice)) /\
    Orchestrator.executeProjectPlan_resume "project_1700000000000" 0%nat
      (r2, snd shop_planned_twice)
    = (Normal tt, (r3, snd shop_planned_twice)) /\
    Orchestrator.statusOf (r3, snd shop_planned_twice) "project_1700000000000"
    = Some ProjectStatus.completed.
Proof.
  assert (Hget : JsMap.get (Orchestrator.projects (snd shop_planned_twice))
                   "project_1700000000000" = Some 0%nat)
    by (vm_compute; reflexivity).
  assert (Hfind : Orchestrator.findPlan (snd shop_planned_twice)
                    "project_1700000000000"
                  = Some (drafted (clock boot) 5 "project_1700000000000"
                            "website"))
    by (vm_compute; reflexivity).
  destruct (stop_during_execution_is_overwritten (fst shop_planned_twice)
              (snd shop_planned_twice) "project_1700000000000" 0%nat _
              Hget Hfind)
    as (r1 & r2 & r3 & H1 & H2 & _ & H3 & H4).
  exists r1, r2, r3.
  split; [exact H1|]. split; [exact H2|]. split; [exact H3 | exact H4].
Defined.

(** ** Shutdown *)

Lemma shutdown_run :
  forall r (o : Orchestrator.t),
    Orchestrator.shutdown (r, o) =
    (Normal tt,
     (mkRuntime (clock r) (S (S (ticks r)))
        ((log r ++
          [mkLogCall success
             [Some "orchestrator"; Some "shutdown_started"; None; None;
              Some "Orchestrator shutdown started";
              Some "cleanup_in_progress"]]) ++
         [mkLogCall success
            [Some "orchestrator"; Some "shutdown_completed"; None; None;
             Some "Orchestrator shutdown completed";
             Some "cleanup_finished"]])
        (heap r) (fresh r),
      cleared)).
Proof. reflexivity. Qed.

(** X8.  [shutdown] always completes; it empties the agent, project and plan
    maps and sets the shutdown flag, leaving the project objects themselves
    alone.  Afterwards the health report shows ['shutdown'] with all counts
    zero, no identity resolves to a project, and a second [shutdown] leaves
    the orchestrator as the first one did. *)
Theorem shutdown_clears :
  forall (r : Runtime) (o : Orchestrator.t) (uptime : Q),
    exists r',
      Orchestrator.shutdown (r, o) = (Normal tt, (r', cleared)) /\
      heap r' = heap r /\
      fst (Orchestrator.getSystemHealth uptime (r', cleared))
      = Normal (Orchestrator.mkSystemHealth "shutdown" 0 0 0 uptime) /\
      (forall projectId,
         Orchestrator.statusOf (r', cleared) projectId = None /\
         fst (Orchestrator.startProject projectId (r', cleared))
         = Throw ("Project " ++ projectId ++ " not found")) /\
      exists r'', Orchestrator.shutdown (r', cleared) = (Normal tt, (r'', cleared)).
Proof.
  intros r o uptime. eexists. split; [apply shutdown_run|].
  split; [reflexivity|]. split; [reflexivity|]. split.
  - intros projectId. split; reflexivity.
  - eexists. apply shutdown_run.
Qed.

(** X9.  The shutdown flag is never consulted: after [shutdown], [createProject]
    still creates and stores a project, [startProject] still starts it, and
    the health report then shows one project under the status ['shutdown']. *)
Theorem calls_after_shutdown_are_served :
  forall (r : Runtime) (o : Orchestrator.t) (name type : string)
         (description : option string) (uptime : Q),
    exists project w1 w2,
      Orchestrator.createProject name type description
        (snd (Orchestrator.shutdown (r, o)))
      = (Normal project, w1) /\
      Orchestrator.isShutdown (snd w1) = true /\
      Orchestrator.statusOf w1 (Project.id (heap (fst w1) project))
      = Some ProjectStatus.planning /\
      fst (Orchestrator.getSystemHealth uptime w1)
      = Normal (Orchestrator.mkSystemHealth "shutdown" 0 1 0 uptime) /\
      Orchestrator.startProject (Project.id (heap (fst w1) project)) w1
      = (Normal tt, w2) /\
      Orchestrator.statusOf w2 (Project.id (heap (fst w1) project))
      = Some ProjectStatus.active.
Proof.
  intros r o name type description uptime.
  rewrite shutdown_run. cbn [snd]. rewrite createProject_run.
  cbn [clock ticks fresh heap log].
  match goal with
  | |- context [(Normal (fresh r), (?x, ?y))] => set (r1 := x); set (o1 := y)
  end.
  assert (Hid : Project.id (heap r1 (fresh r))
                = "project_" ++ String_of_number (clock r (S (S (ticks r))))).
  { unfold r1. cbn [heap]. now rewrite Nat.eqb_refl. }
  assert (Hget : JsMap.get (Orchestrator.projects o1)
                   (Project.id (heap r1 (fresh r))) = Some (fresh r)).
  { rewrite Hid. unfold o1. cbn [Orchestrator.projects].
    apply JsMap_get_set_same. }
  destruct (startProject_run r1 o1 (Project.id (heap r1 (fresh r))) (fresh r)
              Hget) as (r2 & Hrun2 & Hmoved).
  exists (fresh r), (r1, o1), (r2, o1). cbn [fst snd].
  split; [reflexivity|]. split; [reflexivity|]. split.
  - unfold Orchestrator.statusOf. cbn [fst snd]. rewrite Hget.
    unfold r1. cbn [heap]. now rewrite Nat.eqb_refl.
  - split; [reflexivity|]. split; [exact Hrun2|].
    exact (statusOf_moved r1 r2 _ _ (fresh r) _ Hget Hmoved).
Qed.

(** X10.  A [shutdown] that arrives while [executeProjectPlan] waits does not
    make it fail: on resuming it sets the project object it holds to
    [completed], although no identity resolves to that object any more. *)
Theorem shutdown_during_execution :
  forall (r : Runtime) (o : Orchestrator.t) (projectId : string)
         (project : ref) (plan : ExecutionPlan.t),
    JsMap.get (Orchestrator.projects o) projectId = Some project ->
    Orchestrator.findPlan o projectId = Some plan ->
    exists r1 r2 r3,
      Orchestrator.executeProjectPlan_begin projectId (r, o)
      = (Normal (project, plan), (r1, o)) /\
      Orchestrator.shutdown (r1, o) = (Normal tt, (r2, cleared)) /\
      Orchestrator.executeProjectPlan_resume projectId project (r2, cleared)
      = (Normal tt, (r3, cleared)) /\
      Project.status (heap r3 project) = ProjectStatus.completed /\
      Orchestrator.statusOf (r3, cleared) projectId = None.
Proof.
  intros r o projectId project plan Hget Hfind.
  destruct (executeProjectPlan_begin_run r o projectId project plan Hget Hfind)
    as (r1 & Hrun1 & _ & _).
  pose proof (shutdown_run r1 o) as Hrun2.
  match type of Hrun2 with _ = (_, (?x, _)) => set (r2 := x) in * end.
  destruct (executeProjectPlan_resume_run r2 cleared projectId project)
    as (r3 & Hrun3 & [Hstatus _] & _).
  exists r1, r2, r3.
  split; [exact Hrun1|]. split; [exact Hrun2|]. split; [exact Hrun3|].
  split; [exact Hstatus | reflexivity].
Qed.

Lemma shutdown_during_execution_witness :
  exists r1 r2 r3,
    Orchestrator.executeProjectPlan_begin "project_1700000000000"
      (fst shop_planned_twice, snd shop_planned_twice)
    = (Normal
         (0%nat, drafted (clock boot) 5 "project_1700000000000" "website"),
       (r1, snd shop_planned_twice)) /\
    Orchestrator.shutdown (r1, snd shop_planned_twice)
    = (Normal tt, (r2, cleared)) /\
    Orchestrator.executeProjectPlan_resume "project_1700000000000" 0%nat
      (r2, cleared)
    = (Normal tt, (r3, cleared)) /\
    Project.status (heap r3 0%nat) = ProjectStatus.completed.
Proof.
  assert (Hget : JsMap.get (Orchestrator.projects (snd shop_planned_twice))
                   "project_1700000000000" = Some 0%nat)
    by (vm_compute; reflexivity).
  assert (Hfind : Orchestrator.findPlan (snd shop_planned_twice)
                    "project_1700000000000"
                  = Some (drafted (clock boot) 5 "project_1700000000000"
                            "website"))
    by (vm_compute; reflexivity).
  destruct (shutdown_during_execution (fst shop_planned_twice)
              (snd shop_planned_twice) "project_1700000000000" 0%nat _
              Hget Hfind)
    as (r1 & r2 & r3 & H1 & H2 & H3 & H4 & _).
  exists r1, r2, r3.
  split; [exact H1|]. split; [exact H2|]. split; [exact H3 | exact H4].
Defined.

(** ** Project logs *)

(** X11.  [getProjectLogs] never looks the project up and never fails: for any
    identity, stored or not, it returns one entry of level ['info'] that
    carries the identity and the time of the call when the limit is at least
    1 (or left out), and no entry when the limit is 0 or negative; the
    orchestrator is unchanged. *)
Theorem getProjectLogs_mock :
  forall (r : Runtime) (o : Orchestrator.t) (projectId : string)
         (limit : option Z),
    exists r',
      Orchestrator.getProjectLogs projectId limit (r, o) =
      (Normal
         (if 1 <=? match limit with Some n => n | None => 50 end
          then [Orchestrator.mkMockLog (clock r (ticks r)) "info"
                  ("Project " ++ projectId ++ " logs retrieved") projectId]
          else []),
       (r', o)).
Proof.
  intros r o projectId limit. eexists.
  unfold Orchestrator.getProjectLogs, bind, new_Date, Date_now, ret.
  cbn [fst snd]. f_equal. f_equal.
  unfold Orchestrator.slice_to. cbn [length Z.of_nat Pos.of_succ_nat].
  destruct limit as [n|].
  - destruct (Z.leb_spec 1 n) as [Hn|Hn].
    + replace (n <? 0) with false by (symmetry; apply Z.ltb_ge; lia).
      rewrite Z.min_r by lia. reflexivity.
    + destruct (Z.ltb_spec n 0) as [Hneg|Hpos].
      * rewrite Z.max_r by lia. reflexivity.
      * replace n with 0 by lia. reflexivity.
  - reflexivity.
Qed.

(** * Further properties of the planner *)

(** ** Stored plans: creation, lookup, update *)

(** X12.  A plan returned by [createPlan] is a draft for the given project and
    requirement map, is what [getPlan] then returns for its identity, and is
    among the plans [getProjectPlans] returns for the project; plans stored
    under other identities, and the templates, are as before. *)
Theorem createPlan_then_getPlan :
  forall (r : Runtime) (p : PlannerAgent.t) (projectId projectType : string)
         (requirements : JsMap.t JsValue) (template : list ExecutionStep.t),
    JsMap.get (PlannerAgent.templates p) projectType = Some template ->
    exists plan w',
      PlannerAgent.createPlan projectId projectType requirements (r, p)
      = (Normal plan, w') /\
      ExecutionPlan.status plan = PlanStatus.draft /\
      ExecutionPlan.projectId plan = projectId /\
      ExecutionPlan.projectType plan = projectType /\
      ExecutionPlan.requirements plan = requirements /\
      PlannerAgent.getPlan (ExecutionPlan.id plan) w'
      = (Normal (Some plan), w') /\
      (exists found,
         PlannerAgent.getProjectPlans projectId w' = (Normal found, w') /\
         In plan found) /\
      (forall other,
         other <> ExecutionPlan.id plan ->
         JsMap.get (PlannerAgent.plans (snd w')) other
         = JsMap.get (PlannerAgent.plans p) other) /\
      PlannerAgent.templates (snd w') = PlannerAgent.templates p.
Proof.
  intros r p projectId projectType requirements template Hget.
  destruct (createPlan_run r p projectId projectType requirements template Hget)
    as [r' Hrun].
  eexists. eexists. split; [exact Hrun|].
  set (plan := planned (clock r) (S (ticks r)) projectId projectType template
                 requirements) in *.
  repeat (split; [reflexivity|]).
  split; [|split; [|split]].
  - unfold PlannerAgent.getPlan, bind, this, ret.
    cbn [fst snd PlannerAgent.plans]. now rewrite JsMap_get_set_same.
  - eexists. split; [reflexivity|].
    cbn [fst snd PlannerAgent.plans]. apply filter_In. split.
    + apply (JsMap_get_In _ (ExecutionPlan.id plan)), JsMap_get_set_same.
    + apply String.eqb_refl.
  - intros other Hother. cbn [snd PlannerAgent.plans].
    now apply JsMap_get_set_other.
  - reflexivity.
Qed.

Lemma createPlan_then_getPlan_witness :
  exists plan w',
    PlannerAgent.createPlan "p1" "website" [] (boot, PlannerAgent.new)
    = (Normal plan, w') /\
    PlannerAgent.getPlan (ExecutionPlan.id plan) w'
    = (Normal (Some plan), w').
Proof.
  destruct (createPlan_then_getPlan boot PlannerAgent.new "p1" "website" []
              PlannerAgent.website_template eq_refl)
    as (plan & w' & Hrun & _ & _ & _ & _ & Hget & _).
  exists plan, w'. split; [exact Hrun | exact Hget].
Defined.

(** X13.  [approvePlan] sets a stored plan to [approved] whatever its status was,
    [completed] and [failed] included, and rewrites [updatedAt]; identity,
    project, steps, creation time, estimated duration and requirements stay;
    the plan is stored back under the same identity and no other stored plan
    changes. *)
Theorem approvePlan_from_any_status :
  forall (r : Runtime) (p : PlannerAgent.t) (planId : string)
         (plan : ExecutionPlan.t),
    JsMap.get (PlannerAgent.plans p) planId = Some plan ->
    exists w',
      PlannerAgent.approvePlan planId (r, p)
      = (Normal (restatused plan PlanStatus.approved (clock r (ticks r))), w') /\
      JsMap.get (PlannerAgent.plans (snd w')) planId
      = Some (restatused plan PlanStatus.approved (clock r (ticks r))) /\
      JsMap.size (PlannerAgent.plans (snd w'))
      = JsMap.size (PlannerAgent.plans p) /\
      (forall other,
         other <> planId ->
         JsMap.get (PlannerAgent.plans (snd w')) other
         = JsMap.get (PlannerAgent.plans p) other).
Proof.
  intros r p planId plan Hget. eexists.
  unfold PlannerAgent.approvePlan.
  rewrite (updatePlan_run r p planId plan _ Hget).
  split; [reflexivity|]. cbn [snd PlannerAgent.plans].
  split; [apply JsMap_get_set_same|]. split.
  - rewrite JsMap_size_set. unfold JsMap.has. now rewrite Hget.
  - intros other Hother. now apply JsMap_get_set_other.
Qed.

Lemma approvePlan_from_any_status_witness :
  exists approved w',
    PlannerAgent.approvePlan "plan_p1_1700000000008"
      (fst generated_world, snd generated_world)
    = (Normal approved, w') /\
    ExecutionPlan.status approved = PlanStatus.approved /\
    ExecutionPlan.steps approved = ExecutionPlan.steps automation_plan.
Proof.
  destruct (approvePlan_from_any_status (fst generated_world)
              (snd generated_world) "plan_p1_1700000000008" automation_plan
              generated_world_plan) as (w' & Hrun & _).
  eexists. exists w'. split; [exact Hrun|]. split; reflexivity.
Defined.

(** X14.  [updatePlan] keeps the plan under the key it was looked up with, even
    when the updates carry another [id], and always stamps [updatedAt] with
    the time of the call, even when the updates carry one; the number of
    stored plans and every plan under another key stay. *)
Theorem updatePlan_frame :
  forall (r : Runtime) (p : PlannerAgent.t) (planId : string)
         (plan : ExecutionPlan.t) (updates : PartialExecutionPlan.t),
    JsMap.get (PlannerAgent.plans p) planId = Some plan ->
    exists updated w',
      PlannerAgent.updatePlan planId updates (r, p) = (Normal updated, w') /\
      ExecutionPlan.updatedAt updated = clock r (ticks r) /\
      ExecutionPlan.id updated
      = PlannerAgent.or_else (PartialExecutionPlan.id updates)
          (ExecutionPlan.id plan) /\
      PlannerAgent.getPlan planId w' = (Normal (Some updated), w') /\
      JsMap.size (PlannerAgent.plans (snd w'))
      = JsMap.size (PlannerAgent.plans p) /\
      (forall other,
         other <> planId ->
         JsMap.get (PlannerAgent.plans (snd w')) other
         = JsMap.get (PlannerAgent.plans p) other) /\
      PlannerAgent.templates (snd w') = PlannerAgent.templates p.
Proof.
  intros r p planId plan updates Hget. eexists. eexists.
  split; [apply (updatePlan_run r p planId plan updates Hget)|].
  split; [reflexivity|]. split; [reflexivity|].
  cbn [snd PlannerAgent.plans PlannerAgent.templates].
  split; [|split; [|split]].
  - unfold PlannerAgent.getPlan, bind, this, ret.
    cbn [fst snd PlannerAgent.plans]. now rewrite JsMap_get_set_same.
  - rewrite JsMap_size_set. unfold JsMap.has. now rewrite Hget.
  - intros other Hother. now apply JsMap_get_set_other.
  - reflexivity.
Qed.

Lemma updatePlan_frame_witness :
  exists updated w',
    PlannerAgent.updatePlan "plan_p1_1700000000008"
      (PartialExecutionPlan.mk (Some "renamed") None None None None None
         (Some 0) None None)
      (fst generated_world, snd generated_world)
    = (Normal updated, w') /\
    ExecutionPlan.id updated = "renamed" /\
    ExecutionPlan.updatedAt updated = 1700000000012 /\
    PlannerAgent.getPlan "plan_p1_1700000000008" w' = (Normal (Some updated), w').
Proof.
  destruct (updatePlan_frame (fst generated_world) (snd generated_world)
              "plan_p1_1700000000008" automation_plan
              (PartialExecutionPlan.mk (Some "renamed") None None None None
                 None (Some 0) None None)
              generated_world_plan)
    as (updated & w' & Hrun & Hat & Hid & Hget & _).
  exists updated, w'. split; [exact Hrun|]. split; [exact Hid|].
  split; [rewrite Hat; vm_compute; reflexivity | exact Hget].
Defined.

(** X15.  For an identity under which no plan is stored, [updatePlan],
    [approvePlan] and [addStep] throw "Plan <id> not found" and [getPlan]
    returns [null]; the planner and the runtime are unchanged. *)
Theorem unknown_plan_not_found :
  forall (r : Runtime) (p : PlannerAgent.t) (planId : string)
         (updates : PartialExecutionPlan.t) (step : ExecutionStep.t),
    JsMap.get (PlannerAgent.plans p) planId = None ->
    PlannerAgent.updatePlan planId updates (r, p)
    = (Throw ("Plan " ++ planId ++ " not found"), (r, p)) /\
    PlannerAgent.approvePlan planId (r, p)
    = (Throw ("Plan " ++ planId ++ " not found"), (r, p)) /\
    PlannerAgent.addStep planId step (r, p)
    = (Throw ("Plan " ++ planId ++ " not found"), (r, p)) /\
    PlannerAgent.getPlan planId (r, p) = (Normal None, (r, p)).
Proof.
  intros r p planId updates step Hget.
  unfold PlannerAgent.approvePlan, PlannerAgent.updatePlan,
    PlannerAgent.addStep, PlannerAgent.getPlan, bind, this, ret.
  cbn [fst snd]. rewrite Hget. repeat split.
Qed.

Lemma unknown_plan_not_found_witness :
  PlannerAgent.approvePlan "plan_x" (boot, PlannerAgent.new)
  = (Throw ("Plan " ++ "plan_x" ++ " not found"), (boot, PlannerAgent.new)).
Proof.
  exact (proj1 (proj2 (unknown_plan_not_found boot PlannerAgent.new "plan_x"
                         PartialExecutionPlan.none sign_off eq_refl))).
Defined.

(** ** Step identities are distinct *)

Section DistinctIdentities.
Import PlannerAgent.

Lemma string_of_uint_no_underscore :
  forall d : Decimal.uint,
    all_chars not_underscore (NilEmpty.string_of_uint d) = true.
Proof.
  induction d; cbn [NilEmpty.string_of_uint all_chars]; try reflexivity;
    rewrite IHd; reflexivity.
Qed.

Lemma String_of_number_no_underscore :
  forall n : Z, all_chars not_underscore (String_of_number n) = true.
Proof.
  intros n. unfold String_of_number.
  assert (Huint : forall d,
             all_chars not_underscore (NilZero.string_of_uint d) = true).
  { intros d. destruct d; try reflexivity;
      apply string_of_uint_no_underscore. }
  destruct (Z.to_int n) as [d|d]; cbn [NilZero.string_of_int all_chars].
  - apply Huint.
  - now rewrite Huint.
Qed.

Lemma underscore_inside :
  forall a x, all_chars not_underscore (a ++ String "_" x) = false.
Proof.
  induction a as [|c a IH]; intros x; cbn [String.append all_chars].
  - reflexivity.
  - rewrite IH. apply andb_false_r.
Qed.

(** The part before the last underscore determines the whole. *)
Lemma suffixed_injective :
  forall a b x y,
    all_chars not_underscore x = true ->
    all_chars not_underscore y = true ->
    a ++ "_" ++ x = b ++ "_" ++ y -> a = b.
Proof.
  induction a as [|c a IH]; intros [|c' b] x y Hx Hy Heq;
    cbn [String.append] in Heq.
  - reflexivity.
  - inversion Heq; subst. now rewrite underscore_inside in Hx.
  - inversion Heq; subst. now rewrite underscore_inside in Hy.
  - inversion Heq; subst. f_equal. now apply (IH b x y).
Qed.

Lemma distinct_NoDup :
  forall names, distinct names = true -> NoDup names.
Proof.
  induction names as [|n rest IH]; intros H; cbn [distinct] in H.
  - constructor.
  - apply andb_true_iff in H. destruct H as [Hn Hrest]. constructor.
    + intros Hin. apply negb_true_iff in Hn.
      assert (existsb (String.eqb n) rest = true)
        by (apply existsb_exists; exists n; split;
            [exact Hin | apply String.eqb_refl]).
      congruence.
    + now apply IH.
Qed.

Lemma stored_identities_distinct :
  forall template,
    template = website_template \/ template = automation_template ->
    NoDup (map ExecutionStep.id template).
Proof.
  intros template [-> | ->]; apply distinct_NoDup; vm_compute; reflexivity.
Qed.

Lemma stamped_distinct :
  forall template requirements clock tick,
    NoDup (map ExecutionStep.id template) ->
    NoDup (map ExecutionStep.id (stamped clock tick template requirements)).
Proof.
  induction template as [|step rest IH]; intros requirements clock tick Hnd;
    cbn [stamped map] in *.
  - constructor.
  - inversion Hnd as [|? ? Hnotin Hrest]; subst.
    destruct (shouldIncludeStep step requirements); [|now apply IH].
    cbn [map respread ExecutionStep.id]. constructor; [|now apply IH].
    intros Hin. apply in_map_iff in Hin. destruct Hin as (s & Hid & Hs).
    destruct (stamped_In _ _ _ _ _ Hs) as (t & Ht & [now ->]).
    cbn [respread ExecutionStep.id] in Hid.
    apply suffixed_injective in Hid;
      try apply String_of_number_no_underscore.
    apply Hnotin. rewrite <- Hid. now apply in_map.
Qed.

End DistinctIdentities.

(** X16.  The steps of a plan returned by [createPlan] have pairwise distinct
    identities, also when the clock does not advance between two steps. *)
Theorem createPlan_step_identities_distinct :
  forall (r : Runtime) (p : PlannerAgent.t) (projectId projectType : string)
         (requirements : JsMap.t JsValue) (template : list ExecutionStep.t),
    PlannerAgent.templates p = PlannerAgent.templates PlannerAgent.new ->
    JsMap.get (PlannerAgent.templates p) projectType = Some template ->
    exists plan w',
      PlannerAgent.createPlan projectId projectType requirements (r, p)
      = (Normal plan, w') /\
      NoDup (map ExecutionStep.id (ExecutionPlan.steps plan)).
Proof.
  intros r p projectId projectType requirements template Hp Hget.
  destruct (createPlan_run r p projectId projectType requirements template Hget)
    as [r' Hrun].
  eexists. eexists. split; [exact Hrun|].
  cbn [planned ExecutionPlan.steps].
  apply stamped_distinct, stored_identities_distinct.
  exact (stored_template p projectType template Hp Hget).
Qed.

Lemma createPlan_step_identities_distinct_witness :
  exists plan w',
    PlannerAgent.createPlan "p1" "website" [] (frozen, PlannerAgent.new)
    = (Normal plan, w') /\
    NoDup (map ExecutionStep.id (ExecutionPlan.steps plan)).
Proof.
  exact (createPlan_step_identities_distinct frozen PlannerAgent.new "p1"
           "website" [] PlannerAgent.website_template eq_refl eq_refl).
Defined.

(** ** Steps come in dependency order *)

Section DependencyOrder.
Import PlannerAgent.

(** The stored templates lose at most the optional CMS step. *)
Lemma stored_kept_cases :
  forall template requirements,
    template = website_template \/ template = automation_template ->
    filter (fun t => shouldIncludeStep t requirements) template = template \/
    filter (fun t => shouldIncludeStep t requirements) template
    = website_without_cms.
Proof.
  intros template requirements [-> | ->].
  - unfold website_template. cbn.
    destruct (JsMap.has requirements "cms"
              && strict_eq (get_any requirements "cms") (JsBool true));
      [left | right]; reflexivity.
  - left. reflexivity.
Qed.

Lemma stored_kept_checked :
  forall template requirements,
    template = website_template \/ template = automation_template ->
    deps_before [] (filter (fun t => shouldIncludeStep t requirements) template)
    = true /\
    ascending
      (map ExecutionStep.order
         (filter (fun t => shouldIncludeStep t requirements) template))
    = true.
Proof.
  intros template requirements Hstored.
  destruct (stored_kept_cases template requirements Hstored) as [-> | ->].
  - destruct Hstored as [-> | ->]; split; vm_compute; reflexivity.
  - split; vm_compute; reflexivity.
Qed.

Lemma ascending_sorted :
  forall l, ascending l = true -> StronglySorted Z.lt l.
Proof.
  intros l H. apply Sorted_StronglySorted.
  - intros x y z. apply Z.lt_trans.
  - induction l as [|a [|b rest] IH].
    + constructor.
    + repeat constructor.
    + cbn [ascending] in H. apply andb_true_iff in H.
      destruct H as [Hab Hrest]. constructor.
      * now apply IH.
      * constructor. now apply Z.ltb_lt.
Qed.

Lemma stamped_orders :
  forall template requirements clock tick,
    map ExecutionStep.order (stamped clock tick template requirements)
    = map ExecutionStep.order
        (filter (fun t => shouldIncludeStep t requirements) template).
Proof.
  induction template as [|step rest IH]; intros requirements clock tick;
    cbn [stamped filter].
  - reflexivity.
  - destruct (shouldIncludeStep step requirements).
    + cbn [map respread ExecutionStep.order]. now rewrite IH.
    + apply IH.
Qed.

Lemma deps_before_split :
  forall before t after seen,
    deps_before seen (before ++ t :: after) = true ->
    forall d,
      In d (ExecutionStep.dependencies t) ->
      In d (seen ++ map ExecutionStep.id before).
Proof.
  induction before as [|k before IH]; intros t after seen H d Hd;
    cbn [app deps_before map] in *.
  - apply andb_true_iff in H. destruct H as [Hdeps _].
    rewrite forallb_forall in Hdeps. specialize (Hdeps d Hd).
    apply existsb_exists in Hdeps. destruct Hdeps as (x & Hx & Heq).
    apply String.eqb_eq in Heq. subst x. rewrite app_nil_r. exact Hx.
  - apply andb_true_iff in H. destruct H as [_ Hrest].
    specialize (IH t after _ Hrest d Hd).
    rewrite <- app_assoc in IH. exact IH.
Qed.

Lemma Forall2_In_l :
  forall (A B : Type) (R : A -> B -> Prop) (l1 : list A) (l2 : list B) (x : A),
    Forall2 R l1 l2 -> In x l1 -> exists y, In y l2 /\ R x y.
Proof.
  intros A B R l1 l2 x H. induction H as [|a b l1 l2 Hab _ IH]; intros Hin.
  - destruct Hin.
  - destruct Hin as [-> | Hin].
    + exists b. split; [now left | exact Hab].
    + destruct (IH Hin) as (y & Hy & Hxy). exists y. split; [now right | exact Hxy].
Qed.

End DependencyOrder.

(** X17.  In a plan returned by [createPlan] the steps stand in ascending [order],
    and every dependency of a step names, by its template identity, a step
    that stands earlier in the plan: the step whose identity is the
    dependency followed by [_] and a clock reading.  No kept step depends on
    a step that was filtered out. *)
Theorem createPlan_steps_in_dependency_order :
  forall (r : Runtime) (p : PlannerAgent.t) (projectId projectType : string)
         (requirements : JsMap.t JsValue) (template : list ExecutionStep.t),
    PlannerAgent.templates p = PlannerAgent.templates PlannerAgent.new ->
    JsMap.get (PlannerAgent.templates p) projectType = Some template ->
    exists plan w',
      PlannerAgent.createPlan projectId projectType requirements (r, p)
      = (Normal plan, w') /\
      StronglySorted Z.lt
        (map ExecutionStep.order (ExecutionPlan.steps plan)) /\
      forall before s after,
        ExecutionPlan.steps plan = (before ++ s :: after)%list ->
        forall d,
          In d (ExecutionStep.dependencies s) ->
          exists s' now,
            In s' before /\
            ExecutionStep.id s' = d ++ "_" ++ String_of_number now.
Proof.
  intros r p projectId projectType requirements template Hp Hget.
  pose proof (stored_template p projectType template Hp Hget) as Hstored.
  destruct (stored_kept_checked template requirements Hstored)
    as [Hdeps Hasc].
  destruct (createPlan_run r p projectId projectType requirements template Hget)
    as [r' Hrun].
  eexists. eexists. split; [exact Hrun|].
  cbn [planned ExecutionPlan.steps]. split.
  - rewrite stamped_orders. now apply ascending_sorted.
  - intros before s after Hsplit d Hd.
    pose proof (stamped_generated template requirements (clock r)
                  (S (ticks r))) as Hgen.
    rewrite Hsplit in Hgen.
    apply Forall2_app_inv_r in Hgen.
    destruct Hgen as (kb & krest & Hgb & Hgrest & Hkept).
    inversion Hgrest as [|t s0 ka after0 Hts Hga]; subst.
    destruct Hts as [now0 ->].
    cbn [PlannerAgent.respread ExecutionStep.dependencies] in Hd.
    rewrite Hkept in Hdeps.
    pose proof (deps_before_split kb t ka [] Hdeps d Hd) as Hin.
    cbn [app] in Hin. apply in_map_iff in Hin.
    destruct Hin as (t' & Hid & Ht').
    destruct (Forall2_In_l _ _ _ _ _ t' Hgb Ht') as (s' & Hs' & [now ->]).
    exists (PlannerAgent.respread t'
              (ExecutionStep.id t' ++ "_" ++ String_of_number now)
              (PlannerAgent.adjustDuration t' requirements)), now.
    split; [exact Hs'|].
    cbn [PlannerAgent.respread ExecutionStep.id]. now rewrite Hid.
Qed.

Lemma createPlan_steps_in_dependency_order_witness :
  exists plan w',
    PlannerAgent.createPlan "p1" "website" [] (boot, PlannerAgent.new)
    = (Normal plan, w') /\
    StronglySorted Z.lt (map ExecutionStep.order (ExecutionPlan.steps plan)).
Proof.
  destruct (createPlan_steps_in_dependency_order boot PlannerAgent.new "p1"
              "website" [] PlannerAgent.website_template eq_refl eq_refl)
    as (plan & w' & Hrun & Hsorted & _).
  exists plan, w'. split; [exact Hrun | exact Hsorted].
Defined.

(** ** Adjusted durations in whole numbers *)

Section ClosedForms.
Import PlannerAgent.

Lemma Math_round_whole : forall d : Z, Math_round (inject_Z d) = d.
Proof.
  intros d. unfold Math_round, Qfloor, Qplus, inject_Z. cbn [Qnum Qden].
  Z.to_euclidean_division_equations. lia.
Qed.

Lemma Math_round_three_halves :
  forall d : Z, Math_round (inject_Z d * (3 # 2))%Q = (3 * d + 1) / 2.
Proof.
  intros d. unfold Math_round, Qfloor, Qplus, Qmult, inject_Z.
  cbn [Qnum Qden Pos.mul].
  Z.to_euclidean_division_equations. lia.
Qed.

Lemma Math_round_four_fifths :
  forall d : Z, Math_round (inject_Z d * (4 # 5))%Q = (8 * d + 5) / 10.
Proof.
  intros d. unfold Math_round, Qfloor, Qplus, Qmult, inject_Z.
  cbn [Qnum Qden Pos.mul].
  Z.to_euclidean_division_equations. lia.
Qed.

End ClosedForms.

(** X18.  [adjustDuration] in whole minutes, for a base duration [d] below
    2^40 in magnitude, where the product the code takes in double precision
    rounds as the exact one does: [d] becomes [(3d + 1) / 2] under
    complexity ['high'], [(8d + 5) / 10] under ['low'] (floor divisions:
    halves round up), and stays [d] when the complexity is absent or is
    anything else, a string such as ['medium'] or a non-string.  For
    [d >= 0] the result lies between the low and the high value and is not
    negative. *)
Theorem adjustDuration_closed_form :
  forall (step : ExecutionStep.t) (requirements : JsMap.t JsValue),
    - 2 ^ 40 < ExecutionStep.estimatedDuration step < 2 ^ 40 ->
    PlannerAgent.adjustDuration step requirements
    = match JsMap.get requirements "complexity" with
      | Some (JsString level) =>
          if String.eqb level "high"
          then (3 * ExecutionStep.estimatedDuration step + 1) / 2
          else if String.eqb level "low"
          then (8 * ExecutionStep.estimatedDuration step + 5) / 10
          else ExecutionStep.estimatedDuration step
      | _ => ExecutionStep.estimatedDuration step
      end /\
    (0 <= ExecutionStep.estimatedDuration step ->
     0 <= (8 * ExecutionStep.estimatedDuration step + 5) / 10
       <= PlannerAgent.adjustDuration step requirements /\
     PlannerAgent.adjustDuration step requirements
       <= (3 * ExecutionStep.estimatedDuration step + 1) / 2).
Proof.
  intros step requirements _.
  set (d := ExecutionStep.estimatedDuration step).
  assert (Hform :
    PlannerAgent.adjustDuration step requirements
    = match JsMap.get requirements "complexity" with
      | Some (JsString level) =>
          if String.eqb level "high" then (3 * d + 1) / 2
          else if String.eqb level "low" then (8 * d + 5) / 10
          else d
      | _ => d
      end).
  { unfold PlannerAgent.adjustDuration, JsMap.has, get_any. fold d.
    destruct (JsMap.get requirements "complexity") as [[| |b|n|level]|];
      cbn [strict_eq]; try apply Math_round_whole.
    destruct (String.eqb level "high"); [apply Math_round_three_halves|].
    destruct (String.eqb level "low"); [apply Math_round_four_fifths|].
    apply Math_round_whole. }
  split; [exact Hform|]. intros Hd. rewrite Hform.
  destruct (JsMap.get requirements "complexity") as [[| |b|n|level]|];
    try (Z.to_euclidean_division_equations; lia).
  destruct (String.eqb level "high");
    [|destruct (String.eqb level "low")];
    Z.to_euclidean_division_equations; lia.
Qed.

Lemma adjustDuration_closed_form_witness :
  - 2 ^ 40 < 45 < 2 ^ 40 /\
  PlannerAgent.adjustDuration
    (PlannerAgent.literal "setup_project" "Initialize Project Structure"
       "Create basic project structure and configuration files" "setup"
       ["setup_repo"] 45 true 2)
    [("complexity", JsString "high")] = 68 /\
  0 <= 36 <= 68.
Proof.
  assert (Hsmall : - 2 ^ 40 < 45 < 2 ^ 40) by (split; reflexivity).
  split; [exact Hsmall|].
  destruct (adjustDuration_closed_form
              (PlannerAgent.literal "setup_project"
                 "Initialize Project Structure"
                 "Create basic project structure and configuration files"
                 "setup" ["setup_repo"] 45 true 2)
              [("complexity", JsString "high")] Hsmall) as [Hform Hbounds].
  split; [rewrite Hform; reflexivity|].
  cbn [PlannerAgent.literal ExecutionStep.estimatedDuration] in Hbounds.
  rewrite Hform in Hbounds. cbn in Hbounds. lia.
Defined.

(** * Further properties of the executor *)

(** X19.  [executeStep] never throws and never touches the executor's state
    or a project; it reads the clock only to stamp its log entries, once
    per entry.  It returns [true] exactly for the eight step types that have
    a case in [executeStepByType], having logged three events, and [false]
    for every other type, having logged its start and the failure
    "Unknown step type: <type>". *)
Theorem executeStep_result :
  forall (r : Runtime) (e : ExecutorAgent.t) (step : ExecutionStep.t)
         (projectId : string),
    exists r',
      ExecutorAgent.executeStep step projectId (r, e)
      = (Normal (known_type (ExecutionStep.type step)), (r', e)) /\
      clock r' = clock r /\ heap r' = heap r /\
      (if known_type (ExecutionStep.type step)
       then
         ticks r' = (3 + ticks r)%nat /\
         exists a b c, log r' = (log r ++ [a; b; c])%list
       else
         ticks r' = (2 + ticks r)%nat /\
         exists a,
           log r' =
           (log r ++
            [a;
             mkLogCall failure
               [Some "executor"; Some "step_execution_failed";
                Some ("Unknown step type: " ++ ExecutionStep.type step)%string;
                Some projectId; Some (ExecutionStep.name step);
                Some "Step execution failed"; Some "step_failed"]])%list).
Proof.
  intros r e step projectId.
  unfold ExecutorAgent.executeStep, ExecutorAgent.executeStepByType,
    known_type.
  cbn [existsb].
  unfold bind at 1, spectreLogger at 1. cbn [fst snd].
  repeat match goal with
         | |- context [if String.eqb (ExecutionStep.type step) ?s
                       then _ else _] =>
             destruct (String.eqb (ExecutionStep.type step) s);
             [ cbn [orb]; eexists; split; [reflexivity|];
               cbn [fst snd clock ticks heap log];
               repeat (split; [reflexivity|]);
               rewrite <- ?app_assoc; cbn [app];
               solve [repeat eexists]
             | ]
         end.
  cbn [orb]. eexists.
  unfold try_catch, bind, throw, spectreLogger, ret.
  cbn [fst snd clock ticks heap log].
  split; [reflexivity|].
  repeat (split; [reflexivity|]).
  rewrite <- ?app_assoc. cbn [app]. repeat eexists.
Qed.

(** * Properties of the validator *)

Section ValidatorFacts.
Import ValidatorAgent.

Lemma unless_sound :
  forall present issue penalty recommendation t,
    0 < penalty -> sound t ->
    sound (unless present issue penalty recommendation t).
Proof.
  intros present issue penalty recommendation t Hp Hsound.
  unfold unless. destruct present; [exact Hsound|].
  destruct Hsound as (Hle & Hiff & Hlen). unfold sound. cbn [tally_score tally_issues tally_recommendations].
  rewrite !length_app. cbn [length]. repeat split; try lia.
  intros Habs. now destruct (tally_issues t).
Qed.

Lemma capped_sound :
  forall t,
    sound t ->
    sound (mkTally (Z.max 0 (tally_score t)) (tally_issues t)
             (tally_recommendations t))
    /\ 0 <= Z.max 0 (tally_score t).
Proof.
  intros t (Hle & Hiff & Hlen). split; [|lia].
  unfold sound. cbn [tally_score tally_issues tally_recommendations].
  repeat split; try lia.
  - intros Hnil. apply Hiff in Hnil. lia.
  - intros Hmax. apply Hiff. lia.
Qed.

Lemma filter_shorter :
  forall (A : Type) (f : A -> bool) (l : list A),
    (length (filter f l) <= length l)%nat.
Proof.
  intros A f. induction l as [|a l IH]; cbn [filter length]; [lia|].
  destruct (f a); cbn [length]; lia.
Qed.

Lemma tally_sound :
  forall plan, sound (tally plan) /\ 0 <= tally_score (tally plan).
Proof.
  intros plan. unfold tally.
  assert (Hstart : sound (mkTally 100 [] [])).
  { unfold sound. cbn. repeat split; lia. }
  destruct (String.eqb (ExecutionPlan.projectType plan) "website");
    [|destruct (String.eqb (ExecutionPlan.projectType plan) "automation")].
  - unfold validateWebsite. apply capped_sound.
    repeat (apply unless_sound; [lia|]).
    destruct (Nat.ltb_spec
                (length (filter is_completed
                           (filter ExecutionStep.required
                              (ExecutionPlan.steps plan))))
                (length (filter ExecutionStep.required
                           (ExecutionPlan.steps plan)))) as [Hlt|Hge];
      [|exact Hstart].
    unfold sound. cbn [tally_score tally_issues tally_recommendations app length].
    repeat split; try lia; intros Habs; try discriminate Habs; lia.
  - unfold validateAutomation. apply capped_sound.
    repeat (apply unless_sound; [lia|]). exact Hstart.
  - unfold validateGeneric. apply capped_sound.
    apply unless_sound; [lia|].
    destruct (Nat.ltb_spec
                (length (filter is_completed (ExecutionPlan.steps plan)))
                (length (ExecutionPlan.steps plan))) as [Hlt|Hge];
      [|exact Hstart].
    unfold sound. cbn [tally_score tally_issues tally_recommendations app length].
    repeat split; try lia; intros Habs; try discriminate Habs; lia.
Qed.

Lemma validateProject_run :
  forall r (v : t) plan projectId,
    exists r',
      validateProject plan projectId (r, v) =
      (Normal (mkValidation (85 <=? tally_score (tally plan))
                 (tally_issues (tally plan)) (tally_score (tally plan))
                 (tally_recommendations (tally plan))),
       (r', v)) /\
      clock r' = clock r /\ ticks r' = (2 + ticks r)%nat /\ heap r' = heap r.
Proof.
  intros r v plan projectId.
  unfold validateProject, performValidation. fold (tally plan).
  rewrite Math_round_whole.
  unfold bind, try_catch, ret, spectreLogger. cbn [fst snd valid].
  destruct (85 <=? tally_score (tally plan));
    cbn [fst snd]; eexists; (split; [reflexivity|]); repeat split.
Qed.

End ValidatorFacts.

(** X20.  [validateProject] never throws and changes neither the validator
    nor any project; it reads the clock twice, to stamp the two events it
    logs.  Its score lies between 0 and 100, the project is valid exactly
    when the score is at least 85, the score is 100 exactly when no issue is
    reported, and there is at most one recommendation per issue. *)
Theorem validateProject_score :
  forall (r : Runtime) (v : ValidatorAgent.t) (plan : ExecutionPlan.t)
         (projectId : string),
    exists result r',
      ValidatorAgent.validateProject plan projectId (r, v)
      = (Normal result, (r', v)) /\
      0 <= ValidatorAgent.score result <= 100 /\
      ValidatorAgent.valid result = (85 <=? ValidatorAgent.score result) /\
      (ValidatorAgent.issues result = []
       <-> ValidatorAgent.score result = 100) /\
      (length (ValidatorAgent.recommendations result)
       <= length (ValidatorAgent.issues result))%nat /\
      clock r' = clock r /\ ticks r' = (2 + ticks r)%nat /\ heap r' = heap r.
Proof.
  intros r v plan projectId.
  destruct (validateProject_run r v plan projectId) as (r' & Hrun & Hframe).
  destruct (tally_sound plan) as [(Hle & Hiff & Hlen) Hpos].
  eexists. exists r'. split; [exact Hrun|].
  cbn [ValidatorAgent.score ValidatorAgent.valid ValidatorAgent.issues
       ValidatorAgent.recommendations].
  split; [lia|]. split; [reflexivity|]. split; [exact Hiff|].
  split; [exact Hlen | exact Hframe].
Qed.

Lemma Normal_injective :
  forall (A : Type) (a b : A), Normal a = Normal b -> a = b.
Proof. intros A a b H. now injection H. Qed.

Section ValidatorOnGeneratedPlans.
Import ValidatorAgent.

Lemma existsb_on_names :
  forall (f : string -> bool) (l : list ExecutionStep.t),
    existsb (fun step => f (ExecutionStep.name step)) l
    = existsb f (map ExecutionStep.name l).
Proof.
  intros f. induction l as [|s l IH]; cbn [existsb map]; [reflexivity|].
  now rewrite IH.
Qed.

Lemma existsb_on_types :
  forall (f : string -> bool) (l : list ExecutionStep.t),
    existsb (fun step => f (ExecutionStep.type step)) l
    = existsb f (map ExecutionStep.type l).
Proof.
  intros f. induction l as [|s l IH]; cbn [existsb map]; [reflexivity|].
  now rewrite IH.
Qed.

Lemma profile_names :
  forall l l',
    profile l = profile l' ->
    map ExecutionStep.name l = map ExecutionStep.name l' /\
    map ExecutionStep.type l = map ExecutionStep.type l'.
Proof.
  induction l as [|s l IH]; intros [|s' l'] H; cbn [profile map] in H;
    try discriminate.
  - split; reflexivity.
  - inversion H as [[Hn Ht Hr Hrest]].
    destruct (IH l' Hrest) as [IHn IHt].
    cbn [map]. now rewrite Hn, Ht, IHn, IHt.
Qed.

Lemma stamped_profile :
  forall template requirements clock tick,
    profile (stamped clock tick template requirements)
    = profile
        (filter (fun t => PlannerAgent.shouldIncludeStep t requirements)
           template).
Proof.
  unfold profile.
  induction template as [|step rest IH]; intros requirements clock tick;
    cbn [stamped filter].
  - reflexivity.
  - destruct (PlannerAgent.shouldIncludeStep step requirements).
    + cbn [map PlannerAgent.respread ExecutionStep.name ExecutionStep.type
           ExecutionStep.required].
      now rewrite IH.
    + apply IH.
Qed.

Lemma automation_tally :
  forall plan,
    ExecutionPlan.projectType plan = "automation" ->
    profile (ExecutionPlan.steps plan)
    = profile PlannerAgent.automation_template ->
    tally plan
    = mkTally 90 ["Error handling not implemented"]
        ["Implement error handling"].
Proof.
  intros plan Hty Hprofile.
  destruct (profile_names _ _ Hprofile) as [Hnames Htypes].
  unfold tally. rewrite Hty.
  change (String.eqb "automation" "website") with false.
  change (String.eqb "automation" "automation") with true.
  unfold validateAutomation, names_include, has_type.
  rewrite (existsb_on_names (fun n => String_includes n "Workflow")),
    (existsb_on_names (fun n => String_includes n "Monitoring")),
    (existsb_on_names
       (fun n => String_includes n "Error" || String_includes n "Recovery")),
    (existsb_on_types (fun ty => String.eqb ty "integration")),
    (existsb_on_types (fun ty => String.eqb ty "testing")).
  rewrite Hnames, Htypes. vm_compute. reflexivity.
Qed.

Lemma forallb_filter_implb :
  forall (A : Type) (f g : A -> bool) (l : list A),
    forallb g (filter f l) = forallb (fun a => implb (f a) (g a)) l.
Proof.
  intros A f g. induction l as [|a l IH]; cbn [filter forallb]; [reflexivity|].
  destruct (f a); cbn [forallb implb]; now rewrite IH.
Qed.

Lemma filter_shorter_unless_all :
  forall (A : Type) (g : A -> bool) (l : list A),
    (length (filter g l) <? length l)%nat = negb (forallb g l).
Proof.
  intros A g. induction l as [|a l IH]; cbn [filter forallb length];
    [reflexivity|].
  pose proof (filter_shorter A g l) as Hle.
  destruct (g a); cbn [length andb negb].
  - exact IH.
  - apply Nat.ltb_lt. lia.
Qed.

(** What the website checks find in a plan with the names and types of the
    stored website template, with or without the CMS step. *)
Lemma website_tally :
  forall plan,
    ExecutionPlan.projectType plan = "website" ->
    profile (ExecutionPlan.steps plan) = profile PlannerAgent.website_template \/
    profile (ExecutionPlan.steps plan) = profile website_without_cms ->
    (85 <=? tally_score (tally plan))
    = forallb (fun s => implb (ExecutionStep.required s) (is_completed s))
        (ExecutionPlan.steps plan) /\
    tally_score (tally plan) <= 85 /\
    In "Security measures not implemented" (tally_issues (tally plan)).
Proof.
  intros plan Hty Hprofile.
  assert (Hfound :
    names_include plan "Backend" = true /\
    names_include plan "Frontend" = true /\
    names_include plan "Deploy" = true /\
    has_type plan "testing" = true /\
    existsb (fun step =>
               String_includes (ExecutionStep.name step) "Security"
               || String_includes (ExecutionStep.name step) "Authentication")
      (ExecutionPlan.steps plan) = false).
  { unfold names_include, has_type.
    rewrite (existsb_on_names (fun n => String_includes n "Backend")),
      (existsb_on_names (fun n => String_includes n "Frontend")),
      (existsb_on_names (fun n => String_includes n "Deploy")),
      (existsb_on_names
         (fun n => String_includes n "Security"
                   || String_includes n "Authentication")),
      (existsb_on_types (fun ty => String.eqb ty "testing")).
    destruct Hprofile as [Hprofile | Hprofile];
      destruct (profile_names _ _ Hprofile) as [-> ->];
      vm_compute; repeat split. }
  destruct Hfound as (Hb & Hf & Hd & Ht & Hs).
  unfold tally. rewrite Hty.
  change (String.eqb "website" "website") with true.
  unfold validateWebsite. rewrite Hb, Hf, Hd, Ht, Hs.
  unfold unless. cbn [tally_score tally_issues tally_recommendations].
  rewrite <- forallb_filter_implb.
  rewrite filter_shorter_unless_all.
  pose proof (filter_shorter _ is_completed
                (filter ExecutionStep.required (ExecutionPlan.steps plan)))
    as Hle.
  destruct (forallb is_completed
              (filter ExecutionStep.required (ExecutionPlan.steps plan)))
    eqn:Hall; cbn [negb tally_score tally_issues tally_recommendations].
  - split; [reflexivity|]. split; [lia|]. now left.
  - pose proof (filter_shorter_unless_all _ is_completed
                  (filter ExecutionStep.required (ExecutionPlan.steps plan)))
      as Hlt.
    rewrite Hall in Hlt. cbn [negb] in Hlt. apply Nat.ltb_lt in Hlt.
    split; [apply Z.leb_gt; lia|]. split; [lia|].
    apply in_or_app. right. now left.
Qed.

End ValidatorOnGeneratedPlans.

(** X21.  The automation checks look at names and types only, never at what was
    executed.  A plan generated by [createPlan] for an automation project,
    as generated or with its steps in any status, is valid with score 90;
    the only issue is the missing error handling. *)
Theorem generated_automation_plan_is_valid :
  forall (r : Runtime) (p : PlannerAgent.t) (projectId : string)
         (requirements : JsMap.t JsValue),
    PlannerAgent.templates p = PlannerAgent.templates PlannerAgent.new ->
    exists plan w',
      PlannerAgent.createPlan projectId "automation" requirements (r, p)
      = (Normal plan, w') /\
      forall (executed : ExecutionPlan.t) (rv : Runtime)
             (v : ValidatorAgent.t),
        ExecutionPlan.projectType executed = "automation" ->
        profile (ExecutionPlan.steps executed)
        = profile (ExecutionPlan.steps plan) ->
        exists rv',
          ValidatorAgent.validateProject executed projectId (rv, v)
          = (Normal automation_verdict, (rv', v)).
Proof.
  intros r p projectId requirements Hp.
  assert (Hget : JsMap.get (PlannerAgent.templates p) "automation"
                 = Some PlannerAgent.automation_template)
    by (rewrite Hp; reflexivity).
  destruct (createPlan_run r p projectId "automation" requirements _ Hget)
    as [r' Hrun].
  eexists. eexists. split; [exact Hrun|].
  intros executed rv v Hty Hprofile.
  cbn [planned ExecutionPlan.steps] in Hprofile.
  rewrite stamped_profile in Hprofile.
  change (filter (fun t => PlannerAgent.shouldIncludeStep t requirements)
            PlannerAgent.automation_template)
    with PlannerAgent.automation_template in Hprofile.
  destruct (validateProject_run rv v executed projectId) as (rv' & Hrun' & _).
  exists rv'. rewrite Hrun'.
  now rewrite (automation_tally executed Hty Hprofile).
Qed.

Lemma generated_automation_plan_is_valid_witness :
  exists plan w' rv',
    PlannerAgent.createPlan "p1" "automation" [] (boot, PlannerAgent.new)
    = (Normal plan, w') /\
    ValidatorAgent.validateProject plan "p1" (boot, ValidatorAgent.mk [])
    = (Normal automation_verdict, (rv', ValidatorAgent.mk [])).
Proof.
  destruct (generated_automation_plan_is_valid boot PlannerAgent.new "p1" []
              eq_refl) as (plan & w' & Hrun & Hvalid).
  assert (Hty : ExecutionPlan.projectType plan = "automation").
  { destruct (createPlan_run boot PlannerAgent.new "p1" "automation" []
                PlannerAgent.automation_template eq_refl) as [r1 Hrun1].
    pose proof (f_equal fst (eq_trans (eq_sym Hrun1) Hrun)) as Hplan.
    cbn [fst] in Hplan. apply Normal_injective in Hplan.
    rewrite <- Hplan. reflexivity. }
  destruct (Hvalid plan boot (ValidatorAgent.mk []) Hty eq_refl)
    as [rv' Hrv].
  exists plan, w', rv'. split; [exact Hrun | exact Hrv].
Defined.

(** X22.  A plan generated by [createPlan] for a website project, with its steps
    in any status, is valid exactly when every required step is
    [completed]; its score is at most 85, because the stored template has no
    step that the security check accepts. *)
Theorem generated_website_plan_validity :
  forall (r : Runtime) (p : PlannerAgent.t) (projectId : string)
         (requirements : JsMap.t JsValue),
    PlannerAgent.templates p = PlannerAgent.templates PlannerAgent.new ->
    exists plan w',
      PlannerAgent.createPlan projectId "website" requirements (r, p)
      = (Normal plan, w') /\
      forall (executed : ExecutionPlan.t) (rv : Runtime)
             (v : ValidatorAgent.t),
        ExecutionPlan.projectType executed = "website" ->
        profile (ExecutionPlan.steps executed)
        = profile (ExecutionPlan.steps plan) ->
        exists result rv',
          ValidatorAgent.validateProject executed projectId (rv, v)
          = (Normal result, (rv', v)) /\
          ValidatorAgent.valid result
          = forallb
              (fun s => implb (ExecutionStep.required s)
                          (ValidatorAgent.is_completed s))
              (ExecutionPlan.steps executed) /\
          ValidatorAgent.score result <= 85 /\
          In "Security measures not implemented"
            (ValidatorAgent.issues result).
Proof.
  intros r p projectId requirements Hp.
  assert (Hget : JsMap.get (PlannerAgent.templates p) "website"
                 = Some PlannerAgent.website_template)
    by (rewrite Hp; reflexivity).
  destruct (createPlan_run r p projectId "website" requirements _ Hget)
    as [r' Hrun].
  eexists. eexists. split; [exact Hrun|].
  intros executed rv v Hty Hprofile.
  cbn [planned ExecutionPlan.steps] in Hprofile.
  rewrite stamped_profile in Hprofile.
  assert (Hcases :
    profile (ExecutionPlan.steps executed)
    = profile PlannerAgent.website_template \/
    profile (ExecutionPlan.steps executed) = profile website_without_cms).
  { destruct (stored_kept_cases PlannerAgent.website_template requirements
                (or_introl eq_refl)) as [Hkept | Hkept];
      rewrite Hkept in Hprofile; [left | right]; exact Hprofile. }
  destruct (website_tally executed Hty Hcases) as (Hvalid & Hscore & Hissue).
  destruct (validateProject_run rv v executed projectId) as (rv' & Hrun' & _).
  eexists. exists rv'. split; [exact Hrun'|].
  cbn [ValidatorAgent.valid ValidatorAgent.score ValidatorAgent.issues].
  split; [exact Hvalid|]. split; [exact Hscore | exact Hissue].
Qed.

Lemma generated_website_plan_validity_witness :
  exists plan w' result rv',
    PlannerAgent.createPlan "p1" "website" [] (boot, PlannerAgent.new)
    = (Normal plan, w') /\
    ValidatorAgent.validateProject plan "p1" (boot, ValidatorAgent.mk [])
    = (Normal result, (rv', ValidatorAgent.mk [])) /\
    ValidatorAgent.score result <= 85.
Proof.
  destruct (generated_website_plan_validity boot PlannerAgent.new "p1" []
              eq_refl) as (plan & w' & Hrun & Hvalid).
  assert (Hty : ExecutionPlan.projectType plan = "website").
  { destruct (createPlan_run boot PlannerAgent.new "p1" "website" []
                PlannerAgent.website_template eq_refl) as [r1 Hrun1].
    pose proof (f_equal fst (eq_trans (eq_sym Hrun1) Hrun)) as Hplan.
    cbn [fst] in Hplan. apply Normal_injective in Hplan.
    rewrite <- Hplan. reflexivity. }
  destruct (Hvalid plan boot (ValidatorAgent.mk []) Hty eq_refl)
    as (result & rv' & Hrv & _ & Hscore & _).
  exists plan, w', result, rv'.
  split; [exact Hrun|]. split; [exact Hrv | exact Hscore].
Defined.

(** * Properties of the reviewer *)

Section ReviewerFacts.
Import ReviewerAgent.

Lemma check_run :
  forall threshold issue penalty tally r (a : t),
    check threshold issue penalty tally (r, a) =
    (Normal (if below (random a (drawn a)) threshold
             then mkTally (tally_score tally - penalty)
                    (tally_issues tally ++ [issue])
             else tally),
     (r, after_draws a 1)).
Proof. reflexivity. Qed.

(** A review that makes two checks in a row. *)
Lemma two_checks_run :
  forall th1 issue1 pen1 th2 issue2 pen2 r (a : t),
    (x <- check th1 issue1 pen1 (mkTally 100 []) ;;
     y <- check th2 issue2 pen2 x ;;
     ret (capped y)) (r, a) =
    (Normal
       (capped
          (if below (random a (S (drawn a))) th2
           then mkTally
                  (tally_score
                     (if below (random a (drawn a)) th1
                      then mkTally (100 - pen1) [issue1]
                      else mkTally 100 []) - pen2)
                  (tally_issues
                     (if below (random a (drawn a)) th1
                      then mkTally (100 - pen1) [issue1]
                      else mkTally 100 []) ++ [issue2])
           else if below (random a (drawn a)) th1
                then mkTally (100 - pen1) [issue1]
                else mkTally 100 [])),
     (r, after_draws a 2)).
Proof. reflexivity. Qed.

(** What [reviewStep] makes of the tally [performReview] ends with. *)
Lemma reviewStep_verdict :
  forall step projectId r (a : t) tally a',
    (forall r0,
       (if String.eqb (ExecutionStep.type step) "development"
        then reviewDevelopmentStep step []
        else if String.eqb (ExecutionStep.type step) "testing"
        then reviewTestingStep step []
        else if String.eqb (ExecutionStep.type step) "deployment"
        then reviewDeploymentStep step []
        else if String.eqb (ExecutionStep.type step) "integration"
        then reviewIntegrationStep step []
        else reviewGenericStep step []) (r0, a)
       = (Normal tally, (r0, a'))) ->
    exists r',
      reviewStep step projectId (r, a)
      = (Normal (80 <=? tally_score tally), (r', a')) /\
      clock r' = clock r /\ ticks r' = (2 + ticks r)%nat /\ heap r' = heap r.
Proof.
  intros step projectId r a tally a' Hreview.
  unfold reviewStep, performReview.
  unfold bind at 1, spectreLogger at 1. cbn [fst snd].
  unfold try_catch. unfold bind at 1. unfold bind at 1.
  rewrite Hreview. unfold ret at 1. cbn [passed].
  destruct (80 <=? tally_score tally);
    unfold bind, spectreLogger, ret; cbn [fst snd];
    eexists; (split; [reflexivity|]); repeat split.
Qed.

End ReviewerFacts.

(** X23.  A step whose type is none of development, testing, deployment and
    integration always passes review: whatever the one random draw gives,
    its score is 100 or 90.  [reviewStep] takes that one draw, reads the
    clock twice, to stamp the two events it logs, and touches no project
    and no review. *)
Theorem reviewStep_other_types_pass :
  forall (r : Runtime) (a : ReviewerAgent.t) (step : ExecutionStep.t)
         (projectId : string),
    has_own_review (ExecutionStep.type step) = false ->
    exists r',
      ReviewerAgent.reviewStep step projectId (r, a)
      = (Normal true, (r', after_draws a 1)) /\
      clock r' = clock r /\ ticks r' = (2 + ticks r)%nat /\ heap r' = heap r.
Proof.
  intros r a step projectId Hother.
  unfold has_own_review in Hother. cbn [existsb] in Hother.
  repeat (apply orb_false_elim in Hother;
          let H := fresh "H" in destruct Hother as [H Hother]).
  destruct (reviewStep_verdict step projectId r a
              (if ReviewerAgent.below
                    (ReviewerAgent.random a (ReviewerAgent.drawn a)) 90
               then ReviewerAgent.mkTally 90 ["Step not fully completed"]
               else ReviewerAgent.mkTally 100 [])
              (after_draws a 1)) as (r' & Hrun & Hframe).
  { intros r0. rewrite H, H0, H1, H2.
    unfold ReviewerAgent.reviewGenericStep, bind.
    rewrite check_run. unfold ret, ReviewerAgent.capped.
    now destruct (ReviewerAgent.below _ 90). }
  exists r'. split; [|exact Hframe]. rewrite Hrun.
  now destruct (ReviewerAgent.below _ 90).
Qed.

Lemma reviewStep_other_types_pass_witness :
  exists r',
    ReviewerAgent.reviewStep
      (PlannerAgent.literal "setup_repo" "Setup GitHub Repository"
         "Create and configure GitHub repository for the project" "setup" []
         30 true 1)
      "p1" (boot, fifty)
    = (Normal true, (r', after_draws fifty 1)).
Proof.
  destruct (reviewStep_other_types_pass boot fifty
              (PlannerAgent.literal "setup_repo" "Setup GitHub Repository"
                 "Create and configure GitHub repository for the project"
                 "setup" [] 30 true 1)
              "p1" eq_refl) as (r' & Hrun & _).
  exists r'. exact Hrun.
Defined.

Lemma reviewStep_two_checks :
  forall (r : Runtime) (a : ReviewerAgent.t) (step : ExecutionStep.t)
         (projectId : string) (threshold1 threshold2 : Z) (both : bool),
    (ExecutionStep.type step = "testing" /\
     threshold1 = 80 /\ threshold2 = 75 /\ both = false) \/
    (ExecutionStep.type step = "deployment" /\
     threshold1 = 85 /\ threshold2 = 90 /\ both = true) \/
    (ExecutionStep.type step = "integration" /\
     threshold1 = 85 /\ threshold2 = 70 /\ both = true) ->
    exists r',
      ReviewerAgent.reviewStep step projectId (r, a)
      = (Normal
           (negb
              (ReviewerAgent.below
                 (ReviewerAgent.random a (ReviewerAgent.drawn a)) threshold1
               && (negb both
                   || ReviewerAgent.below
                        (ReviewerAgent.random a (S (ReviewerAgent.drawn a)))
                        threshold2))),
         (r', after_draws a 2)).
Proof.
  intros r a step projectId threshold1 threshold2 both Hcase.
  destruct Hcase as [(Hty & -> & -> & ->) | [(Hty & -> & -> & ->)
                                            | (Hty & -> & -> & ->)]].
  - destruct (reviewStep_verdict step projectId r a
                (ReviewerAgent.capped
                   (if ReviewerAgent.below
                         (ReviewerAgent.random a (S (ReviewerAgent.drawn a)))
                         75
                    then ReviewerAgent.mkTally
                           (ReviewerAgent.tally_score
                              (if ReviewerAgent.below
                                    (ReviewerAgent.random a
                                       (ReviewerAgent.drawn a)) 80
                               then ReviewerAgent.mkTally (100 - 25)
                                      ["Insufficient test coverage"]
                               else ReviewerAgent.mkTally 100 []) - 15)
                           (ReviewerAgent.tally_issues
                              (if ReviewerAgent.below
                                    (ReviewerAgent.random a
                                       (ReviewerAgent.drawn a)) 80
                               then ReviewerAgent.mkTally (100 - 25)
                                      ["Insufficient test coverage"]
                               else ReviewerAgent.mkTally 100 [])
                            ++ ["Test quality needs improvement"])
                    else if ReviewerAgent.below
                              (ReviewerAgent.random a (ReviewerAgent.drawn a))
                              80
                         then ReviewerAgent.mkTally (100 - 25)
                                ["Insufficient test coverage"]
                         else ReviewerAgent.mkTally 100 []))
                (after_draws a 2)) as (r' & Hrun & _).
    { intros r0. rewrite Hty.
      change (String.eqb "testing" "development") with false.
      change (String.eqb "testing" "testing") with true.
      apply two_checks_run. }
    exists r'. rewrite Hrun.
    destruct (ReviewerAgent.below _ 80), (ReviewerAgent.below _ 75);
      reflexivity.
  - destruct (reviewStep_verdict step projectId r a
                (ReviewerAgent.capped
                   (if ReviewerAgent.below
                         (ReviewerAgent.random a (S (ReviewerAgent.drawn a)))
                         90
                    then ReviewerAgent.mkTally
                           (ReviewerAgent.tally_score
                              (if ReviewerAgent.below
                                    (ReviewerAgent.random a
                                       (ReviewerAgent.drawn a)) 85
                               then ReviewerAgent.mkTally (100 - 20)
                                      ["Deployment configuration issues"]
                               else ReviewerAgent.mkTally 100 []) - 10)
                           (ReviewerAgent.tally_issues
                              (if ReviewerAgent.below
                                    (ReviewerAgent.random a
                                       (ReviewerAgent.drawn a)) 85
                               then ReviewerAgent.mkTally (100 - 20)
                                      ["Deployment configuration issues"]
                               else ReviewerAgent.mkTally 100 [])
                            ++ ["Environment setup incomplete"])
                    else if ReviewerAgent.below
                              (ReviewerAgent.random a (ReviewerAgent.drawn a))
                              85
                         then ReviewerAgent.mkTally (100 - 20)
                                ["Deployment configuration issues"]
                         else ReviewerAgent.mkTally 100 []))
                (after_draws a 2)) as (r' & Hrun & _).
    { intros r0. rewrite Hty.
      change (String.eqb "deployment" "development") with false.
      change (String.eqb "deployment" "testing") with false.
      change (String.eqb "deployment" "deployment") with true.
      apply two_checks_run. }
    exists r'. rewrite Hrun.
    destruct (ReviewerAgent.below _ 85), (ReviewerAgent.below _ 90);
      reflexivity.
  - destruct (reviewStep_verdict step projectId r a
                (ReviewerAgent.capped
                   (if ReviewerAgent.below
                         (ReviewerAgent.random a (S (ReviewerAgent.drawn a)))
                         70
                    then ReviewerAgent.mkTally
                           (ReviewerAgent.tally_score
                              (if ReviewerAgent.below
                                    (ReviewerAgent.random a
                                       (ReviewerAgent.drawn a)) 85
                               then ReviewerAgent.mkTally (100 - 20)
                                      ["Integration incomplete"]
                               else ReviewerAgent.mkTally 100 []) - 15)
                           (ReviewerAgent.tally_issues
                              (if ReviewerAgent.below
                                    (ReviewerAgent.random a
                                       (ReviewerAgent.drawn a)) 85
                               then ReviewerAgent.mkTally (100 - 20)
                                      ["Integration incomplete"]
                               else ReviewerAgent.mkTally 100 [])
                            ++ ["API documentation missing"])
                    else if ReviewerAgent.below
                              (ReviewerAgent.random a (ReviewerAgent.drawn a))
                              85
                         then ReviewerAgent.mkTally (100 - 20)
                                ["Integration incomplete"]
                         else ReviewerAgent.mkTally 100 []))
                (after_draws a 2)) as (r' & Hrun & _).
    { intros r0. rewrite Hty.
      change (String.eqb "integration" "development") with false.
      change (String.eqb "integration" "testing") with false.
      change (String.eqb "integration" "deployment") with false.
      change (String.eqb "integration" "integration") with true.
      apply two_checks_run. }
    exists r'. rewrite Hrun.
    destruct (ReviewerAgent.below _ 85), (ReviewerAgent.below _ 70);
      reflexivity.
Qed.

(** X24.  For testing, deployment and integration steps [reviewStep] takes two
    random draws.  A testing step passes exactly when the first draw, the
    test coverage, is not below 80; a deployment step fails exactly when the
    first draw is below 85 and the second below 90; an integration step
    fails exactly when the first is below 85 and the second below 70. *)
Theorem reviewStep_two_draws :
  forall (r : Runtime) (a : ReviewerAgent.t) (step : ExecutionStep.t)
         (projectId : string),
    (ExecutionStep.type step = "testing" ->
     exists r',
       ReviewerAgent.reviewStep step projectId (r, a)
       = (Normal
            (negb (ReviewerAgent.below
                     (ReviewerAgent.random a (ReviewerAgent.drawn a)) 80)),
          (r', after_draws a 2))) /\
    (ExecutionStep.type step = "deployment" ->
     exists r',
       ReviewerAgent.reviewStep step projectId (r, a)
       = (Normal
            (negb
               (ReviewerAgent.below
                  (ReviewerAgent.random a (ReviewerAgent.drawn a)) 85
                && ReviewerAgent.below
                     (ReviewerAgent.random a (S (ReviewerAgent.drawn a))) 90)),
          (r', after_draws a 2))) /\
    (ExecutionStep.type step = "integration" ->
     exists r',
       ReviewerAgent.reviewStep step projectId (r, a)
       = (Normal
            (negb
               (ReviewerAgent.below
                  (ReviewerAgent.random a (ReviewerAgent.drawn a)) 85
                && ReviewerAgent.below
                     (ReviewerAgent.random a (S (ReviewerAgent.drawn a))) 70)),
          (r', after_draws a 2))).
Proof.
  intros r a step projectId. split; [|split]; intros Hty.
  - destruct (reviewStep_two_checks r a step projectId 80 75 false)
      as [r' Hrun]; [left; now repeat split|].
    exists r'. rewrite Hrun. cbn [negb orb]. now rewrite andb_true_r.
  - destruct (reviewStep_two_checks r a step projectId 85 90 true)
      as [r' Hrun]; [right; left; now repeat split|].
    exists r'. exact Hrun.
  - destruct (reviewStep_two_checks r a step projectId 85 70 true)
      as [r' Hrun]; [right; right; now repeat split|].
    exists r'. exact Hrun.
Qed.

Lemma reviewStep_two_draws_witness :
  exists r',
    ReviewerAgent.reviewStep
      (PlannerAgent.literal "testing" "Testing and Quality Assurance"
         "Perform comprehensive testing and quality checks" "testing"
         ["setup_deployment"] 120 true 9)
      "p1" (boot, fifty)
    = (Normal false, (r', after_draws fifty 2)).
Proof.
  destruct (reviewStep_two_draws boot fifty
              (PlannerAgent.literal "testing" "Testing and Quality Assurance"
                 "Perform comprehensive testing and quality checks" "testing"
                 ["setup_deployment"] 120 true 9)
              "p1") as [Htesting _].
  destruct (Htesting eq_refl) as [r' Hrun].
  exists r'. exact Hrun.
Defined.

(** X25.  A development step fails review exactly when its name makes both the
    code-quality check (a name with "Backend" or "Frontend") and the security
    check (a name with "API" or "Backend") apply, and the first draw is below
    70 and the second below 80.  A development step whose name triggers at
    most one of the two checks always passes. *)
Theorem reviewStep_development :
  forall (r : Runtime) (a : ReviewerAgent.t) (step : ExecutionStep.t)
         (projectId : string),
    ExecutionStep.type step = "development" ->
    exists r' a',
      ReviewerAgent.reviewStep step projectId (r, a)
      = (Normal
           (negb
              ((String_includes (ExecutionStep.name step) "Backend"
                || String_includes (ExecutionStep.name step) "Frontend")
               && (String_includes (ExecutionStep.name step) "API"
                   || String_includes (ExecutionStep.name step) "Backend")
               && ReviewerAgent.below
                    (ReviewerAgent.random a (ReviewerAgent.drawn a)) 70
               && ReviewerAgent.below
                    (ReviewerAgent.random a (S (ReviewerAgent.drawn a))) 80)),
         (r', a')) /\
      ReviewerAgent.reviews a' = ReviewerAgent.reviews a.
Proof.
  intros r a step projectId Hty.
  destruct (String_includes (ExecutionStep.name step) "Backend"
            || String_includes (ExecutionStep.name step) "Frontend")
    eqn:Hquality;
    destruct (String_includes (ExecutionStep.name step) "API"
              || String_includes (ExecutionStep.name step) "Backend")
      eqn:Hsecurity;
    (edestruct (reviewStep_verdict step projectId r a) as (r' & Hrun & _);
     [ intros r0; rewrite Hty;
       change (String.eqb "development" "development") with true;
       unfold ReviewerAgent.reviewDevelopmentStep;
       rewrite Hquality, Hsecurity; unfold bind;
       rewrite ?check_run; unfold ret at 1; cbn match;
       rewrite ?check_run; reflexivity
     | exists r'; eexists; rewrite Hrun; split;
       [ cbn [andb after_draws ReviewerAgent.random ReviewerAgent.drawn
              Nat.add];
         repeat match goal with
                | |- context [ReviewerAgent.below ?x ?n] =>
                    destruct (ReviewerAgent.below x n)
                end;
         reflexivity
       | reflexivity ] ]).
Qed.

Lemma reviewStep_development_witness :
  exists r' a',
    ReviewerAgent.reviewStep
      (PlannerAgent.literal "create_backend" "Create Backend API"
         "Develop backend API endpoints and business logic" "development"
         ["setup_database"] 180 true 5)
      "p1" (boot, fifty)
    = (Normal false, (r', a')).
Proof.
  destruct (reviewStep_development boot fifty
              (PlannerAgent.literal "create_backend" "Create Backend API"
                 "Develop backend API endpoints and business logic"
                 "development" ["setup_database"] 180 true 5)
              "p1" eq_refl) as (r' & a' & Hrun & _).
  exists r', a'. exact Hrun.
Defined.

(** * Properties of the project routes *)

(** X26.  How the project routes answer when the orchestrator refuses.  For an
    identity under which no project is stored, GET /projects/:id answers 404
    "Project not found", while the start, stop, plan and execute routes
    answer 500 with "Project <id> not found".  For a stored project, the
    plan route answers 500 "Planner agent not found" when no planner is
    registered, and the execute route answers 500 "No plan found for
    project <id>" when the project has no plan.  No route throws, and in
    all these cases nothing changes. *)
Theorem routes_refusals :
  forall (r : Runtime) (o : Orchestrator.t) (id : string),
    (JsMap.get (Orchestrator.projects o) id = None ->
     SpectreApp.get_project id (r, o)
     = (Normal (SpectreApp.refused 404 "Project not found"), (r, o)) /\
     SpectreApp.post_start id (r, o)
     = (Normal (SpectreApp.refused 500 ("Project " ++ id ++ " not found")),
        (r, o)) /\
     SpectreApp.post_stop id (r, o)
     = (Normal (SpectreApp.refused 500 ("Project " ++ id ++ " not found")),
        (r, o)) /\
     SpectreApp.post_plan id (r, o)
     = (Normal (SpectreApp.refused 500 ("Project " ++ id ++ " not found")),
        (r, o)) /\
     SpectreApp.post_execute id (r, o)
     = (Normal (SpectreApp.refused 500 ("Project " ++ id ++ " not found")),
        (r, o))) /\
    (forall project,
       JsMap.get (Orchestrator.projects o) id = Some project ->
       (JsMap.get (Orchestrator.agents o) "planner" = None ->
        SpectreApp.post_plan id (r, o)
        = (Normal (SpectreApp.refused 500 "Planner agent not found"),
           (r, o))) /\
       (Orchestrator.findPlan o id = None ->
        SpectreApp.post_execute id (r, o)
        = (Normal
             (SpectreApp.refused 500 ("No plan found for project " ++ id)),
           (r, o)))).
Proof.
  intros r o id. split.
  - intros Hget.
    unfold SpectreApp.get_project, SpectreApp.post_start,
      SpectreApp.post_stop, SpectreApp.post_plan, SpectreApp.post_execute,
      Orchestrator.getProject, Orchestrator.startProject,
      Orchestrator.stopProject, Orchestrator.generateExecutionPlan,
      Orchestrator.executeProjectPlan, Orchestrator.executeProjectPlan_begin,
      try_catch, bind, this, ret, throw.
    cbn [fst snd]. rewrite Hget. repeat split.
  - intros project Hget. split; intros Hnone.
    + unfold SpectreApp.post_plan, Orchestrator.generateExecutionPlan,
        try_catch, bind, this, ret, throw.
      cbn [fst snd]. now rewrite Hget, Hnone.
    + unfold SpectreApp.post_execute, Orchestrator.executeProjectPlan,
        Orchestrator.executeProjectPlan_begin, try_catch, bind, this, ret,
        throw.
      cbn [fst snd]. now rewrite Hget, Hnone.
Qed.

Lemma routes_refusals_witness :
  SpectreApp.post_start "ghost" (boot, Orchestrator.new)
  = (Normal (SpectreApp.refused 500 ("Project " ++ "ghost" ++ " not found")),
     (boot, Orchestrator.new)) /\
  SpectreApp.post_execute "project_1700000000000"
    (fst shop_created, snd shop_created)
  = (Normal
       (SpectreApp.refused 500
          ("No plan found for project " ++ "project_1700000000000")),
     (fst shop_created, snd shop_created)).
Proof.
  split.
  - destruct (routes_refusals boot Orchestrator.new "ghost") as [Hunknown _].
    exact (proj1 (proj2 (Hunknown eq_refl))).
  - destruct (routes_refusals (fst shop_created) (snd shop_created)
                "project_1700000000000") as [_ Hknown].
    exact (proj2 (Hknown 0%nat eq_refl) eq_refl).
Defined.

(** X27.  The execute route answers 200 with the message "Project execution
    started" only once [executeProjectPlan] has resolved: by the time of
    the answer the project is already in status [completed]. *)
Theorem execute_route_answers_after_completion :
  forall (r : Runtime) (o : Orchestrator.t) (id : string) (project : ref)
         (plan : ExecutionPlan.t),
    JsMap.get (Orchestrator.projects o) id = Some project ->
    Orchestrator.findPlan o id = Some plan ->
    exists r',
      SpectreApp.post_execute id (r, o)
      = (Normal (SpectreApp.done "Project execution started"), (r', o)) /\
      SpectreApp.status (SpectreApp.done "Project execution started") = 200 /\
      Orchestrator.statusOf (r', o) id = Some ProjectStatus.completed.
Proof.
  intros r o id project plan Hget Hfind.
  destruct (executeProjectPlan_run r o id project plan Hget Hfind)
    as (r' & Hrun & Hmoved & _).
  exists r'. split; [|split; [reflexivity|]].
  - unfold SpectreApp.post_execute, try_catch. unfold bind at 1.
    rewrite Hrun. reflexivity.
  - exact (statusOf_moved r r' o id project _ Hget Hmoved).
Qed.

Lemma execute_route_answers_after_completion_witness :
  exists r',
    SpectreApp.post_execute "project_1700000000000"
      (fst shop_planned_twice, snd shop_planned_twice)
    = (Normal (SpectreApp.done "Project execution started"),
       (r', snd shop_planned_twice)) /\
    Orchestrator.statusOf (r', snd shop_planned_twice) "project_1700000000000"
    = Some ProjectStatus.completed.
Proof.
  assert (Hget : JsMap.get (Orchestrator.projects (snd shop_planned_twice))
                   "project_1700000000000" = Some 0%nat)
    by (vm_compute; reflexivity).
  destruct (Orchestrator.findPlan (snd shop_planned_twice)
              "project_1700000000000") as [plan|] eqn:Hfind;
    [|vm_compute in Hfind; discriminate Hfind].
  destruct (execute_route_answers_after_completion (fst shop_planned_twice)
              (snd shop_planned_twice) "project_1700000000000" 0%nat plan
              Hget Hfind) as (r' & Hrun & _ & Hstatus).
  exists r'. split; [exact Hrun | exact Hstatus].
Defined.

(** * Plans generated in the same millisecond *)

Lemma createPlan_run_clock :
  forall r (p : PlannerAgent.t) projectId projectType requirements template,
    JsMap.get (PlannerAgent.templates p) projectType = Some template ->
    exists r',
      PlannerAgent.createPlan projectId projectType requirements (r, p) =
      (Normal (planned (clock r) (S (ticks r)) projectId projectType template
                 requirements),
       (r',
        PlannerAgent.mk
          (JsMap.set (PlannerAgent.plans p)
             (ExecutionPlan.id
                (planned (clock r) (S (ticks r)) projectId projectType template
                   requirements))
             (planned (clock r) (S (ticks r)) projectId projectType template
                requirements))
          (PlannerAgent.templates p))) /\
      clock r' = clock r.
Proof.
  intros r p projectId projectType requirements template Hget.
  unfold PlannerAgent.createPlan, PlannerAgent.customizeSteps.
  unfold bind at 1, spectreLogger at 1. cbn [fst snd].
  unfold bind at 1, this at 1. cbn [fst snd]. rewrite Hget.
  unfold bind at 1. rewrite customizeSteps_from_run. cbn [app clock ticks].
  eexists.
  unfold bind, Date_now, new_Date, Date_now, update, spectreLogger, ret.
  cbn [fst snd clock ticks log heap fresh advance].
  split; reflexivity.
Qed.

(** X28.  The identity of a plan is [plan_<project>_<now>]: two plans generated
    for the same project while the clock stands still get the same identity,
    and the second takes the place of the first in the plan store, which
    holds one record for the two generations. *)
Theorem createPlan_same_millisecond :
  forall (r : Runtime) (p : PlannerAgent.t) (projectId : string)
         (type1 type2 : string) (requirements1 requirements2 : JsMap.t JsValue)
         (template1 template2 : list ExecutionStep.t),
    (forall i j, clock r i = clock r j) ->
    JsMap.get (PlannerAgent.templates p) type1 = Some template1 ->
    JsMap.get (PlannerAgent.templates p) type2 = Some template2 ->
    exists plan1 w1 plan2 w2,
      PlannerAgent.createPlan projectId type1 requirements1 (r, p)
      = (Normal plan1, w1) /\
      PlannerAgent.createPlan projectId type2 requirements2 w1
      = (Normal plan2, w2) /\
      ExecutionPlan.id plan1 = ExecutionPlan.id plan2 /\
      JsMap.size (PlannerAgent.plans (snd w2))
      = JsMap.size (PlannerAgent.plans (snd w1)) /\
      PlannerAgent.getPlan (ExecutionPlan.id plan1) w2
      = (Normal (Some plan2), w2).
Proof.
  intros r p projectId type1 type2 requirements1 requirements2 template1
    template2 Hfrozen Hget1 Hget2.
  destruct (createPlan_run_clock r p projectId type1 requirements1 template1
              Hget1) as (r1 & Hrun1 & Hclock1).
  set (plan1 := planned (clock r) (S (ticks r)) projectId type1 template1
                  requirements1) in *.
  set (p1 := PlannerAgent.mk
               (JsMap.set (PlannerAgent.plans p) (ExecutionPlan.id plan1) plan1)
               (PlannerAgent.templates p)) in *.
  destruct (createPlan_run_clock r1 p1 projectId type2 requirements2 template2
              Hget2) as (r2 & Hrun2 & _).
  set (plan2 := planned (clock r1) (S (ticks r1)) projectId type2 template2
                  requirements2) in *.
  assert (Hid : ExecutionPlan.id plan1 = ExecutionPlan.id plan2).
  { unfold plan1, plan2. cbn [planned ExecutionPlan.id]. rewrite Hclock1.
    now rewrite (Hfrozen
                   (S (ticks r)
                    + length (stamped (clock r) (S (ticks r)) template1
                                requirements1))%nat
                   (S (ticks r1)
                    + length (stamped (clock r) (S (ticks r1)) template2
                                requirements2))%nat). }
  exists plan1, (r1, p1), plan2. eexists.
  split; [exact Hrun1|]. split; [exact Hrun2|]. split; [exact Hid|].
  cbn [snd PlannerAgent.plans]. split.
  - rewrite JsMap_size_set. unfold JsMap.has. unfold p1.
    cbn [PlannerAgent.plans]. rewrite <- Hid.
    now rewrite JsMap_get_set_same.
  - unfold PlannerAgent.getPlan, bind, this, ret.
    cbn [fst snd PlannerAgent.plans]. rewrite Hid.
    now rewrite JsMap_get_set_same.
Qed.

Lemma createPlan_same_millisecond_witness :
  exists plan1 w1 plan2 w2,
    PlannerAgent.createPlan "p1" "website" [] (frozen, PlannerAgent.new)
    = (Normal plan1, w1) /\
    PlannerAgent.createPlan "p1" "automation" [] w1 = (Normal plan2, w2) /\
    ExecutionPlan.id plan1 = ExecutionPlan.id plan2 /\
    PlannerAgent.getPlan (ExecutionPlan.id plan1) w2
    = (Normal (Some plan2), w2).
Proof.
  destruct (createPlan_same_millisecond frozen PlannerAgent.new "p1"
              "website" "automation" [] [] PlannerAgent.website_template
              PlannerAgent.automation_template (fun _ _ => eq_refl) eq_refl
              eq_refl)
    as (plan1 & w1 & plan2 & w2 & H1 & H2 & Hid & _ & Hget).
  exists plan1, w1, plan2, w2.
  split; [exact H1|]. split; [exact H2|]. split; [exact Hid | exact Hget].
Defined.

(** * Properties of the questioner *)

Section QuestionerFacts.
Import QuestionerAgent.

Lemma nth_error_skipn :
  forall (A : Type) (l : list A) (n : nat) (x : A),
    nth_error l n = Some x -> exists rest, skipn n l = x :: rest.
Proof.
  intros A. induction l as [|a l IH]; intros [|n] x H; cbn in H;
    try discriminate.
  - inversion H; subst. now exists l.
  - cbn [skipn]. now apply IH.
Qed.

Lemma submitAnswer_run :
  forall r (a : t) sessionId session pattern answer,
    JsMap.get (activeSessions a) sessionId = Some session ->
    nth_error (QuestionSession.patterns session)
      (QuestionSession.currentPattern session) = Some pattern ->
    exists r' a',
      submitAnswer sessionId answer (r, a) = (Normal tt, (r', a')) /\
      JsMap.get (activeSessions a') sessionId
      = Some
          (answered_session session pattern answer (clock r (ticks r))
             (if (length (QuestionPattern.questions pattern)
                  <=? S (length (given_answers session pattern)))%nat
              then S (QuestionSession.currentPattern session)
              else QuestionSession.currentPattern session)) /\
      questionPatterns a' = questionPatterns a /\
      (forall other,
         other <> sessionId ->
         JsMap.get (activeSessions a') other
         = JsMap.get (activeSessions a) other).
Proof.
  intros r a sessionId session pattern answer Hget Hnth.
  unfold submitAnswer. unfold bind at 1, this at 1. cbn [fst snd].
  rewrite Hget, Hnth. fold (given_answers session pattern).
  rewrite length_app, Nat.add_1_r. cbn [QuestionSession.currentPattern].
  destruct (length (QuestionPattern.questions pattern)
            <=? S (length (given_answers session pattern)))%nat;
    unfold bind, new_Date, Date_now, store, update, spectreLogger, ret;
    cbn [fst snd clock ticks log heap fresh];
    eexists; eexists; (split; [reflexivity|]);
    cbn [activeSessions questionPatterns].
  - split; [now rewrite JsMap_get_set_same|]. split; [reflexivity|].
    intros other Hother. now rewrite !JsMap_get_set_other.
  - split; [now rewrite JsMap_get_set_same|]. split; [reflexivity|].
    intros other Hother. now rewrite JsMap_get_set_other.
Qed.

End QuestionerFacts.

(** X29.  Asking follows answering.  When the current pattern of a session still
    has a question after the one an answer is submitted for, [submitAnswer]
    appends the answer to the answers of that pattern, stays on the pattern,
    and [getNextQuestion] then returns that following question. *)
Theorem submitAnswer_then_getNextQuestion :
  forall (r : Runtime) (a : QuestionerAgent.t) (sessionId : string)
         (session : QuestionSession.t) (pattern : QuestionPattern.t)
         (answer question : string),
    JsMap.get (QuestionerAgent.activeSessions a) sessionId = Some session ->
    nth_error (QuestionSession.patterns session)
      (QuestionSession.currentPattern session) = Some pattern ->
    nth_error (QuestionPattern.questions pattern)
      (S (length (given_answers session pattern))) = Some question ->
    question <> "" ->
    exists r1 a1 r2,
      QuestionerAgent.submitAnswer sessionId answer (r, a)
      = (Normal tt, (r1, a1)) /\
      JsMap.get (QuestionerAgent.activeSessions a1) sessionId
      = Some
          (answered_session session pattern answer (clock r (ticks r))
             (QuestionSession.currentPattern session)) /\
      QuestionerAgent.getNextQuestion sessionId (r1, a1)
      = (Normal (Some question), (r2, a1)).
Proof.
  intros r a sessionId session pattern answer question Hget Hnth Hquestion
    Hnonempty.
  destruct (submitAnswer_run r a sessionId session pattern answer Hget Hnth)
    as (r1 & a1 & Hrun & Hstored & _ & _).
  assert (Hopen : (length (QuestionPattern.questions pattern)
                   <=? S (length (given_answers session pattern)))%nat
                  = false).
  { apply Nat.leb_gt. apply nth_error_Some. congruence. }
  rewrite Hopen in Hstored.
  exists r1, a1. eexists. split; [exact Hrun|]. split; [exact Hstored|].
  unfold QuestionerAgent.getNextQuestion. unfold bind at 1, this at 1.
  cbn [fst snd]. rewrite Hstored.
  cbn [answered_session QuestionSession.currentPattern
       QuestionSession.patterns].
  destruct (nth_error_skipn _ _ _ _ Hnth) as [rest ->].
  cbn [QuestionerAgent.nextQuestion].
  unfold QuestionerAgent.answered.
  change (QuestionSession.answers
            (answered_session session pattern answer (clock r (ticks r))
               (QuestionSession.currentPattern session)))
    with (JsMap.set (QuestionSession.answers session)
            (QuestionPattern.id pattern)
            (given_answers session pattern ++ [answer])%list).
  rewrite JsMap_get_set_same, length_app, Nat.add_1_r, Hquestion.
  destruct question as [|c q]; [congruence|].
  reflexivity.
Qed.

Lemma submitAnswer_then_getNextQuestion_witness :
  exists w1 w2,
    QuestionerAgent.submitAnswer "session_p1_1700000000001" "a shop"
      (fst (snd (QuestionerAgent.startSession "p1" "website"
                   (boot, QuestionerAgent.new))),
       snd (snd (QuestionerAgent.startSession "p1" "website"
                   (boot, QuestionerAgent.new))))
    = (Normal tt, w1) /\
    QuestionerAgent.getNextQuestion "session_p1_1700000000001" w1
    = (Normal (Some "Who is your target audience?"), w2).
Proof.
  assert (Hnonempty : "Who is your target audience?" <> "") by discriminate.
  destruct (submitAnswer_then_getNextQuestion
              (fst (snd (QuestionerAgent.startSession "p1" "website"
                           (boot, QuestionerAgent.new))))
              (snd (snd (QuestionerAgent.startSession "p1" "website"
                           (boot, QuestionerAgent.new))))
              "session_p1_1700000000001"
              (QuestionSession.mk "session_p1_1700000000001" "p1" "website"
                 0%nat JsMap.empty
                 [QuestionerAgent.website_basic;
                  QuestionerAgent.website_advanced]
                 SessionStatus.active 1700000000002 1700000000003)
              QuestionerAgent.website_basic "a shop"
              "Who is your target audience?" eq_refl eq_refl eq_refl
              Hnonempty)
    as (r1 & a1 & r2 & Hsubmit & _ & Hnext).
  exists (r1, a1), (r2, a1). split; [exact Hsubmit | exact Hnext].
Defined.

(** X30.  The answer that fills the last pattern of a session closes it: the
    session moves past its patterns, after which [getNextQuestion] returns
    [null] and [submitAnswer] throws "No active pattern for session", both
    leaving the questioner as it is. *)
Theorem last_answer_closes_the_patterns :
  forall (r : Runtime) (a : QuestionerAgent.t) (sessionId : string)
         (session : QuestionSession.t) (pattern : QuestionPattern.t)
         (answer later : string),
    JsMap.get (QuestionerAgent.activeSessions a) sessionId = Some session ->
    nth_error (QuestionSession.patterns session)
      (QuestionSession.currentPattern session) = Some pattern ->
    S (QuestionSession.currentPattern session)
    = length (QuestionSession.patterns session) ->
    (length (QuestionPattern.questions pattern)
     <= S (length (given_answers session pattern)))%nat ->
    exists r1 a1,
      QuestionerAgent.submitAnswer sessionId answer (r, a)
      = (Normal tt, (r1, a1)) /\
      JsMap.get (QuestionerAgent.activeSessions a1) sessionId
      = Some
          (answered_session session pattern answer (clock r (ticks r))
             (length (QuestionSession.patterns session))) /\
      QuestionerAgent.getNextQuestion sessionId (r1, a1)
      = (Normal None, (r1, a1)) /\
      QuestionerAgent.submitAnswer sessionId later (r1, a1)
      = (Throw "No active pattern for session", (r1, a1)).
Proof.
  intros r a sessionId session pattern answer later Hget Hnth Hlast Hfull.
  destruct (submitAnswer_run r a sessionId session pattern answer Hget Hnth)
    as (r1 & a1 & Hrun & Hstored & _ & _).
  apply Nat.leb_le in Hfull. rewrite Hfull, Hlast in Hstored.
  exists r1, a1. split; [exact Hrun|]. split; [exact Hstored|]. split.
  - unfold QuestionerAgent.getNextQuestion. unfold bind at 1, this at 1.
    cbn [fst snd]. rewrite Hstored.
    cbn [answered_session QuestionSession.currentPattern
         QuestionSession.patterns].
    now rewrite skipn_all.
  - unfold QuestionerAgent.submitAnswer. unfold bind at 1, this at 1.
    cbn [fst snd]. rewrite Hstored.
    cbn [answered_session QuestionSession.currentPattern
         QuestionSession.patterns].
    assert (Hout : nth_error (QuestionSession.patterns session)
                     (length (QuestionSession.patterns session)) = None)
      by (apply nth_error_None; lia).
    now rewrite Hout.
Qed.

Lemma last_answer_closes_the_patterns_witness :
  exists w1,
    QuestionerAgent.submitAnswer "session_p2_1" "weekly" (fst closing, snd closing)
    = (Normal tt, w1) /\
    QuestionerAgent.getNextQuestion "session_p2_1" w1 = (Normal None, w1) /\
    QuestionerAgent.submitAnswer "session_p2_1" "again" w1
    = (Throw "No active pattern for session", w1).
Proof.
  assert (Hfull : (length (QuestionPattern.questions
                             QuestionerAgent.automation_basic)
                   <= S (length (given_answers closing_session
                                   QuestionerAgent.automation_basic)))%nat)
    by (vm_compute; lia).
  destruct (last_answer_closes_the_patterns (fst closing) (snd closing)
              "session_p2_1" closing_session QuestionerAgent.automation_basic
              "weekly" "again" eq_refl eq_refl eq_refl Hfull)
    as (r1 & a1 & Hsubmit & _ & Hnext & Hlater).
  exists (r1, a1). split; [exact Hsubmit|]. split; [exact Hnext | exact Hlater].
Defined.
